(** * DeFiUtilityBot: the payment agents [car_agent.py] and [m2m_client.py]

    A shallow embedding of the two Python agents under [backend/agents] and
    the properties of their settlement code.

    Definitions:
    - [Py]         the fragment of Python the agents rely on: exceptions,
                   binary64 floats, [str] methods, JSON values and dicts;
    - [World]      the web3 calls and the merchant server, and the monad of
                   computations that act on them;
    - [CarAgent]   [car_agent.py];
    - [M2MClient]  [m2m_client.py];
    - [Spec]       the specification's wording and the notions the
                   statements use;
    - [Scenarios]  the servers and chains of the examples;
    - [Runs]       notions used in the statements about whole runs.

    Lemmas and theorems:
    - [FloatFacts]          rounding to binary64;
    - [AmountFacts]         token units and the cap on liters;
    - [RevertReasonFacts]   the two revert-reason parsers;
    - [SpendFacts]          the spend functions;
    - [SettlementFacts]     the retry loop of [car_agent.py];
    - [ConfirmationFacts]   confirmation;
    - [SchemaFacts]         the payment terms of the 402 answer;
    - [GeoFacts]            device discovery;
    - [OrderFacts]          the order of floats;
    - [TxHashFacts]         [normalize_txhash];
    - [SpendOutcomeFacts]   what the spend functions return and raise;
    - [TransactionFacts]    the transaction handed to the signer;
    - [TermsFacts]          the terms accepted from a 402 answer;
    - [DiscoveryFacts]      the selection of a device in [main];
    - [PlannerFacts]        unit conversions and the cap on liters;
    - [TraceFacts]          the log of a run of [car_agent.py];
    - [M2MRunFacts]         the log of a run of [m2m_client.py];
    - [DemoModeFacts], [ReportFacts]
                            the demo mode and the failure report;
    - [ReasonFacts]         the reasons both parsers return;
    - [RequestFacts]        the requests of a run of [car_agent.py]. *)

From Stdlib Require Import Reals Lra.
From Stdlib Require Import ZArith QArith Qround Qpower Lia Lqa.
From Stdlib Require Import List Bool Ascii String DecimalString.
From Stdlib Require Import SpecFloat.
Import ListNotations.

(* ================================================================= *)
(** * Python semantics used by the agents *)
(* ================================================================= *)

Module Py.

(** ** Exceptions *)

(** The exception classes that occur.  [SystemExit] and [KeyboardInterrupt]
    derive from [BaseException] only, so [except Exception] lets them
    through; web3's [ContractLogicError] derives from [Exception]. *)
Inductive exn_class :=
| SystemExit | KeyboardInterrupt
| ZeroDivisionError | OverflowError | ValueError | TypeError
| AttributeError | KeyError | IndexError | ConnectionError | TimeExhausted
| ContractLogicError | RuntimeError.

Definition is_Exception (c : exn_class) : bool :=
  match c with
  | SystemExit | KeyboardInterrupt => false
  | _ => true
  end.

Definition is_ContractLogicError (c : exn_class) : bool :=
  match c with
  | ContractLogicError => true
  | _ => false
  end.

(** A raised exception: its class and [str(e)]. *)
Record exn := Exn { exn_cls : exn_class; exn_str : string }.

(** The outcome of evaluating a Python expression: a value or a raised
    exception. *)
Inductive result (A : Type) :=
| Ok (a : A)
| Raise (e : exn).
Arguments Ok {A} a.
Arguments Raise {A} e.

Definition bind {A B} (r : result A) (k : A -> result B) : result B :=
  match r with
  | Ok a => k a
  | Raise e => Raise e
  end.

Declare Scope py_scope.
Delimit Scope py_scope with py.
Notation "x <- c ;; k" := (bind c (fun x => k))
  (at level 61, c at next level, right associativity) : py_scope.
Notation "' pat <- c ;; k" := (bind c (fun x => match x with pat => k end))
  (at level 61, pat pattern, c at next level, right associativity) : py_scope.

Definition raise {A} (c : exn_class) (msg : string) : result A :=
  Raise (Exn c msg).

Definition is_ok {A} (r : result A) : bool :=
  match r with Ok _ => true | Raise _ => false end.

(** ** Floats (IEEE 754 binary64)

    A finite float is represented by its exact rational value; every
    arithmetic operation is the exact operation followed by rounding to
    the nearest binary64 value, ties to even ([rn]).  The sign of zero is
    not represented: none of the modelled code can observe it. *)

Open Scope Q_scope.

Definition pow2 (e : Z) : Q := 2 ^ e.

(** [ilog2 x] is the integer [e] with [2^e <= x < 2^(e+1)], for [0 < x]. *)
Definition ilog2 (x : Q) : Z :=
  let d := (Z.log2 (Qnum x) - Z.log2 (Zpos (Qden x)))%Z in
  if Qle_bool (pow2 d) x then d else (d - 1)%Z.

(** Nearest integer, ties to the even one. *)
Definition round_half_even (x : Q) : Z :=
  let f := Qfloor x in
  match Qcompare (x - inject_Z f) (1 # 2) with
  | Lt => f
  | Gt => (f + 1)%Z
  | Eq => if Z.even f then f else (f + 1)%Z
  end.

(** Exponent of the unit in the last place of a positive [x]: 53 bits of
    precision, least exponent -1074 (subnormals). *)
Definition fexp (x : Q) : Z := Z.max (ilog2 x - 52) (-1074).

Definition on_grid (e : Z) (x : Q) : Q :=
  inject_Z (round_half_even (x / pow2 e)) * pow2 e.

Definition rn_pos (x : Q) : Q := on_grid (fexp x) x.

Inductive pyfloat :=
| Finite (q : Q)
| PosInf
| NegInf
| NaN.

(** Rounding of an exact value to binary64; the rounded magnitude
    overflows when it reaches [2^1024]. *)
Definition rn (x : Q) : pyfloat :=
  match Qcompare x 0 with
  | Eq => Finite 0
  | Gt => let y := rn_pos x in
          if Qle_bool (pow2 1024) y then PosInf else Finite (Qred y)
  | Lt => let y := rn_pos (- x) in
          if Qle_bool (pow2 1024) y then NegInf else Finite (Qred (- y))
  end.

(** The values a binary64 float can hold. *)
Definition is_f64 (x : pyfloat) : Prop :=
  match x with
  | Finite q =>
      exists m e : Z, q == inject_Z m * pow2 e /\
        (Z.abs m <= 2 ^ 53)%Z /\ (-1074 <= e)%Z /\
        - pow2 1024 < q /\ q < pow2 1024
  | _ => True
  end.

(** Comparison; [None] when an operand is NaN. *)
Definition fcmp (a b : pyfloat) : option comparison :=
  match a, b with
  | NaN, _ | _, NaN => None
  | Finite x, Finite y => Some (Qcompare x y)
  | PosInf, PosInf | NegInf, NegInf => Some Eq
  | NegInf, _ | _, PosInf => Some Lt
  | PosInf, _ | _, NegInf => Some Gt
  end.

Definition flt (a b : pyfloat) : bool :=
  match fcmp a b with Some Lt => true | _ => false end.
Definition fle (a b : pyfloat) : bool :=
  match fcmp a b with Some Lt | Some Eq => true | _ => false end.
Definition fgt (a b : pyfloat) : bool := flt b a.
Definition fge (a b : pyfloat) : bool := fle b a.
Definition feq (a b : pyfloat) : bool :=
  match fcmp a b with Some Eq => true | _ => false end.

Definition is_zero (a : pyfloat) : bool := feq a (Finite 0).

Definition sign_neg (a : pyfloat) : bool := flt a (Finite 0).

Definition inf_of_sign (neg : bool) : pyfloat := if neg then NegInf else PosInf.

Definition is_inf (a : pyfloat) : bool :=
  match a with PosInf | NegInf => true | _ => false end.

Definition not_nan (a : pyfloat) : bool :=
  match a with NaN => false | _ => true end.

(** [a + b] and [a - b] *)
Definition fadd (a b : pyfloat) : pyfloat :=
  match a, b with
  | NaN, _ | _, NaN => NaN
  | Finite x, Finite y => rn (x + y)
  | PosInf, NegInf | NegInf, PosInf => NaN
  | Finite _, _ => b
  | _, _ => a
  end.

Definition fneg (a : pyfloat) : pyfloat :=
  match a with
  | Finite x => Finite (Qred (- x))
  | PosInf => NegInf
  | NegInf => PosInf
  | NaN => NaN
  end.

Definition fsub (a b : pyfloat) : pyfloat := fadd a (fneg b).

(** [a * b] *)
Definition fmul (a b : pyfloat) : pyfloat :=
  match a, b with
  | NaN, _ | _, NaN => NaN
  | Finite x, Finite y => rn (x * y)
  | _, _ =>
      if is_zero a || is_zero b then NaN
      else inf_of_sign (xorb (sign_neg a) (sign_neg b))
  end.

(** [a / b]; Python raises on a zero divisor. *)
Definition fdiv (a b : pyfloat) : result pyfloat :=
  if is_zero b then raise ZeroDivisionError "float division by zero"
  else Ok match a, b with
          | NaN, _ | _, NaN => NaN
          | Finite x, Finite y => rn (x / y)
          | Finite _, _ => Finite 0
          | _, Finite _ => inf_of_sign (xorb (sign_neg a) (sign_neg b))
          | _, _ => NaN
          end.

(** [max(a, b)] and [min(a, b)]: the first argument is kept unless the
    second compares strictly greater (smaller). *)
Definition py_max (a b : pyfloat) : pyfloat := if fgt b a then b else a.
Definition py_min (a b : pyfloat) : pyfloat := if flt b a then b else a.

(** [float(n)] for an [int]. *)
Definition float_of_int (n : Z) : result pyfloat :=
  match rn (inject_Z n) with
  | PosInf | NegInf => raise OverflowError "int too large to convert to float"
  | f => Ok f
  end.

(** [round(x)]: an [int], ties to even. *)
Definition py_round (x : pyfloat) : result Z :=
  match x with
  | Finite q => Ok (round_half_even q)
  | NaN => raise ValueError "cannot convert float NaN to integer"
  | _ => raise OverflowError "cannot convert float infinity to integer"
  end.

(** The exact value rounded to two decimals, ties to even. *)
Definition two_decimals (q : Q) : Q :=
  inject_Z (round_half_even (q * 100)) / 100.

(** [round(x, 2)]: the exact value is rounded to two decimals and the
    decimal is converted back to the nearest float. *)
Definition py_round2 (x : pyfloat) : result pyfloat :=
  match x with
  | Finite q =>
      match rn (two_decimals q) with
      | PosInf | NegInf =>
          raise OverflowError "rounded value too large to represent"
      | r => Ok r
      end
  | _ => Ok x
  end.

(** [int(x)] for a float: truncation toward zero. *)
Definition int_of_float (x : pyfloat) : result Z :=
  match x with
  | Finite q => Ok (Z.quot (Qnum q) (Zpos (Qden q)))
  | NaN => raise ValueError "cannot convert float NaN to integer"
  | _ => raise OverflowError "cannot convert float infinity to integer"
  end.

(** The same operations, by way of the standard library's executable
    IEEE 754 specification; used to cross-check [rn]. *)
Definition sf_value (f : spec_float) : option Q :=
  match f with
  | S754_zero _ => Some 0
  | S754_finite s m e =>
      Some (Qred ((if s then -1 else 1) * inject_Z (Zpos m) * pow2 e))
  | _ => None
  end.

Definition sf_of_int (z : Z) : spec_float := binary_normalize 53 1024 z 0 false.

Definition finite_value (f : pyfloat) : option Q :=
  match f with
  | Finite q => Some q
  | _ => None
  end.

Close Scope Q_scope.

(** ** Strings

    A [str] is modelled as a string of 8-bit characters (code points below
    256). *)

Open Scope string_scope.

(** Characters removed by [str.strip()]. *)
Definition is_space (c : ascii) : bool :=
  let n := nat_of_ascii c in
  ((9 <=? n) && (n <=? 13) || (28 <=? n) && (n <=? 32)
   || (n =? 133) || (n =? 160))%nat.

Definition is_empty (s : string) : bool :=
  match s with EmptyString => true | _ => false end.

Fixpoint lstrip (s : string) : string :=
  match s with
  | EmptyString => EmptyString
  | String c s' => if is_space c then lstrip s' else s
  end.

Fixpoint rstrip (s : string) : string :=
  match s with
  | EmptyString => EmptyString
  | String c s' =>
      let r := rstrip s' in
      if is_space c && is_empty r then EmptyString else String c r
  end.

(** [s.strip()] *)
Definition strip (s : string) : string := rstrip (lstrip s).

(** The rest of [s] after the prefix [p], when [s] starts with [p]. *)
Fixpoint drop_prefix (p s : string) : option string :=
  match p, s with
  | EmptyString, _ => Some s
  | String a p', String b s' =>
      if Ascii.eqb a b then drop_prefix p' s' else None
  | String _ _, EmptyString => None
  end.

(** [s.startswith(p)] *)
Definition startswith (s p : string) : bool :=
  match drop_prefix p s with Some _ => true | None => false end.

(** [sub in s] *)
Fixpoint contains (sub s : string) : bool :=
  startswith s sub ||
  match s with
  | EmptyString => false
  | String _ s' => contains sub s'
  end.

(** [s.partition(sep)]: the text before and the text after the first
    occurrence of [sep], when there is one. *)
Fixpoint partition (sep s : string) : option (string * string) :=
  match drop_prefix sep s with
  | Some post => Some (EmptyString, post)
  | None =>
      match s with
      | EmptyString => None
      | String a s' =>
          match partition sep s' with
          | Some (pre, post) => Some (String a pre, post)
          | None => None
          end
      end
  end.

(** The pieces of [s.split(sep)] for a non-empty [sep], scanning left to
    right; [skip] counts the characters of a separator just found that are
    still to be passed over. *)
Fixpoint split_from (sep : string) (skip : nat) (s : string) : list string :=
  match s with
  | EmptyString => [EmptyString]
  | String c s' =>
      match skip with
      | S k => split_from sep k s'
      | O =>
          if startswith s sep
          then EmptyString :: split_from sep (String.length sep - 1) s'
          else match split_from sep 0 s' with
               | p :: ps => String c p :: ps
               | [] => [String c EmptyString]
               end
      end
  end.

(** [s.split(sep)] *)
Definition split (s sep : string) : result (list string) :=
  if is_empty sep then raise ValueError "empty separator"
  else Ok (split_from sep 0 s).

(** [l[i]] for a list. *)
Definition list_item {A} (l : list A) (i : nat) : result A :=
  match nth_error l i with
  | Some a => Ok a
  | None => raise IndexError "list index out of range"
  end.

Fixpoint all_chars (p : ascii -> bool) (s : string) : bool :=
  match s with
  | EmptyString => true
  | String c s' => p c && all_chars p s'
  end.

Fixpoint take_while (p : ascii -> bool) (s : string) : string :=
  match s with
  | EmptyString => EmptyString
  | String c s' => if p c then String c (take_while p s') else EmptyString
  end.

(** Regular expressions of the shape [lit([cls]+)]: a literal followed by
    one capturing group, a greedy non-empty run of characters of a class.
    [re_match_at] is the group of a match anchored at the start of [s]. *)
Definition re_match_at (lit : string) (cls : ascii -> bool) (s : string)
  : option string :=
  match drop_prefix lit s with
  | Some r =>
      match take_while cls r with
      | EmptyString => None
      | g => Some g
      end
  | None => None
  end.

(** [re.search(lit([cls]+), s)]: group 1 of the leftmost match. *)
Fixpoint re_search (lit : string) (cls : ascii -> bool) (s : string)
  : option string :=
  match re_match_at lit cls s with
  | Some g => Some g
  | None =>
      match s with
      | EmptyString => None
      | String _ s' => re_search lit cls s'
      end
  end.

Definition not_apostrophe (c : ascii) : bool := negb (Ascii.eqb c "'").

(** [str(n)] for an [int]. *)
Definition str_of_int (n : Z) : string :=
  DecimalString.NilZero.string_of_int (Z.to_int n).

(** [int(s)] for a [str], base 10: surrounding whitespace, an optional
    sign, digits with single underscores between them. *)
Definition digit_val (c : ascii) : option Z :=
  let n := nat_of_ascii c in
  if ((48 <=? n) && (n <=? 57))%nat then Some (Z.of_nat (n - 48)) else None.

Inductive digit_state := AtStart | AfterDigit | AfterUnderscore.

Fixpoint parse_digits (st : digit_state) (acc : Z) (s : string) : option Z :=
  match s with
  | EmptyString =>
      match st with AfterDigit => Some acc | _ => None end
  | String c s' =>
      match digit_val c with
      | Some d => parse_digits AfterDigit (10 * acc + d) s'
      | None =>
          match st with
          | AfterDigit =>
              if Ascii.eqb c "_" then parse_digits AfterUnderscore acc s'
              else None
          | _ => None
          end
      end
  end.

Definition int_of_str (s : string) : result Z :=
  let body := strip s in
  let parsed :=
    match body with
    | String "-" r => option_map Z.opp (parse_digits AtStart 0 r)
    | String "+" r => parse_digits AtStart 0 r
    | _ => parse_digits AtStart 0 body
    end in
  match parsed with
  | Some z => Ok z
  | None => raise ValueError "invalid literal for int() with base 10"
  end.

(** ** JSON values and dicts

    The result of [json.loads]; [JNull] is [None].  A dict is an
    association list in which the first binding of a key is the one seen. *)

Local Unset Elimination Schemes.
Inductive json :=
| JNull
| JBool (b : bool)
| JInt (z : Z)
| JFloat (f : pyfloat)
| JStr (s : string)
| JList (l : list json)
| JDict (d : list (string * json)).
Local Set Elimination Schemes.

Definition dict := list (string * json).

Fixpoint dict_lookup (d : dict) (k : string) : option json :=
  match d with
  | [] => None
  | (k', v) :: d' => if String.eqb k k' then Some v else dict_lookup d' k
  end.

(** [d.get(k)] *)
Definition dict_get (d : dict) (k : string) : json :=
  match dict_lookup d k with
  | Some v => v
  | None => JNull
  end.

(** [d[k]] *)
Definition dict_item (d : dict) (k : string) : result json :=
  match dict_lookup d k with
  | Some v => Ok v
  | None => raise KeyError k
  end.

(** [j.get(k)] and [j[k]] on a decoded value that need not be a dict. *)
Definition json_get (j : json) (k : string) : result json :=
  match j with
  | JDict d => Ok (dict_get d k)
  | _ => raise AttributeError "object has no attribute 'get'"
  end.

Definition json_item (j : json) (k : string) : result json :=
  match j with
  | JDict d => dict_item d k
  | _ => raise TypeError "indices must be integers or slices, not str"
  end.

(** Truth value, as tested by [not x], [x or y] and [if x]. *)
Definition truthy (j : json) : bool :=
  match j with
  | JNull => false
  | JBool b => b
  | JInt z => negb (z =? 0)%Z
  | JFloat f => negb (is_zero f)
  | JStr s => negb (is_empty s)
  | JList l => match l with [] => false | _ => true end
  | JDict d => match d with [] => false | _ => true end
  end.

Definition is_empty_list {A} (l : list A) : bool :=
  match l with [] => true | _ => false end.

Definition is_None (j : json) : bool :=
  match j with JNull => true | _ => false end.

(** [j == s] for a string literal [s]. *)
Definition eq_str (j : json) (s : string) : bool :=
  match j with
  | JStr t => String.eqb t s
  | _ => false
  end.

(** [int(j)] *)
Definition py_int (j : json) : result Z :=
  match j with
  | JInt z => Ok z
  | JBool b => Ok (if b then 1 else 0)%Z
  | JFloat f => int_of_float f
  | JStr s => int_of_str s
  | _ => raise TypeError "int() argument must be a string or a real number"
  end.

(** [float(j)] for a JSON number. *)
Definition py_float (j : json) : result pyfloat :=
  match j with
  | JInt z => float_of_int z
  | JBool b => Ok (Finite (if b then 1 else 0))
  | JFloat f => Ok f
  | _ => raise TypeError "must be real number"
  end.

Close Scope string_scope.

End Py.

(* ================================================================= *)
(** * The outside world: the chain and the merchant server *)
(* ================================================================= *)

Module World.
Import Py.
Open Scope string_scope.

(** The web3 calls made by the spend functions.  A call returns a value
    or raises; what it does is up to the node and the chain, so each one is
    a field of the world the function runs in. *)
Record web3 := {
  (* [w3.eth.account.from_key(SPENDER_PRIVATE_KEY).address] *)
  account_from_key : result string;
  (* [w3.eth.get_balance(address)] *)
  get_balance : string -> result Z;
  (* [Web3.to_checksum_address(value)] *)
  to_checksum_address : json -> result string;
  (* [w3.eth.get_transaction_count(address)] *)
  get_transaction_count : string -> result Z;
  (* [vault.functions.spend(owner, merchant, amount).build_transaction(params)]
     on the contract at the given address *)
  spend_build_transaction : string -> string -> string -> Z -> dict -> result dict;
  (* [w3.eth.estimate_gas(tx)] *)
  estimate_gas : dict -> result Z;
  (* [w3.eth.get_block("latest")], its [baseFeePerGas] entry if any *)
  get_block_latest : result (option Z);
  (* [w3.eth.account.sign_transaction(tx, private_key=...)], the raw bytes *)
  sign_transaction : dict -> result string;
  (* [w3.eth.send_raw_transaction(raw)], as rendered by [.hex()] *)
  send_raw_transaction : string -> result string;
  (* [w3.eth.wait_for_transaction_receipt(tx_hash, timeout=180).status] *)
  wait_for_transaction_receipt : string -> result Z
}.

(** [w3.to_wei(0.02, "gwei")] and [w3.to_wei(0.2, "gwei")] *)
Definition to_wei_0_02_gwei : Z := 20000000.
Definition to_wei_0_2_gwei : Z := 200000000.

(** [d[k] = v] *)
Fixpoint dict_set (d : dict) (k : string) (v : json) : dict :=
  match d with
  | [] => [(k, v)]
  | (k', v') :: d' =>
      if String.eqb k k' then (k, v) :: d' else (k', v') :: dict_set d' k v
  end.

(** What a run does that can be observed from outside. *)
Inductive event :=
| HttpPost (url : string) (payload : json)
| Spend (vault owner merchant : json) (amount : Z)
| Sleep (seconds : Z)
| Print (headline : string).

(** The environment of a run: the merchant server's answer to the n-th
    request (status and decoded body) and the chain as the n-th spend call
    finds it. *)
Record env := {
  env_http : nat -> string -> json -> result (Z * json);
  env_web3 : nat -> web3
}.

Record state := {
  n_http : nat;
  n_spend : nat;
  log : list event
}.

Definition start : state := {| n_http := 0; n_spend := 0; log := [] |}.

(** Computations that act on the world and may raise. *)
Definition io (A : Type) : Type := state -> state * result A.

Definition ret {A} (a : A) : io A := fun st => (st, Ok a).

Definition iobind {A B} (m : io A) (k : A -> io B) : io B :=
  fun st =>
    match m st with
    | (st', Ok a) => k a st'
    | (st', Raise e) => (st', Raise e)
    end.

Definition lift {A} (r : result A) : io A := fun st => (st, r).

Definition emit (e : event) : io unit :=
  fun st => ({| n_http := n_http st; n_spend := n_spend st;
                log := log st ++ [e] |}, Ok tt).

Declare Scope io_scope.
Delimit Scope io_scope with io.
Notation "x <- c ;; k" := (iobind c (fun x => k))
  (at level 61, c at next level, right associativity) : io_scope.
Notation "' pat <- c ;; k" := (iobind c (fun x => match x with pat => k end))
  (at level 61, pat pattern, c at next level, right associativity) : io_scope.
Notation "c ;;; k" := (iobind c (fun _ => k))
  (at level 61, right associativity) : io_scope.

(** [print(...)] of a status line or of an event. *)
Definition print (headline : string) : io unit := emit (Print headline).

(** [await asyncio.sleep(n)] *)
Definition sleep (seconds : Z) : io unit := emit (Sleep seconds).

(** [await http_post_json(url, payload)] *)
Definition http_post_json (E : env) (url : string) (payload : json)
  : io (Z * json) :=
  fun st =>
    ({| n_http := S (n_http st); n_spend := n_spend st;
        log := log st ++ [HttpPost url payload] |},
     env_http E (n_http st) url payload).

(** A call of a spend function [f], which runs against the chain. *)
Definition call_spend {A} (E : env)
  (f : web3 -> json -> json -> json -> Z -> result A)
  (vault owner merchant : json) (amount : Z) : io A :=
  fun st =>
    ({| n_http := n_http st; n_spend := S (n_spend st);
        log := log st ++ [Spend vault owner merchant amount] |},
     f (env_web3 E (n_spend st)) vault owner merchant amount).

Definition run {A} (m : io A) : state * result A := m start.

Definition headlines (l : list event) : list string :=
  flat_map (fun e => match e with Print h => [h] | _ => [] end) l.

Definition posts_to (url : string) (l : list event) : list json :=
  flat_map (fun e => match e with
                     | HttpPost u p => if String.eqb u url then [p] else []
                     | _ => []
                     end) l.

Definition spends (l : list event) : list Z :=
  flat_map (fun e => match e with Spend _ _ _ a => [a] | _ => [] end) l.

Definition sleeps (l : list event) : list Z :=
  flat_map (fun e => match e with Sleep s => [s] | _ => [] end) l.

Close Scope string_scope.
End World.

(* ================================================================= *)
(** * [car_agent.py] *)
(* ================================================================= *)

Module CarAgent.
Import Py World.
Open Scope string_scope.
Open Scope Z_scope.

Definition STABLECOIN : string := "USDC".
Definition USDC_DECIMALS : Z := 6.
Definition CHAIN_ID_BASE_SEPOLIA : Z := 84532.

Definition MAX_RETRIES_EXCEEDS_MAXPERTX : nat := 2.
(** [0.5] *)
Definition LITERS_REDUCTION_FACTOR : pyfloat := rn (1 # 2).

(** [parse_revert_reason(err)]:
    [re.search(r"execution reverted: ([^']+)", str(err))] *)
Definition parse_revert_reason (err : exn) : string :=
  let msg := exn_str err in
  match re_search "execution reverted: " not_apostrophe msg with
  | Some g => strip g
  | None => "REVERTED"
  end.

(** [int(round(amount_usd_float * (10 ** USDC_DECIMALS)))] *)
Definition to_usdc_base_units (amount_usd_float : pyfloat) : result Z :=
  (scale <- float_of_int (10 ^ USDC_DECIMALS) ;;
   py_round (fmul amount_usd_float scale))%py.

(** [float(amount) / (10 ** USDC_DECIMALS)] *)
Definition from_usdc_base_units (amount : Z) : result pyfloat :=
  (a <- float_of_int amount ;;
   scale <- float_of_int (10 ^ USDC_DECIMALS) ;;
   fdiv a scale)%py.

Record SpendResult := {
  tx_hash : option string;
  error : option dict
}.

(** The [try] block of [send_vault_spend_tx_safe]. *)
Definition spend_try (w3 : web3) (acct : string)
  (vault_address owner merchant : json) (amount_base_units : Z)
  : result SpendResult :=
  (vault <- to_checksum_address w3 vault_address ;;
   nonce <- get_transaction_count w3 acct ;;
   owner' <- to_checksum_address w3 owner ;;
   merchant' <- to_checksum_address w3 merchant ;;
   tx <- spend_build_transaction w3 vault owner' merchant' amount_base_units
           [("from", JStr acct); ("nonce", JInt nonce);
            ("chainId", JInt CHAIN_ID_BASE_SEPOLIA)] ;;
   gas_est <- estimate_gas w3 tx ;;
   g <- float_of_int gas_est ;;
   gas <- int_of_float (fmul g (rn (6 # 5))) ;;
   let tx := dict_set tx "gas" (JInt gas) in
   latest <- get_block_latest w3 ;;
   let base_fee := match latest with Some b => b | None => 0 end in
   let max_priority := to_wei_0_02_gwei in
   let max_fee := base_fee + to_wei_0_2_gwei in
   let tx := dict_set tx "maxPriorityFeePerGas" (JInt max_priority) in
   let tx := dict_set tx "maxFeePerGas" (JInt max_fee) in
   raw <- sign_transaction w3 tx ;;
   tx_hash_bytes <- send_raw_transaction w3 raw ;;
   status <- wait_for_transaction_receipt w3 tx_hash_bytes ;;
   if negb (status =? 1) then
     Ok {| tx_hash := None;
           error := Some
             [("type", JStr "TX_FAILED");
              ("message", JStr "Transaction mined but failed (status != 1).");
              ("tx_hash", JStr tx_hash_bytes)] |}
   else
     let h := tx_hash_bytes in
     let h := if negb (startswith h "0x") then "0x" ++ h else h in
     Ok {| tx_hash := Some h; error := None |})%py.

(** [send_vault_spend_tx_safe(vault_address, owner, merchant,
    amount_base_units)]: the account and balance lookups come before the
    [try]; [except ContractLogicError] and [except Exception] follow it. *)
Definition send_vault_spend_tx_safe (w3 : web3)
  (vault_address owner merchant : json) (amount_base_units : Z)
  : result SpendResult :=
  (acct <- account_from_key w3 ;;
   eth_bal <- get_balance w3 acct ;;
   if eth_bal =? 0 then
     Ok {| tx_hash := None;
           error := Some
             [("type", JStr "INSUFFICIENT_GAS");
              ("message", JStr "Spender wallet has 0 ETH on Base Sepolia. Cannot pay gas for spend().");
              ("spender_address", JStr acct)] |}
   else
     match spend_try w3 acct vault_address owner merchant amount_base_units with
     | Ok r => Ok r
     | Raise e =>
         if is_ContractLogicError (exn_cls e) then
           let reason := parse_revert_reason e in
           Ok {| tx_hash := None;
                 error := Some
                   [("type", JStr "CONTRACT_REVERT");
                    ("reason", JStr reason);
                    ("message", JStr "Vault spend() reverted. Likely policy/limits/whitelist.");
                    ("vault_address", vault_address);
                    ("owner_address", owner);
                    ("merchant_address", merchant);
                    ("amount_base_units", JStr (str_of_int amount_base_units))] |}
         else if is_Exception (exn_cls e) then
           Ok {| tx_hash := None;
                 error := Some [("type", JStr "TX_ERROR");
                                ("message", JStr (exn_str e))] |}
         else Raise e
     end)%py.

(** [cap_liters_to_fit_max_per_tx(liters, max_price_per_liter_usd,
    max_per_tx_base_units)] *)
Definition cap_liters_to_fit_max_per_tx
  (liters max_price_per_liter_usd : pyfloat) (max_per_tx_base_units : Z)
  : result pyfloat :=
  if fle max_price_per_liter_usd (Finite 0) then
    Ok (py_max (Finite 1) liters)
  else
    (max_total_usd <- from_usdc_base_units max_per_tx_base_units ;;
     max_liters <- fdiv max_total_usd max_price_per_liter_usd ;;
     rounded <- py_round2 (py_min liters max_liters) ;;
     let capped := py_max (Finite 1) rounded in
     Ok capped)%py.

(** [request_purchase_from_server(car_id, fuel_type, liters,
    max_price_per_liter_usd)] *)
Definition request_purchase_from_server (E : env)
  (car_id fuel_type : json) (liters max_price_per_liter_usd : pyfloat)
  : io (Z * json) :=
  let payload :=
    JDict [("car_id", car_id); ("fuel_type", fuel_type);
           ("liters", JFloat liters);
           ("max_price_per_liter_usd", JFloat max_price_per_liter_usd)] in
  http_post_json E "/fuel/purchase" payload.

Definition required_fields : list string :=
  ["vault_address"; "owner_address"; "merchant_address";
   "amount_base_units"; "token"; "decimals"].

(** [[k for k in required if pr.get(k) is None]] *)
Fixpoint missing_fields (pr : json) (required : list string)
  : result (list string) :=
  match required with
  | [] => Ok []
  | k :: ks =>
      (v <- json_get pr k ;;
       rest <- missing_fields pr ks ;;
       Ok (if is_None v then k :: rest else rest))%py
  end.

(** [extract_vault_payment_required(purchase_resp)] *)
Definition extract_vault_payment_required (purchase_resp : json)
  : result (json * json) :=
  (invoice_id <- json_get purchase_resp "invoiceId" ;;
   pr0 <- json_get purchase_resp "payment_required" ;;
   let pr := if truthy pr0 then pr0 else JDict [] in
   missing <- missing_fields pr required_fields ;;
   if negb (truthy invoice_id) || negb (is_empty_list missing) then
     raise SystemExit "Server 402 missing required fields"
   else
     token <- json_get pr "token" ;;
     if negb (eq_str token STABLECOIN) then
       raise SystemExit "Payment token mismatch"
     else
       decimals <- json_get pr "decimals" ;;
       d <- py_int decimals ;;
       if negb (d =? USDC_DECIMALS) then
         raise SystemExit "Decimals mismatch"
       else Ok (invoice_id, pr))%py.

(** [confirm_with_server(invoice_id, tx_hash)] *)
Definition confirm_with_server (E : env) (invoice_id : json)
  (tx_hash : option string) : io (Z * json) :=
  let tx := match tx_hash with Some h => JStr h | None => JNull end in
  http_post_json E "/fuel/confirm"
    (JDict [("invoiceId", invoice_id); ("txHash", tx)]).

Definition max_attempts : nat := 1 + MAX_RETRIES_EXCEEDS_MAXPERTX.

(** [if spend_res.error:] *)
Definition has_error (r : SpendResult) : bool :=
  match error r with
  | Some (_ :: _) => true
  | _ => false
  end.

Definition error_dict (r : SpendResult) : dict :=
  match error r with Some d => d | None => [] end.

(** The end of the loop body, once [spend_res] carries a transaction
    hash: one confirmation request, then [return] either way. *)
Definition confirm_phase (E : env) (invoice_id : json)
  (tx_hash : option string) : io unit :=
  (' (c_status, c_resp) <- confirm_with_server E invoice_id tx_hash ;;
   if negb (c_status =? 200) then
     print "CONFIRM_FAILED"
   else
     print "Flow complete")%io.

(** The loop [while attempts < max_attempts] of [main], by recursion on
    [todo], the number of iterations its condition still allows
    ([max_attempts - attempts]); what follows the loop is the case where
    none is left. *)
Fixpoint purchase_loop (E : env) (car_id fuel_type : json)
  (max_price : pyfloat) (todo attempts : nat) (liters_attempt : pyfloat)
  : io unit :=
  match todo with
  | O =>
      print "PAYMENT_ABORTED"
  | S todo' =>
      let attempts := S attempts in
      (' (status, purchase_resp) <-
          request_purchase_from_server E car_id fuel_type liters_attempt max_price ;;
       if negb (status =? 402) then
         print "SERVER_ERROR"
       else
         ' (invoice_id, pr) <- lift (extract_vault_payment_required purchase_resp) ;;
         vault_address <- lift (json_item pr "vault_address") ;;
         owner_address <- lift (json_item pr "owner_address") ;;
         merchant_address <- lift (json_item pr "merchant_address") ;;
         amount_json <- lift (json_item pr "amount_base_units") ;;
         amount_base_units <- lift (py_int amount_json) ;;
         spend_res <- call_spend E send_vault_spend_tx_safe
                        vault_address owner_address merchant_address
                        amount_base_units ;;
         if has_error spend_res then
           print "PAYMENT_FAILED" ;;;
           if eq_str (dict_get (error_dict spend_res) "type") "CONTRACT_REVERT"
              && eq_str (dict_get (error_dict spend_res) "reason") "exceeds maxPerTx"
              && (attempts <? max_attempts)%nat
           then
             halved <- lift (py_round2 (fmul liters_attempt LITERS_REDUCTION_FACTOR)) ;;
             let liters_attempt := py_max (Finite 1) halved in
             print "Retrying due to exceeds maxPerTx" ;;;
             purchase_loop E car_id fuel_type max_price todo' attempts liters_attempt
           else ret tt
         else
           confirm_phase E invoice_id (tx_hash spend_res))%io
  end.

(** [main()] from the point where the trader's request has been read:
    [attempts = 0] and the loop. *)
Definition main (E : env) (car_id fuel_type : json)
  (max_price liters_attempt : pyfloat) : io unit :=
  let attempts := O in
  purchase_loop E car_id fuel_type max_price
    (max_attempts - attempts) attempts liters_attempt.

(** ** The failure report *)

(** [make_payment_failed_event(invoice_id, err)] *)
Definition make_payment_failed_event (invoice_id : json) (err : dict) : dict :=
  let suggestions :=
    [JStr "Ensure spender wallet has ETH on Base Sepolia for gas.";
     JStr "Ensure policy is enabled and merchant is whitelisted.";
     JStr "Ensure amount fits within maxPerTx and dailyLimit."] in
  let suggestions :=
    if eq_str (dict_get err "type") "CONTRACT_REVERT"
       && eq_str (dict_get err "reason") "exceeds maxPerTx"
    then JStr "Reduce liters to fit maxPerTx, or increase maxPerTx policy."
         :: suggestions
    else suggestions in
  [("event", JStr "PAYMENT_FAILED");
   ("invoiceId", invoice_id);
   ("error", JDict err);
   ("suggested_actions", JList suggestions)].

(** ** The transaction of the [try] block *)

(** The first half of the [try] block of [send_vault_spend_tx_safe], up
    to the transaction [tx] that is handed to [sign_transaction]. *)
Definition transaction_to_sign (w3 : web3) (acct : string)
  (vault_address owner merchant : json) (amount_base_units : Z)
  : result dict :=
  (vault <- to_checksum_address w3 vault_address ;;
   nonce <- get_transaction_count w3 acct ;;
   owner' <- to_checksum_address w3 owner ;;
   merchant' <- to_checksum_address w3 merchant ;;
   tx <- spend_build_transaction w3 vault owner' merchant' amount_base_units
           [("from", JStr acct); ("nonce", JInt nonce);
            ("chainId", JInt CHAIN_ID_BASE_SEPOLIA)] ;;
   gas_est <- estimate_gas w3 tx ;;
   g <- float_of_int gas_est ;;
   gas <- int_of_float (fmul g (rn (6 # 5))) ;;
   let tx := dict_set tx "gas" (JInt gas) in
   latest <- get_block_latest w3 ;;
   let base_fee := match latest with Some b => b | None => 0 end in
   let max_priority := to_wei_0_02_gwei in
   let max_fee := base_fee + to_wei_0_2_gwei in
   let tx := dict_set tx "maxPriorityFeePerGas" (JInt max_priority) in
   let tx := dict_set tx "maxFeePerGas" (JInt max_fee) in
   Ok tx)%py.

(** The second half: signing, submission and the receipt. *)
Definition submit_transaction (w3 : web3) (tx : dict) : result SpendResult :=
  (raw <- sign_transaction w3 tx ;;
   tx_hash_bytes <- send_raw_transaction w3 raw ;;
   status <- wait_for_transaction_receipt w3 tx_hash_bytes ;;
   if negb (status =? 1) then
     Ok {| tx_hash := None;
           error := Some
             [("type", JStr "TX_FAILED");
              ("message", JStr "Transaction mined but failed (status != 1).");
              ("tx_hash", JStr tx_hash_bytes)] |}
   else
     let h := tx_hash_bytes in
     let h := if negb (startswith h "0x") then "0x" ++ h else h in
     Ok {| tx_hash := Some h; error := None |})%py.

(** ** Demo mode: the policy is read and the liters are capped before the
    first purchase request *)

(** The settings read from the environment when the module is loaded:
    [DEMO_MODE], and [VAULT_ADDRESS] and [OWNER_ADDRESS], which
    [os.getenv] gives as [None] when they are not set. *)
Record settings := {
  DEMO_MODE : bool;
  DEMO_VAULT_ADDRESS : option string;
  DEMO_OWNER_ADDRESS : option string
}.

(** [not v] for a setting *)
Definition not_set (v : option string) : bool :=
  match v with
  | Some s => is_empty s
  | None => true
  end.

Definition setting_value (v : option string) : json :=
  match v with
  | Some s => JStr s
  | None => JNull
  end.

(** The read-only call [vault.functions.policyOf(owner, spender).call()]
    on the contract at a given address: the four outputs of the ABI, or an
    exception. *)
Definition policy_call : Type :=
  string -> string -> string -> result (bool * bool * Z * Z).

(** The dict that [read_policy_max_per_tx] returns; its four keys are
    fixed. *)
Record policy := {
  enabled : bool;
  enforceMerchantWhitelist : bool;
  maxPerTx : Z;
  dailyLimit : Z
}.

(** [read_policy_max_per_tx(vault_address, owner, spender)] *)
Definition read_policy_max_per_tx (w3 : web3) (policyOf : policy_call)
  (vault_address owner spender : json) : result policy :=
  (vault <- to_checksum_address w3 vault_address ;;
   owner' <- to_checksum_address w3 owner ;;
   spender' <- to_checksum_address w3 spender ;;
   ' (enabled, enforce_whitelist, max_per_tx, daily_limit) <-
       policyOf vault owner' spender' ;;
   Ok {| enabled := enabled;
         enforceMerchantWhitelist := enforce_whitelist;
         maxPerTx := max_per_tx;
         dailyLimit := daily_limit |})%py.

(** The block [if DEMO_MODE:] of [main].  Its result is [None] when the
    block ends [main] by [return], and the value of [liters_attempt] after
    the block otherwise. *)
Definition demo_mode_block (cfg : settings) (w3 : web3)
  (policyOf : policy_call) (max_price liters_attempt : pyfloat)
  : io (option pyfloat) :=
  (if not_set (DEMO_VAULT_ADDRESS cfg) || not_set (DEMO_OWNER_ADDRESS cfg) then
     lift (raise SystemExit
             "DEMO_MODE=1 requires VAULT_ADDRESS and OWNER_ADDRESS in agents .env")
   else
     spender_addr <- lift (account_from_key w3) ;;
     policy <- lift (read_policy_max_per_tx w3 policyOf
                       (setting_value (DEMO_VAULT_ADDRESS cfg))
                       (setting_value (DEMO_OWNER_ADDRESS cfg))
                       (JStr spender_addr)) ;;
     print "DEMO MODE: policyOf(owner, spender)" ;;;
     max_per_tx_usdc <- lift (from_usdc_base_units (maxPerTx policy)) ;;
     daily_limit_usdc <- lift (from_usdc_base_units (dailyLimit policy)) ;;
     if negb (enabled policy) then
       print "PAYMENT_BLOCKED" ;;;
       ret None
     else
       liters_capped <- lift (cap_liters_to_fit_max_per_tx
                                liters_attempt max_price (maxPerTx policy)) ;;
       if flt liters_capped liters_attempt then
         print "DEMO MODE: capping liters to fit maxPerTx" ;;;
         ret (Some liters_capped)
       else ret (Some liters_attempt))%io.

Section Main.

(** [float(s)] for a [str] is the C library's conversion of a decimal
    literal; it is a parameter here. *)
Variable float_of_str : string -> result pyfloat.

(** [float(j)] *)
Definition to_float (j : json) : result pyfloat :=
  match j with
  | JStr s => float_of_str s
  | _ => py_float j
  end.

(** [main()] from the point where the trader agent's output has been
    decoded into [trader_event], with the chain as the demo mode block
    finds it ([w3], [policyOf]). *)
Definition main_from_trader_event (cfg : settings) (w3 : web3)
  (policyOf : policy_call) (E : env) (trader_event : json) : io unit :=
  (event <- lift (json_get trader_event "event") ;;
   if eq_str event "NO_ACTION" then
     print "No action needed (fuel OK)."
   else
     car_id <- lift (json_item trader_event "car_id") ;;
     fuel_type <- lift (json_item trader_event "fuel_type") ;;
     max_price_json <- lift (json_item trader_event "max_price_per_liter_usd") ;;
     max_price <- lift (to_float max_price_json) ;;
     liters_json <- lift (json_item trader_event "liters") ;;
     liters_original <- lift (to_float liters_json) ;;
     let liters_attempt := liters_original in
     if DEMO_MODE cfg then
       adjusted <- demo_mode_block cfg w3 policyOf max_price liters_attempt ;;
       match adjusted with
       | None => ret tt
       | Some liters_attempt =>
           main E car_id fuel_type max_price liters_attempt
       end
     else
       main E car_id fuel_type max_price liters_attempt)%io.

End Main.

Close Scope Z_scope.
Close Scope string_scope.
End CarAgent.

(* ================================================================= *)
(** * [m2m_client.py] *)
(* ================================================================= *)

Module M2MClient.
Import Py World.
Open Scope string_scope.
Open Scope Z_scope.

Definition STABLECOIN : string := "USDC".
Definition USDC_DECIMALS : Z := 6.
Definition CHAIN_ID_BASE_SEPOLIA : Z := 84532.

(** ** Device discovery *)

Section Geo.

(** The functions of the [math] module and the float power [x ** 2] are
    those of the platform's C library; they are parameters here.  Each may
    raise ([ValueError: math domain error], [OverflowError]). *)
Variables math_radians math_sin math_cos math_asin math_sqrt
  : pyfloat -> result pyfloat.
Variable float_square : pyfloat -> result pyfloat.

(** [a - b] on JSON numbers: exact on two ints, a float otherwise. *)
Definition num_sub (a b : json) : result json :=
  match a, b with
  | JInt x, JInt y => Ok (JInt (x - y))
  | _, _ => (x <- py_float a ;; y <- py_float b ;; Ok (JFloat (fsub x y)))%py
  end.

(** [math.radians(j)] *)
Definition radians (j : json) : result pyfloat :=
  (x <- py_float j ;; math_radians x)%py.

(** [haversine_m(lat1, lon1, lat2, lon2)] *)
Definition haversine_m (lat1 lon1 lat2 lon2 : json) : result pyfloat :=
  let R := 6371000 in
  (phi1 <- radians lat1 ;;
   phi2 <- radians lat2 ;;
   dlat <- num_sub lat2 lat1 ;;
   dphi <- radians dlat ;;
   dlon <- num_sub lon2 lon1 ;;
   dl <- radians dlon ;;
   half_dphi <- fdiv dphi (Finite 2) ;;
   s1 <- math_sin half_dphi ;;
   s1sq <- float_square s1 ;;
   c1 <- math_cos phi1 ;;
   c2 <- math_cos phi2 ;;
   half_dl <- fdiv dl (Finite 2) ;;
   s2 <- math_sin half_dl ;;
   s2sq <- float_square s2 ;;
   let a := fadd s1sq (fmul (fmul c1 c2) s2sq) in
   root <- math_sqrt a ;;
   angle <- math_asin root ;;
   two_R <- float_of_int (2 * R) ;;
   Ok (fmul two_R angle))%py.

(** The distance computed for one device in the loop of
    [pick_nearest_device]:
    [haversine_m(client_loc["lat"], client_loc["lon"],
                 d["location"]["lat"], d["location"]["lon"])] *)
Definition device_distance (client_loc d : json) : result pyfloat :=
  (lat1 <- json_item client_loc "lat" ;;
   lon1 <- json_item client_loc "lon" ;;
   loc <- json_item d "location" ;;
   lat2 <- json_item loc "lat" ;;
   loc' <- json_item d "location" ;;
   lon2 <- json_item loc' "lon" ;;
   haversine_m lat1 lon1 lat2 lon2)%py.

(** The [for d in devices] loop, with its two variables. *)
Fixpoint nearest_scan (client_loc : json) (devices : list json)
  (best : json) (best_d : pyfloat) : result (json * pyfloat) :=
  match devices with
  | [] => Ok (best, best_d)
  | d :: rest =>
      (dist <- device_distance client_loc d ;;
       if flt dist best_d
       then nearest_scan client_loc rest d dist
       else nearest_scan client_loc rest best best_d)%py
  end.

(** [pick_nearest_device(devices, client_loc)]; [best] starts as [None]
    and [best_d] as [10**18]. *)
Definition pick_nearest_device (devices : list json) (client_loc : json)
  : result (json * Z) :=
  (' (best, best_d) <-
      nearest_scan client_loc devices JNull (Finite (inject_Z (10 ^ 18))) ;;
   d <- int_of_float best_d ;;
   Ok (best, d))%py.

End Geo.

(** ** Settlement *)

(** [normalize_txhash(h)] *)
Definition normalize_txhash (h : string) : string :=
  let h := strip h in
  if negb (startswith h "0x") then "0x" ++ h else h.

(** The reason extracted in the [except ContractLogicError] clause of
    [send_vault_spend_tx]. *)
Definition revert_reason (msg : string) : result string :=
  if contains "execution reverted:" msg then
    (parts <- split msg "execution reverted:" ;;
     after <- list_item parts 1 ;;
     pieces <- split after "'" ;;
     first <- list_item pieces 0 ;;
     Ok (strip first))%py
  else Ok "REVERTED".

(** The [try] block of [send_vault_spend_tx]. *)
Definition spend_try (w3 : web3) (acct : string)
  (vault_address owner_address merchant_address : json)
  (amount_base_units : Z) : result (option string * option dict) :=
  (vault <- to_checksum_address w3 vault_address ;;
   nonce <- get_transaction_count w3 acct ;;
   owner' <- to_checksum_address w3 owner_address ;;
   merchant' <- to_checksum_address w3 merchant_address ;;
   tx <- spend_build_transaction w3 vault owner' merchant' amount_base_units
           [("from", JStr acct); ("nonce", JInt nonce);
            ("chainId", JInt CHAIN_ID_BASE_SEPOLIA)] ;;
   gas_est <- estimate_gas w3 tx ;;
   g <- float_of_int gas_est ;;
   gas <- int_of_float (fmul g (rn (6 # 5))) ;;
   let tx := dict_set tx "gas" (JInt gas) in
   latest <- get_block_latest w3 ;;
   let base_fee := match latest with Some b => b | None => 0 end in
   let max_priority := to_wei_0_02_gwei in
   let max_fee := base_fee + to_wei_0_2_gwei in
   let tx := dict_set tx "maxPriorityFeePerGas" (JInt max_priority) in
   let tx := dict_set tx "maxFeePerGas" (JInt max_fee) in
   raw <- sign_transaction w3 tx ;;
   tx_hash_bytes <- send_raw_transaction w3 raw ;;
   status <- wait_for_transaction_receipt w3 tx_hash_bytes ;;
   if negb (status =? 1) then
     Ok (None,
         Some [("type", JStr "TX_FAILED");
               ("message", JStr "Transaction mined but failed (status != 1).")])
   else
     let h := normalize_txhash tx_hash_bytes in
     Ok (Some h, None))%py.

(** [send_vault_spend_tx(vault_address, owner_address, merchant_address,
    amount_base_units)], returning [(tx_hash, error_json)]. *)
Definition send_vault_spend_tx (w3 : web3)
  (vault_address owner_address merchant_address : json)
  (amount_base_units : Z) : result (option string * option dict) :=
  (acct <- account_from_key w3 ;;
   eth_bal <- get_balance w3 acct ;;
   if eth_bal =? 0 then
     Ok (None,
         Some [("type", JStr "INSUFFICIENT_GAS");
               ("message", JStr "Spender wallet has 0 ETH on Base Sepolia. Cannot pay gas for spend().");
               ("spender_address", JStr acct)])
   else
     match spend_try w3 acct vault_address owner_address merchant_address
             amount_base_units with
     | Ok r => Ok r
     | Raise e =>
         if is_ContractLogicError (exn_cls e) then
           reason <- revert_reason (exn_str e) ;;
           Ok (None,
               Some [("type", JStr "CONTRACT_REVERT");
                     ("reason", JStr reason);
                     ("message", JStr "Vault spend() reverted.");
                     ("vault_address", vault_address);
                     ("owner_address", owner_address);
                     ("merchant_address", merchant_address);
                     ("amount_base_units", JStr (str_of_int amount_base_units))])
         else if is_Exception (exn_cls e) then
           Ok (None, Some [("type", JStr "TX_ERROR");
                           ("message", JStr (exn_str e))])
         else Raise e
     end)%py.

Definition required_fields : list string :=
  ["vault_address"; "owner_address"; "merchant_address"; "amount_base_units"].

(** [[k for k in required if pr.get(k) is None]] *)
Fixpoint missing_fields (pr : json) (required : list string)
  : result (list string) :=
  match required with
  | [] => Ok []
  | k :: ks =>
      (v <- json_get pr k ;;
       rest <- missing_fields pr ks ;;
       Ok (if is_None v then k :: rest else rest))%py
  end.

(** [extract_payment_required(resp)] *)
Definition extract_payment_required (resp : json) : result (json * json) :=
  (invoice_id <- json_get resp "invoiceId" ;;
   pr0 <- json_get resp "payment_required" ;;
   let pr := if truthy pr0 then pr0 else JDict [] in
   if negb (truthy invoice_id) then
     raise SystemExit "Missing invoiceId in 402 response"
   else
     missing <- missing_fields pr required_fields ;;
     if negb (is_empty_list missing) then
       raise SystemExit "Missing fields in payment_required"
     else Ok (invoice_id, pr))%py.

(** [if err:] *)
Definition has_error (err : option dict) : bool :=
  match err with
  | Some (_ :: _) => true
  | _ => false
  end.

(** [confirm_resp.get("error") in ("PAYMENT_NOT_VERIFIED_YET",
    "PAYMENT_REQUIRED")] *)
Definition is_pending_error (j : json) : bool :=
  eq_str j "PAYMENT_NOT_VERIFIED_YET" || eq_str j "PAYMENT_REQUIRED".

(** The loop [for attempt in range(1, max_attempts + 1)] of [main], over
    the values of [attempt] still to come; what follows the loop is the
    case where none is left. *)
Fixpoint confirm_loop (E : env) (invoice_id : json) (tx_hash : option string)
  (attempts : list nat) : io unit :=
  match attempts with
  | [] => print "CONFIRM_TIMEOUT"
  | attempt :: rest =>
      let tx := match tx_hash with Some h => JStr h | None => JNull end in
      (' (confirm_status, confirm_resp) <-
          http_post_json E "/m2m/confirm"
            (JDict [("invoiceId", invoice_id); ("txHash", tx)]) ;;
       if confirm_status =? 200 then
         print "END-TO-END SUCCESS"
       else
         pending <- (if confirm_status =? 402
                     then err <- lift (json_get confirm_resp "error") ;;
                          ret (is_pending_error err)
                     else ret false) ;;
         if (pending : bool) then
           sleep 2 ;;;
           confirm_loop E invoice_id tx_hash rest
         else
           print "CONFIRM_FAILED")%io
  end.

Definition max_attempts : nat := 6.

(** [main()] from the point where the server has answered the purchase
    request with [status] and [resp]. *)
Definition main (E : env) (status : Z) (resp : json) : io unit :=
  if negb (status =? 402) then
    lift (raise SystemExit "Expected HTTP 402 from server purchase")
  else
    (' (invoice_id, pr) <- lift (extract_payment_required resp) ;;
     vault_address <- lift (json_item pr "vault_address") ;;
     owner_address <- lift (json_item pr "owner_address") ;;
     merchant_address <- lift (json_item pr "merchant_address") ;;
     amount_json <- lift (json_item pr "amount_base_units") ;;
     amount_base_units <- lift (py_int amount_json) ;;
     ' (tx_hash, err) <- call_spend E send_vault_spend_tx
                           vault_address owner_address merchant_address
                           amount_base_units ;;
     if has_error err then
       print "PAYMENT_FAILED"
     else
       confirm_loop E invoice_id tx_hash (seq 1 max_attempts))%io.

(** ** From the command line to the purchase request *)

(** The items a [for] loop visits in a decoded JSON value: the elements
    of a list, the keys of a dict, the characters of a string. *)
Definition iterate (v : json) : result (list json) :=
  match v with
  | JList l => Ok l
  | JDict d => Ok (map (fun kv => JStr (fst kv)) d)
  | JStr s =>
      Ok (map (fun c => JStr (String c EmptyString)) (list_ascii_of_string s))
  | _ => raise TypeError "object is not iterable"
  end.

(** [j.get(k, default)] *)
Definition json_get_default (j : json) (k : string) (default : json)
  : result json :=
  match j with
  | JDict d =>
      Ok match dict_lookup d k with
         | Some v => v
         | None => default
         end
  | _ => raise AttributeError "object has no attribute 'get'"
  end.

(** [business_case in ("gas_station", "vending_machine", "laundry")] *)
Definition is_business_case (s : string) : bool :=
  String.eqb s "gas_station" || String.eqb s "vending_machine"
  || String.eqb s "laundry".

Section Flow.

Variables math_radians math_sin math_cos math_asin math_sqrt
  : pyfloat -> result pyfloat.
Variable float_square : pyfloat -> result pyfloat.

(** [float(s)] for a [str] is the C library's conversion of a decimal
    literal; it is a parameter here. *)
Variable float_of_str : string -> result pyfloat.

(** What is read from outside before the purchase: the content of
    [devices.json], and the decoded outputs of the two language-model
    agents, [must_be_json(label, (await Runner.run(agent, input)).final_output)];
    the request builder is given the business case, the negotiator the
    request builder's event and the [DEVICE_SELECTED] event. *)
Variable load_devices : result json.
Variable request_builder : string -> result json.
Variable negotiator : json -> json -> result json.

(** [float(j)] *)
Definition to_float (j : json) : result pyfloat :=
  match j with
  | JStr s => float_of_str s
  | _ => py_float j
  end.

(** The discovery step of [main]: the candidates of the business case,
    the nearest of them, and the [DEVICE_SELECTED] event. *)
Definition discovery (devices_db ui_event : json) (business_case : string)
  : result json :=
  (candidates <- json_item devices_db business_case ;;
   client_loc <- json_item ui_event "location" ;;
   devices <- iterate candidates ;;
   ' (device, dist_m) <-
       pick_nearest_device math_radians math_sin math_cos math_asin math_sqrt
         float_square devices client_loc ;;
   device_id <- json_item device "device_id" ;;
   type <- json_item device "type" ;;
   default <- json_item device "device_id" ;;
   name <- json_get_default device "name" default ;;
   location <- json_item device "location" ;;
   Ok (JDict [("event", JStr "DEVICE_SELECTED");
              ("business_case", JStr business_case);
              ("device", JDict [("device_id", device_id);
                                ("type", type);
                                ("name", name);
                                ("location", location)]);
              ("distance_meters", JInt dist_m)]))%py.

(** The purchase request of [main], by business case. *)
Definition purchase (E : env) (business_case : string) (quote_req : json)
  : io (Z * json) :=
  (client_id <- lift (json_item quote_req "client_id") ;;
   device_id <- lift (json_item quote_req "device_id") ;;
   payload <- lift (json_item quote_req "payload") ;;
   if String.eqb business_case "gas_station" then
     fuel_type <- lift (json_item payload "fuel_type") ;;
     liters_json <- lift (json_item payload "liters") ;;
     liters <- lift (to_float liters_json) ;;
     max_price_json <- lift (json_item payload "max_price_per_liter_usd") ;;
     max_price <- lift (to_float max_price_json) ;;
     http_post_json E "/fuel/purchase"
       (JDict [("car_id", client_id); ("fuel_type", fuel_type);
               ("liters", JFloat liters);
               ("max_price_per_liter_usd", JFloat max_price)])
   else if String.eqb business_case "vending_machine" then
     http_post_json E "/vending/purchase"
       (JDict [("client_id", client_id); ("device_id", device_id);
               ("payload", payload)])
   else
     http_post_json E "/laundry/purchase"
       (JDict [("client_id", client_id); ("device_id", device_id);
               ("payload", payload)]))%io.

(** [main()], given the command line [sys.argv]. *)
Definition main_from_argv (argv : list string) (E : env) : io unit :=
  (if (List.length argv <? 2)%nat then
     lift (raise SystemExit
             "Usage: python3 m2m_client.py gas_station|vending_machine|laundry")
   else
     arg <- lift (list_item argv 1) ;;
     let business_case := strip arg in
     if negb (is_business_case business_case) then
       lift (raise SystemExit
               "business_case must be one of: gas_station, vending_machine, laundry")
     else
       devices_db <- lift load_devices ;;
       ui_event <- lift (request_builder business_case) ;;
       print "USER_SELECTED_SERVICE" ;;;
       selected <- lift (discovery devices_db ui_event business_case) ;;
       print "DEVICE_SELECTED" ;;;
       quote_req <- lift (negotiator ui_event selected) ;;
       print "QUOTE_REQUEST" ;;;
       ' (status, resp) <- purchase E business_case quote_req ;;
       main E status resp)%io.

End Flow.

Close Scope Z_scope.
Close Scope string_scope.
End M2MClient.

(* ================================================================= *)
(** * The specification's wording, and notions used in the statements *)
(* ================================================================= *)

Module Spec.
Import Py World.
Open Scope string_scope.

(** A float literal of the source text: the float nearest to the
    decimal. *)
Definition float_lit (q : Q) : pyfloat := rn q.

(** The Amount Planner as the specification states its rule: for a
    non-positive price, [max(1.0, requested_quantity)]; otherwise convert
    the ceiling to decimal token units by dividing by [10^6], divide by the
    price, and return [max(1.0, round(min(requested_quantity,
    max_quantity), 2))]. *)
Definition cap_to_policy (requested_quantity worst_case_unit_price : pyfloat)
  (max_per_tx_smallest_unit : Z) : result pyfloat :=
  if fle worst_case_unit_price (Finite 0) then
    Ok (py_max (Finite 1) requested_quantity)
  else
    (ceiling <- float_of_int max_per_tx_smallest_unit ;;
     max_total <- fdiv ceiling (Finite (inject_Z (10 ^ 6))) ;;
     max_quantity <- fdiv max_total worst_case_unit_price ;;
     rounded <- py_round2 (py_min requested_quantity max_quantity) ;;
     Ok (py_max (Finite 1) rounded))%py.

(** The great-circle distance of the specification over the real
    numbers: [2 R asin (sqrt (sin^2 (dphi / 2) + cos phi1 cos phi2
    sin^2 (dlambda / 2)))] with [R = 6371000] and angles in degrees. *)
Definition haversine_R (lat1 lon1 lat2 lon2 : R) : R :=
  (let R0 := 6371000 in
   let radians x := x * (PI / 180) in
   let phi1 := radians lat1 in
   let phi2 := radians lat2 in
   let dphi := radians (lat2 - lat1) in
   let dl := radians (lon2 - lon1) in
   let a := (sin (dphi / 2))² + cos phi1 * cos phi2 * (sin (dl / 2))² in
   2 * R0 * asin (sqrt a))%R.



(** The quantities asked of the server, in order: the [liters] field of
    each request posted to [/fuel/purchase]. *)
Definition purchase_liters (l : list event) : list json :=
  map (fun p => match p with JDict d => dict_get d "liters" | _ => JNull end)
      (posts_to "/fuel/purchase" l).



Definition confirm_payload (invoice_id : json) (tx_hash : option string)
  : json :=
  JDict [("invoiceId", invoice_id);
         ("txHash", match tx_hash with Some h => JStr h | None => JNull end)].



(** The state after [n] more requests and the events [l]. *)
Definition after_requests (st : state) (n : nat) (l : list event) : state :=
  {| n_http := n_http st + n; n_spend := n_spend st; log := log st ++ l |}.

(** The payment terms of a 402 body: the [payment_required] dict, or the
    empty dict when the entry is missing or falsy. *)
Definition terms_of (body : dict) : option dict :=
  match dict_get body "payment_required" with
  | JDict d => Some d
  | j => if truthy j then None else Some []
  end.

(** A spend result carries a transaction hash or an error, never both
    and never neither. *)
Definition one_populated (h : option string) (e : option dict) : Prop :=
  (h <> None /\ e = None) \/ (h = None /\ M2MClient.has_error e = true).

(** Every event a computation adds to the log satisfies [P]. *)
Definition emits_only {A} (P : event -> Prop) (m : io A) : Prop :=
  forall st, exists l, log (fst (m st)) = (log st ++ l)%list /\ Forall P l.

Definition not_aborted (e : event) : Prop := e <> Print "PAYMENT_ABORTED".

(** A computation makes at most [n] spend calls. *)
Definition spends_at_most {A} (n : nat) (m : io A) : Prop :=
  forall st, (n_spend (fst (m st)) <= n_spend st + n)%nat.

(** What the specification counts as a schema failure of the payment
    terms [pr] of a 402 body: no invoice id, a required entry missing, a
    token other than the stablecoin, or a decimal count other than 6. *)
Definition car_schema_failure (body pr : dict) : Prop :=
  truthy (dict_get body "invoiceId") = false \/
  (exists k, In k CarAgent.required_fields /\ dict_get pr k = JNull) \/
  eq_str (dict_get pr "token") CarAgent.STABLECOIN = false \/
  (exists z, py_int (dict_get pr "decimals") = Ok z /\ z <> CarAgent.USDC_DECIMALS).

(** The part of it that [m2m_client.py] checks. *)
Definition m2m_schema_failure (body pr : dict) : Prop :=
  truthy (dict_get body "invoiceId") = false \/
  (exists k, In k M2MClient.required_fields /\ dict_get pr k = JNull).

(** The request [car_agent.py] posts to [/fuel/purchase]. *)
Definition purchase_payload (car_id fuel_type : json)
  (liters max_price : pyfloat) : json :=
  JDict [("car_id", car_id); ("fuel_type", fuel_type);
         ("liters", JFloat liters);
         ("max_price_per_liter_usd", JFloat max_price)].

Close Scope string_scope.
End Spec.

(* ================================================================= *)
(** * Servers and chains used in the examples *)
(* ================================================================= *)

Module Scenarios.
Import Py World.
Open Scope string_scope.
Open Scope Z_scope.

Definition spender : string := "0x5PENDER".

(** A chain on which the spend goes through: the wallet holds gas, the
    gas estimate is 50000 and the receipt reports success. *)
Definition w3_ok : web3 := {|
  account_from_key := Ok spender;
  get_balance := fun _ => Ok 1000000000000000000;
  to_checksum_address := fun j =>
    match j with
    | JStr a => Ok a
    | _ => raise TypeError "address must be a string"
    end;
  get_transaction_count := fun _ => Ok 7;
  spend_build_transaction := fun vault owner merchant amount params =>
    Ok (("to", JStr vault) :: ("value", JInt 0) :: params);
  estimate_gas := fun _ => Ok 50000;
  get_block_latest := Ok (Some 1000);
  sign_transaction := fun _ => Ok "f86b";
  send_raw_transaction := fun _ => Ok "0x9a3c";
  wait_for_transaction_receipt := fun _ => Ok 1
|}.

(** The same chain, on which the vault rejects the spend: the gas
    estimate raises [ContractLogicError] with message [msg]. *)
Definition w3_reverting (msg : string) : web3 := {|
  account_from_key := account_from_key w3_ok;
  get_balance := get_balance w3_ok;
  to_checksum_address := to_checksum_address w3_ok;
  get_transaction_count := get_transaction_count w3_ok;
  spend_build_transaction := spend_build_transaction w3_ok;
  estimate_gas := fun _ => raise ContractLogicError msg;
  get_block_latest := get_block_latest w3_ok;
  sign_transaction := sign_transaction w3_ok;
  send_raw_transaction := send_raw_transaction w3_ok;
  wait_for_transaction_receipt := wait_for_transaction_receipt w3_ok
|}.

(** A node that cannot be reached: every request raises
    [ConnectionError]. *)
Definition unreachable {A} : result A :=
  raise ConnectionError "HTTPConnectionPool: Max retries exceeded".

Definition w3_unreachable : web3 := {|
  account_from_key := Ok spender;
  get_balance := fun _ => unreachable;
  to_checksum_address := to_checksum_address w3_ok;
  get_transaction_count := fun _ => unreachable;
  spend_build_transaction := fun _ _ _ _ _ => unreachable;
  estimate_gas := fun _ => unreachable;
  get_block_latest := unreachable;
  sign_transaction := sign_transaction w3_ok;
  send_raw_transaction := fun _ => unreachable;
  wait_for_transaction_receipt := fun _ => unreachable
|}.

Definition vault : json := JStr "0xVAULT".
Definition owner : json := JStr "0x0WNER".
Definition merchant : json := JStr "0xMERCHANT".

(** Well-formed payment terms for [amount] smallest units. *)
Definition terms (amount : Z) : json :=
  JDict [("vault_address", vault); ("owner_address", owner);
         ("merchant_address", merchant);
         ("amount_base_units", JStr (str_of_int amount));
         ("token", JStr "USDC"); ("decimals", JInt 6)].

Definition quote (amount : Z) : json :=
  JDict [("invoiceId", JStr "inv-1"); ("payment_required", terms amount)].


(** The merchant's price: 2.5 tokens a liter.  The quote for a purchase
    request is the price of the liters asked for. *)
Definition quote_for (payload : json) : result (Z * json) :=
  match payload with
  | JDict d =>
      match dict_get d "liters" with
      | JFloat liters =>
          (amount <- CarAgent.to_usdc_base_units (fmul liters (rn (5 # 2))) ;;
           Ok (402, quote amount))%py
      | _ => Ok (400, JDict [("error", JStr "BAD_REQUEST")])
      end
  | _ => Ok (400, JDict [("error", JStr "BAD_REQUEST")])
  end.

(** A server that quotes every purchase and confirms every payment. *)
Definition server_ok (n : nat) (url : string) (payload : json)
  : result (Z * json) :=
  if String.eqb url "/fuel/purchase" then quote_for payload
  else Ok (200, JDict [("ok", JBool true)]).


(** A server whose 402 answer lacks the invoice id. *)
Definition server_no_invoice (n : nat) (url : string) (payload : json)
  : result (Z * json) :=
  Ok (402, JDict [("payment_required", terms 100000000)]).

(** Every spend exceeds the vault's per-transaction limit. *)
Definition env_exceeds : env := {|
  env_http := server_ok;
  env_web3 := fun _ => w3_reverting "execution reverted: exceeds maxPerTx"
|}.


Definition env_no_invoice : env := {|
  env_http := server_no_invoice;
  env_web3 := fun _ => w3_ok
|}.

Definition env_ok : env := {|
  env_http := server_ok;
  env_web3 := fun _ => w3_ok
|}.

Definition car_id : json := JStr "car-001".
Definition fuel_type : json := JStr "GASOLINE".

(** Stand-ins for the C library on small angles: [sin x] and [asin x] are
    [x], [cos x] is 1, and the square root is taken on integers after
    scaling by [10^30]. *)
Definition approx_radians (x : pyfloat) : result pyfloat :=
  Ok (fmul x (rn (17453292519943295 # 1000000000000000000))).
Definition approx_sin (x : pyfloat) : result pyfloat := Ok x.
Definition approx_cos (x : pyfloat) : result pyfloat := Ok (Finite 1).
Definition approx_asin (x : pyfloat) : result pyfloat := Ok x.
Definition approx_square (x : pyfloat) : result pyfloat := Ok (fmul x x).
Definition approx_sqrt (x : pyfloat) : result pyfloat :=
  match x with
  | Finite q =>
      if Qle_bool 0 q then
        Ok (rn (inject_Z (Z.sqrt (Qfloor (q * inject_Z (10 ^ 30))))
                / inject_Z (10 ^ 15)))
      else raise ValueError "math domain error"
  | _ => Ok x
  end.

(** An arc sine that checks its domain and is the identity on it. *)
Definition checked_asin (x : pyfloat) : result pyfloat :=
  if fle x (Finite 1) then Ok x else raise ValueError "math domain error".

Definition approx_pick : list json -> json -> result (json * Z) :=
  M2MClient.pick_nearest_device approx_radians approx_sin approx_cos
    approx_asin approx_sqrt approx_square.

Definition approx_distance : json -> json -> result pyfloat :=
  M2MClient.device_distance approx_radians approx_sin approx_cos
    approx_asin approx_sqrt approx_square.

Definition at_point (lat lon : Q) : json :=
  JDict [("lat", JFloat (rn lat)); ("lon", JFloat (rn lon))].

Definition device (id : string) (lat lon : Q) : json :=
  JDict [("device_id", JStr id); ("type", JStr "gas_station");
         ("location", at_point lat lon)].

(** A client in Sao Paulo and three stations; the second and the third
    are at the same place, nearer than the first. *)
Definition client_location : json := at_point (-235505 # 10000) (-466333 # 10000).

Definition stations : list json :=
  [device "gs-001" (-2356 # 100) (-4665 # 100);
   device "gs-002" (-23551 # 1000) (-46634 # 1000);
   device "gs-003" (-23551 # 1000) (-46634 # 1000)].

(** A device without coordinates, and one whose coordinates are not
    numbers. *)
Definition device_without_location : json :=
  JDict [("device_id", JStr "gs-004"); ("type", JStr "gas_station")].

Definition device_nowhere : json :=
  JDict [("device_id", JStr "gs-009"); ("type", JStr "gas_station");
         ("location", JDict [("lat", JFloat NaN); ("lon", JFloat NaN)])].

(** The content of [devices.json], the request builder's event and the
    negotiator's quote request of a run for a gas station. *)
Definition devices_db : json :=
  JDict [("gas_station", JList stations); ("vending_machine", JList []);
         ("laundry", JList [])].

Definition ui_event : json :=
  JDict [("event", JStr "USER_SELECTED_SERVICE");
         ("location", client_location)].

Definition quote_request : json :=
  JDict [("event", JStr "QUOTE_REQUEST");
         ("client_id", JStr "client-001");
         ("device_id", JStr "gs-002");
         ("payload", JDict [("fuel_type", JStr "GASOLINE");
                            ("liters", JInt 20);
                            ("max_price_per_liter_usd", JFloat (rn (5 # 2)))])].

(** A conversion of strings to floats that accepts none. *)
Definition no_float_of_str (s : string) : result pyfloat :=
  raise ValueError "could not convert string to float".

(** [m2m_client.py] run on these. *)
Definition m2m_run (argv : list string) (E : env) : io unit :=
  M2MClient.main_from_argv approx_radians approx_sin approx_cos approx_asin
    approx_sqrt approx_square no_float_of_str (Ok devices_db)
    (fun _ => Ok ui_event) (fun _ _ => Ok quote_request) argv E.

(** The trader's request for 40 liters at 2.5 a liter at most, the
    settings of the demo mode and a vault whose policy allows 50 tokens a
    transaction. *)
Definition trader_event : json :=
  JDict [("event", JStr "FUEL_REQUEST"); ("car_id", car_id);
         ("fuel_type", fuel_type);
         ("max_price_per_liter_usd", JFloat (rn (5 # 2)));
         ("liters", JInt 40)].

Definition demo_settings : CarAgent.settings := {|
  CarAgent.DEMO_MODE := true;
  CarAgent.DEMO_VAULT_ADDRESS := Some "0xVAULT";
  CarAgent.DEMO_OWNER_ADDRESS := Some "0x0WNER"
|}.

Definition policy_of (enabled : bool) (max_per_tx : Z) : CarAgent.policy_call :=
  fun _ _ _ => Ok (enabled, false, max_per_tx, 1000000000).

Definition car_run (policyOf : CarAgent.policy_call) (E : env) : io unit :=
  CarAgent.main_from_trader_event no_float_of_str demo_settings w3_ok
    policyOf E trader_event.

Close Scope Z_scope.
Close Scope string_scope.
End Scenarios.

(* ================================================================= *)
(** * Notions used in the statements about whole runs *)
(* ================================================================= *)

Module Runs.
Import Py World Spec.
Open Scope string_scope.

(** The values of the ["type"] entry of a spend error. *)
Definition error_types : list string :=
  ["INSUFFICIENT_GAS"; "TX_FAILED"; "CONTRACT_REVERT"; "TX_ERROR"].

(** An error dict names one of these types and carries a message. *)
Definition typed_error (d : dict) : Prop :=
  exists t msg,
    dict_get d "type" = JStr t /\ In t error_types /\
    dict_get d "message" = JStr msg.

(** The arguments of the spend calls of a log, in order. *)
Definition spend_calls (l : list event) : list (json * json * json * Z) :=
  flat_map (fun e => match e with
                     | Spend v o m a => [(v, o, m, a)]
                     | _ => []
                     end) l.

(** The requests of a log, in order, each with its URL. *)
Definition http_posts (l : list event) : list (string * json) :=
  flat_map (fun e => match e with
                     | HttpPost u p => [(u, p)]
                     | _ => []
                     end) l.

(** Events among which there is no spend, no request and no sleep. *)
Definition quiet (l : list event) : Prop :=
  spend_calls l = [] /\ http_posts l = [] /\ sleeps l = [].

(** The server's answer [reply] to a purchase request is a quote that
    [car_agent.py] accepts: status 402 and terms that pass
    [extract_vault_payment_required], from which [main] reads the invoice
    id and the arguments of the spend. *)
Definition car_quoted (reply : result (Z * json))
  (invoice_id vault owner merchant : json) (amount : Z) : Prop :=
  exists body pr amount_json,
    reply = Ok (402%Z, body) /\
    CarAgent.extract_vault_payment_required body = Ok (invoice_id, pr) /\
    json_item pr "vault_address" = Ok vault /\
    json_item pr "owner_address" = Ok owner /\
    json_item pr "merchant_address" = Ok merchant /\
    json_item pr "amount_base_units" = Ok amount_json /\
    py_int amount_json = Ok amount.

(** The same for [m2m_client.py]. *)
Definition m2m_quoted (status : Z) (resp : json)
  (invoice_id vault owner merchant : json) (amount : Z) : Prop :=
  exists pr amount_json,
    status = 402%Z /\
    M2MClient.extract_payment_required resp = Ok (invoice_id, pr) /\
    json_item pr "vault_address" = Ok vault /\
    json_item pr "owner_address" = Ok owner /\
    json_item pr "merchant_address" = Ok merchant /\
    json_item pr "amount_base_units" = Ok amount_json /\
    py_int amount_json = Ok amount.

(** A reason free of apostrophes and of surrounding white space. *)
Definition clean (reason : string) : Prop :=
  all_chars not_apostrophe reason = true /\ strip reason = reason.

(** The one error on which [car_agent.py] retries. *)
Definition exceeds_max_per_tx (r : CarAgent.SpendResult) : Prop :=
  exists d,
    CarAgent.error r = Some d /\
    dict_get d "type" = JStr "CONTRACT_REVERT" /\
    dict_get d "reason" = JStr "exceeds maxPerTx".

(** The shape of what the settlement loop of [car_agent.py] adds to the
    log, when it starts with [i] requests and [j] spend calls made and asks
    for [liters]: a purchase request, then nothing more that reaches the
    server or the chain; or a quoted spend, after which the run ends; or a
    quoted spend that returns a hash [h], followed by the one confirmation
    request for [h]; or a quoted spend that fails on the per-transaction
    limit, followed by a new round for half the liters. *)
Inductive settlement (E : env) (car fuel : json) (price : pyfloat)
  : nat -> nat -> pyfloat -> list event -> Prop :=
| settle_unquoted i j liters tail :
    quiet tail ->
    settlement E car fuel price i j liters
      (HttpPost "/fuel/purchase" (purchase_payload car fuel liters price)
       :: tail)
| settle_spend_last i j liters invoice_id v o m a tail :
    car_quoted
      (env_http E i "/fuel/purchase" (purchase_payload car fuel liters price))
      invoice_id v o m a ->
    quiet tail ->
    settlement E car fuel price i j liters
      (HttpPost "/fuel/purchase" (purchase_payload car fuel liters price)
       :: Spend v o m a :: tail)
| settle_confirmed i j liters invoice_id v o m a h tail :
    car_quoted
      (env_http E i "/fuel/purchase" (purchase_payload car fuel liters price))
      invoice_id v o m a ->
    CarAgent.send_vault_spend_tx_safe (env_web3 E j) v o m a
    = Ok {| CarAgent.tx_hash := Some h; CarAgent.error := None |} ->
    quiet tail ->
    settlement E car fuel price i j liters
      (HttpPost "/fuel/purchase" (purchase_payload car fuel liters price)
       :: Spend v o m a
       :: HttpPost "/fuel/confirm" (confirm_payload invoice_id (Some h))
       :: tail)
| settle_retried i j liters invoice_id v o m a r halved rest :
    car_quoted
      (env_http E i "/fuel/purchase" (purchase_payload car fuel liters price))
      invoice_id v o m a ->
    CarAgent.send_vault_spend_tx_safe (env_web3 E j) v o m a = Ok r ->
    exceeds_max_per_tx r ->
    py_round2 (fmul liters CarAgent.LITERS_REDUCTION_FACTOR) = Ok halved ->
    settlement E car fuel price (S i) (S j) (py_max (Finite 1) halved) rest ->
    settlement E car fuel price i j liters
      (HttpPost "/fuel/purchase" (purchase_payload car fuel liters price)
       :: Spend v o m a
       :: Print "PAYMENT_FAILED"
       :: Print "Retrying due to exceeds maxPerTx"
       :: rest).

(** What the confirmation loop of [m2m_client.py] adds to the log, when
    [attempts] attempts are left: [n] requests, all the same, at most one
    for each attempt and at least one if there is an attempt; no spend;
    sleeps of two seconds, at most one for each request. *)
Definition confirming (invoice_id : json) (tx_hash : option string)
  (attempts : nat) (seg : list event) : Prop :=
  exists n,
    spend_calls seg = [] /\
    http_posts seg
    = repeat ("/m2m/confirm", confirm_payload invoice_id tx_hash) n /\
    (n <= attempts)%nat /\ ((1 <= attempts)%nat -> (1 <= n)%nat) /\
    Forall (fun s => s = 2%Z) (sleeps seg) /\
    (List.length (sleeps seg) <= n)%nat.

(** The shape of what [m2m_client.py] adds to the log once the server
    has answered the purchase request with [status] and [resp], [j] spend
    calls having been made before: nothing that reaches the server or the
    chain; or one spend for the quote, after which the run ends; or one
    spend for the quote that returns a hash [h] starting with [0x],
    followed by the confirmation requests for [h]. *)
Definition m2m_settlement (E : env) (j : nat) (status : Z) (resp : json)
  (seg : list event) : Prop :=
  quiet seg \/
  exists invoice_id v o m a tail,
    m2m_quoted status resp invoice_id v o m a /\
    seg = Spend v o m a :: tail /\
    (quiet tail \/
     exists h,
       M2MClient.send_vault_spend_tx (env_web3 E j) v o m a
       = Ok (Some h, None) /\
       startswith h "0x" = true /\
       confirming invoice_id (Some h) M2MClient.max_attempts tail).

(** The URL to which [m2m_client.py] posts the purchase of a business
    case. *)
Definition purchase_endpoint (business_case url : string) : Prop :=
  (business_case = "gas_station" /\ url = "/fuel/purchase") \/
  (business_case = "vending_machine" /\ url = "/vending/purchase") \/
  (business_case = "laundry" /\ url = "/laundry/purchase").

Close Scope string_scope.
End Runs.

(* ================================================================= *)
(** * Facts about the float model *)
(* ================================================================= *)

Module FloatFacts.
Import Py.
Open Scope Q_scope.

Ltac inj1 := change (inject_Z 1) with 1 in *.

Lemma pow2_pos e : 0 < pow2 e.
Proof. apply Qpower_0_lt. reflexivity. Qed.

Lemma pow2_add a b : pow2 (a + b) == pow2 a * pow2 b.
Proof. apply Qpower_plus. discriminate. Qed.

Lemma pow2_le a b : (a <= b)%Z -> pow2 a <= pow2 b.
Proof. intros H. apply Qpower_le_compat_l; [exact H | discriminate]. Qed.

Lemma pow2_lt a b : (a < b)%Z -> pow2 a < pow2 b.
Proof. intros H. apply Qpower_lt_compat_l; [exact H | reflexivity]. Qed.

Lemma pow2_lt_inv a b : pow2 a < pow2 b -> (a < b)%Z.
Proof. intros H. apply (Qpower_lt_compat_l_inv 2); [exact H | reflexivity]. Qed.

Lemma pow2_Z n : (0 <= n)%Z -> pow2 n == inject_Z (2 ^ n).
Proof. intros H. unfold pow2. symmetry. apply (Zpower_Qpower 2 n H). Qed.

Lemma pow2_succ e : pow2 (e + 1) == 2 * pow2 e.
Proof. rewrite pow2_add. unfold pow2 at 2. simpl. lra. Qed.

Lemma Q_as_fraction (x : Q) :
  x * inject_Z (Zpos (Qden x)) == inject_Z (Qnum x).
Proof.
  destruct x as [p q]. unfold Qeq, Qmult, inject_Z. simpl. lia.
Qed.

(** [ilog2] is the binary logarithm rounded down. *)
Lemma ilog2_spec x : 0 < x -> pow2 (ilog2 x) <= x /\ x < pow2 (ilog2 x + 1).
Proof.
  intros Hx.
  pose proof (Q_as_fraction x) as Hfrac.
  assert (Hp : (0 < Qnum x)%Z).
  { destruct x as [p q]. unfold Qlt in Hx. simpl in *. lia. }
  set (p := Qnum x) in *. set (q := Zpos (Qden x)) in *.
  assert (Hq : (0 < q)%Z) by (unfold q; lia).
  destruct (Z.log2_spec p Hp) as [Hp1 Hp2].
  destruct (Z.log2_spec q Hq) as [Hq1 Hq2].
  pose proof (Z.log2_nonneg p) as Ha. pose proof (Z.log2_nonneg q) as Hb.
  set (a := Z.log2 p) in *. set (b := Z.log2 q) in *.
  assert (Ea : pow2 a == inject_Z (2 ^ a)) by (apply pow2_Z; lia).
  assert (Ea' : pow2 (a + 1) == inject_Z (2 ^ (a + 1))) by (apply pow2_Z; lia).
  assert (Eb : pow2 b == inject_Z (2 ^ b)) by (apply pow2_Z; lia).
  assert (Eb' : pow2 (b + 1) == inject_Z (2 ^ (b + 1))) by (apply pow2_Z; lia).
  replace (Z.succ a) with (a + 1)%Z in Hp2 by lia.
  replace (Z.succ b) with (b + 1)%Z in Hq2 by lia.
  assert (Ip1 : pow2 a <= inject_Z p) by (rewrite Ea, <- Zle_Qle; exact Hp1).
  assert (Ip2 : inject_Z p < pow2 (a + 1)) by (rewrite Ea', <- Zlt_Qlt; exact Hp2).
  assert (Iq1 : pow2 b <= inject_Z q) by (rewrite Eb, <- Zle_Qle; exact Hq1).
  assert (Iq2 : inject_Z q < pow2 (b + 1)) by (rewrite Eb', <- Zlt_Qlt; exact Hq2).
  assert (D1 : pow2 (a + 1) == pow2 (a - b + 1) * pow2 b).
  { rewrite <- pow2_add. replace (a - b + 1 + b)%Z with (a + 1)%Z by lia. reflexivity. }
  assert (D2 : pow2 a == pow2 (a - b - 1) * pow2 (b + 1)).
  { rewrite <- pow2_add. replace (a - b - 1 + (b + 1))%Z with a by lia. reflexivity. }
  pose proof (pow2_pos b) as Pb. pose proof (pow2_pos (b + 1)) as Pb'.
  pose proof (pow2_pos (a - b + 1)) as Pd1. pose proof (pow2_pos (a - b - 1)) as Pd2.
  assert (U : x < pow2 (a - b + 1)).
  { apply Qnot_le_lt. intros C.
    assert (pow2 (a - b + 1) * pow2 b <= x * inject_Z q) by nra. lra. }
  assert (L : pow2 (a - b - 1) <= x).
  { apply Qnot_lt_le. intros C.
    assert (x * inject_Z q < pow2 (a - b - 1) * pow2 (b + 1)) by nra. lra. }
  unfold ilog2. fold p q a b.
  destruct (Qle_bool (pow2 (a - b)) x) eqn:E.
  - apply Qle_bool_iff in E. split; assumption.
  - split; [exact L|].
    replace (a - b - 1 + 1)%Z with (a - b)%Z by lia.
    apply Qnot_le_lt. intros C. apply Qle_bool_iff in C. congruence.
Qed.

Lemma ilog2_unique x e : pow2 e <= x -> x < pow2 (e + 1) -> ilog2 x = e.
Proof.
  intros H1 H2.
  assert (Hx : 0 < x) by (pose proof (pow2_pos e); lra).
  destruct (ilog2_spec x Hx) as [L U].
  assert (ilog2 x < e + 1)%Z by (apply pow2_lt_inv; lra).
  assert (e < ilog2 x + 1)%Z by (apply pow2_lt_inv; lra).
  lia.
Qed.

Lemma ilog2_mono x y : 0 < x -> x <= y -> (ilog2 x <= ilog2 y)%Z.
Proof.
  intros Hx Hxy.
  destruct (ilog2_spec x Hx) as [L _].
  destruct (ilog2_spec y) as [_ U]; [lra|].
  assert (ilog2 x < ilog2 y + 1)%Z by (apply pow2_lt_inv; lra).
  lia.
Qed.

(** Rounding to the nearest integer moves a value by at most one half. *)
Lemma round_half_even_bounds x :
  x - (1 # 2) <= inject_Z (round_half_even x) /\
  inject_Z (round_half_even x) <= x + (1 # 2).
Proof.
  unfold round_half_even.
  pose proof (Qfloor_le x) as L. pose proof (Qlt_floor x) as U.
  rewrite inject_Z_plus in U. inj1.
  destruct (Qcompare_spec (x - inject_Z (Qfloor x)) (1 # 2)) as [E|E|E].
  - destruct (Z.even (Qfloor x)); rewrite ?inject_Z_plus; inj1; split; lra.
  - split; lra.
  - rewrite inject_Z_plus. inj1. split; lra.
Qed.

Lemma round_half_even_Z z : round_half_even (inject_Z z) = z.
Proof.
  unfold round_half_even. rewrite Qfloor_Z.
  destruct (Qcompare_spec (inject_Z z - inject_Z z) (1 # 2)) as [E|E|E]; try lra.
  reflexivity.
Qed.

Lemma round_half_even_mono x y :
  x <= y -> (round_half_even x <= round_half_even y)%Z.
Proof.
  intros Hxy.
  pose proof (Qfloor_resp_le x y Hxy) as Hf.
  pose proof (Qfloor_le x) as Lx. pose proof (Qlt_floor x) as Ux.
  pose proof (Qfloor_le y) as Ly. pose proof (Qlt_floor y) as Uy.
  rewrite inject_Z_plus in Ux, Uy. inj1.
  unfold round_half_even.
  destruct (Z.eq_dec (Qfloor x) (Qfloor y)) as [E|N].
  - rewrite <- E in *.
    destruct (Qcompare_spec (x - inject_Z (Qfloor x)) (1 # 2)) as [E1|E1|E1];
    destruct (Qcompare_spec (y - inject_Z (Qfloor x)) (1 # 2)) as [E2|E2|E2];
    try lra; destruct (Z.even (Qfloor x)); lia.
  - assert (Qfloor x + 1 <= Qfloor y)%Z by lia.
    destruct (Qcompare (x - inject_Z (Qfloor x)) (1 # 2));
    destruct (Qcompare (y - inject_Z (Qfloor y)) (1 # 2));
    destruct (Z.even (Qfloor x)); destruct (Z.even (Qfloor y)); lia.
Qed.

Lemma round_half_even_ext x y :
  x == y -> round_half_even x = round_half_even y.
Proof.
  intros E. apply Z.le_antisymm; apply round_half_even_mono; lra.
Qed.

(** A value within one half of an integer rounds to it. *)
Lemma round_half_even_near x n :
  inject_Z n - (1 # 2) < x -> x < inject_Z n + (1 # 2) ->
  round_half_even x = n.
Proof.
  intros L U.
  destruct (round_half_even_bounds x) as [A B].
  assert (inject_Z n - 1 < inject_Z (round_half_even x)) by lra.
  assert (inject_Z (round_half_even x) < inject_Z n + 1) by lra.
  assert (n - 1 < round_half_even x)%Z.
  { rewrite Zlt_Qlt. unfold Z.sub. rewrite inject_Z_plus.
    change (inject_Z (- (1))) with (- (1)). lra. }
  assert (round_half_even x < n + 1)%Z.
  { rewrite Zlt_Qlt. rewrite inject_Z_plus. inj1. lra. }
  lia.
Qed.

Lemma on_grid_mono e x y : x <= y -> on_grid e x <= on_grid e y.
Proof.
  intros H. unfold on_grid.
  pose proof (pow2_pos e) as P.
  assert (x / pow2 e <= y / pow2 e).
  { unfold Qdiv. apply Qmult_le_compat_r; [exact H|].
    apply Qlt_le_weak, Qinv_lt_0_compat, P. }
  apply Qmult_le_compat_r; [|lra].
  rewrite <- Zle_Qle. apply round_half_even_mono. assumption.
Qed.

Lemma on_grid_fix e m : on_grid e (inject_Z m * pow2 e) == inject_Z m * pow2 e.
Proof.
  unfold on_grid.
  assert (E : inject_Z m * pow2 e / pow2 e == inject_Z m).
  { field. pose proof (pow2_pos e). lra. }
  rewrite (round_half_even_ext _ _ E), round_half_even_Z. reflexivity.
Qed.

Lemma on_grid_ext e x y : x == y -> on_grid e x == on_grid e y.
Proof.
  intros E. apply Qle_antisym; apply on_grid_mono; lra.
Qed.

Lemma pow2_on_grid e k : (0 <= k)%Z -> pow2 (e + k) == inject_Z (2 ^ k) * pow2 e.
Proof.
  intros Hk. rewrite pow2_add, (pow2_Z k Hk). ring.
Qed.

Lemma on_grid_pow2 e k : (0 <= k)%Z -> on_grid e (pow2 (e + k)) == pow2 (e + k).
Proof.
  intros Hk.
  rewrite (on_grid_ext e _ _ (pow2_on_grid e k Hk)), on_grid_fix.
  symmetry. apply pow2_on_grid. exact Hk.
Qed.

Lemma on_grid_error e x :
  x - pow2 (e - 1) <= on_grid e x /\ on_grid e x <= x + pow2 (e - 1).
Proof.
  unfold on_grid.
  pose proof (pow2_pos e) as P.
  destruct (round_half_even_bounds (x / pow2 e)) as [L U].
  assert (E : pow2 e == 2 * pow2 (e - 1)).
  { rewrite <- pow2_succ. replace (e - 1 + 1)%Z with e by lia. reflexivity. }
  assert (X : x == x / pow2 e * pow2 e) by (field; lra).
  set (r := inject_Z (round_half_even (x / pow2 e))) in *.
  set (t := x / pow2 e) in *.
  split; nra.
Qed.

Lemma fexp_mono x y : 0 < x -> x <= y -> (fexp x <= fexp y)%Z.
Proof.
  intros Hx Hxy. unfold fexp. pose proof (ilog2_mono x y Hx Hxy). lia.
Qed.

(** Rounding to binary64 is monotone. *)
Lemma rn_pos_mono x y : 0 < x -> x <= y -> rn_pos x <= rn_pos y.
Proof.
  intros Hx Hxy. unfold rn_pos.
  pose proof (fexp_mono x y Hx Hxy) as He.
  destruct (Z.eq_dec (fexp x) (fexp y)) as [E|N].
  - rewrite E. apply on_grid_mono. exact Hxy.
  - assert (Hlt : (fexp x < fexp y)%Z) by lia.
    destruct (ilog2_spec x Hx) as [_ Ux].
    destruct (ilog2_spec y) as [Ly _]; [lra|].
    assert (Bx : x <= pow2 (fexp x + 53)).
    { apply Qlt_le_weak. apply (Qlt_le_trans _ _ _ Ux).
      apply pow2_le. unfold fexp. lia. }
    assert (By : pow2 (fexp y + 52) <= y).
    { apply (Qle_trans _ (pow2 (ilog2 y))); [|exact Ly].
      apply pow2_le. unfold fexp in *. lia. }
    apply (Qle_trans _ (pow2 (fexp x + 53))).
    + rewrite <- (on_grid_pow2 (fexp x) 53) by lia.
      apply on_grid_mono. exact Bx.
    + apply (Qle_trans _ (pow2 (fexp y + 52))); [apply pow2_le; lia|].
      rewrite <- (on_grid_pow2 (fexp y) 52) by lia.
      apply on_grid_mono. exact By.
Qed.

Lemma rn_pos_nonneg x : 0 < x -> 0 <= rn_pos x.
Proof.
  intros Hx. unfold rn_pos, on_grid.
  pose proof (pow2_pos (fexp x)) as P.
  assert (D : inject_Z 0 <= x / pow2 (fexp x)).
  { apply Qlt_le_weak. apply Qlt_shift_div_l; [exact P|].
    change (inject_Z 0) with 0. lra. }
  apply round_half_even_mono in D. rewrite round_half_even_Z in D.
  apply Qmult_le_0_compat; [|lra].
  change 0 with (inject_Z 0). rewrite <- Zle_Qle. exact D.
Qed.

(** In the normal range the relative error of rounding is at most
    [2^-53]. *)
Lemma rn_pos_rel_error x :
  pow2 (-1022) <= x ->
  x - x * pow2 (-53) <= rn_pos x /\ rn_pos x <= x + x * pow2 (-53).
Proof.
  intros Hx.
  assert (Hx0 : 0 < x) by (pose proof (pow2_pos (-1022)); lra).
  destruct (ilog2_spec x Hx0) as [L U].
  assert (Hl : (-1022 <= ilog2 x)%Z).
  { assert (-1022 < ilog2 x + 1)%Z by (apply pow2_lt_inv; lra). lia. }
  assert (Hf : fexp x = (ilog2 x - 52)%Z) by (unfold fexp; lia).
  unfold rn_pos. rewrite Hf.
  destruct (on_grid_error (ilog2 x - 52) x) as [A B].
  assert (E : pow2 (ilog2 x - 52 - 1) == pow2 (ilog2 x) * pow2 (-53)).
  { rewrite <- pow2_add.
    replace (ilog2 x + -53)%Z with (ilog2 x - 52 - 1)%Z by lia. reflexivity. }
  pose proof (pow2_pos (-53)) as P.
  assert (pow2 (ilog2 x - 52 - 1) <= x * pow2 (-53)) by (rewrite E; nra).
  split; lra.
Qed.

(** Powers of two in the normal range are floats. *)
Lemma rn_pos_pow2 k : (-1022 <= k)%Z -> rn_pos (pow2 k) == pow2 k.
Proof.
  intros Hk. unfold rn_pos.
  assert (E : ilog2 (pow2 k) = k).
  { apply ilog2_unique; [lra | apply pow2_lt; lia]. }
  assert (F : fexp (pow2 k) = (k - 52)%Z) by (unfold fexp; rewrite E; lia).
  rewrite F.
  rewrite (on_grid_ext _ (pow2 k) (pow2 (k - 52 + 52))).
  - rewrite on_grid_pow2 by lia. replace (k - 52 + 52)%Z with k by lia. reflexivity.
  - replace (k - 52 + 52)%Z with k by lia. reflexivity.
Qed.

Lemma rn_pos_le_pow2 x k :
  0 < x -> x <= pow2 k -> (-1022 <= k)%Z -> rn_pos x <= pow2 k.
Proof.
  intros Hx Hle Hk. rewrite <- (rn_pos_pow2 k Hk).
  apply rn_pos_mono; assumption.
Qed.

Lemma ilog2_ext x y : 0 < x -> x == y -> ilog2 x = ilog2 y.
Proof.
  intros Hx E. destruct (ilog2_spec x Hx) as [L U].
  symmetry. apply ilog2_unique; lra.
Qed.

Lemma rn_pos_ext x y : 0 < x -> x == y -> rn_pos x == rn_pos y.
Proof.
  intros Hx E. unfold rn_pos, fexp.
  rewrite (ilog2_ext x y Hx E). apply on_grid_ext. exact E.
Qed.

(** Every float is a fixed point of rounding. *)
Lemma rn_pos_f64_fix m e :
  (0 < m <= 2 ^ 53)%Z -> (-1074 <= e)%Z ->
  rn_pos (inject_Z m * pow2 e) == inject_Z m * pow2 e.
Proof.
  intros [Hm0 Hm] He.
  pose proof (pow2_pos e) as Pe.
  assert (Hm0' : 0 < inject_Z m) by (change 0 with (inject_Z 0); rewrite <- Zlt_Qlt; lia).
  assert (Hx : 0 < inject_Z m * pow2 e) by nra.
  destruct (Z.eq_dec m (2 ^ 53)) as [Emax | Nmax].
  - assert (E : inject_Z m * pow2 e == pow2 (e + 53)).
    { rewrite (pow2_on_grid e 53) by lia. rewrite Emax. reflexivity. }
    rewrite (rn_pos_ext _ _ Hx E), E. apply rn_pos_pow2. lia.
  - set (x := inject_Z m * pow2 e) in *.
    assert (Hlt : x < pow2 (e + 53)).
    { rewrite (pow2_on_grid e 53) by lia. unfold x.
      assert (inject_Z m < inject_Z (2 ^ 53)) by (rewrite <- Zlt_Qlt; lia).
      nra. }
    destruct (ilog2_spec x Hx) as [L _].
    assert (ilog2 x < e + 53)%Z by (apply pow2_lt_inv; lra).
    assert (Hf : (fexp x <= e)%Z) by (unfold fexp; lia).
    unfold rn_pos.
    assert (E : x == inject_Z (m * 2 ^ (e - fexp x)) * pow2 (fexp x)).
    { unfold x. rewrite inject_Z_mult.
      replace e with (fexp (inject_Z m * pow2 e) + (e - fexp (inject_Z m * pow2 e)))%Z at 1 by lia.
      fold x. rewrite (pow2_on_grid (fexp x) (e - fexp x)) by lia. ring. }
    rewrite (on_grid_ext _ _ _ E), on_grid_fix. symmetry. exact E.
Qed.

(** ** Rounding, as a float *)

Lemma rn_pos_case x :
  0 < x ->
  rn x = if Qle_bool (pow2 1024) (rn_pos x) then PosInf
         else Finite (Qred (rn_pos x)).
Proof.
  intros Hx. unfold rn.
  assert (C : Qcompare x 0 = Gt) by (apply Qgt_alt; exact Hx).
  rewrite C. reflexivity.
Qed.

Lemma rn_neg_case x :
  x < 0 ->
  rn x = if Qle_bool (pow2 1024) (rn_pos (- x)) then NegInf
         else Finite (Qred (- rn_pos (- x))).
Proof.
  intros Hx. unfold rn.
  assert (C : Qcompare x 0 = Lt) by (apply Qlt_alt; exact Hx).
  rewrite C. reflexivity.
Qed.

Lemma rn_zero x : x == 0 -> rn x = Finite 0.
Proof.
  intros Hx. unfold rn.
  assert (C : Qcompare x 0 = Eq) by (apply Qeq_alt; exact Hx).
  rewrite C. reflexivity.
Qed.

Lemma Qle_bool_false x y : Qle_bool x y = false <-> y < x.
Proof.
  split; intros H.
  - apply Qnot_le_lt. intros C. apply Qle_bool_iff in C. congruence.
  - destruct (Qle_bool x y) eqn:E; [|reflexivity].
    apply Qle_bool_iff in E. lra.
Qed.

Lemma Qle_bool_ext x y x' y' :
  x == x' -> y == y' -> Qle_bool x y = Qle_bool x' y'.
Proof.
  intros Ex Ey.
  destruct (Qle_bool x y) eqn:A; destruct (Qle_bool x' y') eqn:B; try reflexivity.
  - apply Qle_bool_iff in A. apply Qle_bool_false in B. lra.
  - apply Qle_bool_iff in B. apply Qle_bool_false in A. lra.
Qed.

Lemma rn_ext x y : x == y -> rn x = rn y.
Proof.
  intros E.
  destruct (Qcompare_spec x 0) as [Z0|N|P].
  - rewrite (rn_zero x Z0), (rn_zero y); [reflexivity | lra].
  - rewrite (rn_neg_case x N), (rn_neg_case y) by lra.
    assert (R : rn_pos (- x) == rn_pos (- y)) by (apply rn_pos_ext; lra).
    rewrite (Qle_bool_ext _ _ (pow2 1024) (rn_pos (- y))) by (reflexivity || exact R).
    destruct (Qle_bool (pow2 1024) (rn_pos (- y))); [reflexivity|].
    f_equal. apply Qred_complete. lra.
  - rewrite (rn_pos_case x P), (rn_pos_case y) by lra.
    assert (R : rn_pos x == rn_pos y) by (apply rn_pos_ext; lra).
    rewrite (Qle_bool_ext _ _ (pow2 1024) (rn_pos y)) by (reflexivity || exact R).
    destruct (Qle_bool (pow2 1024) (rn_pos y)); [reflexivity|].
    f_equal. apply Qred_complete. exact R.
Qed.

Lemma fle_finite a b : fle (Finite a) (Finite b) = true <-> a <= b.
Proof.
  unfold fle, fcmp.
  destruct (Qcompare_spec a b) as [E|E|E]; split; intros H;
    try reflexivity; try discriminate; lra.
Qed.

Lemma flt_finite a b : flt (Finite a) (Finite b) = true <-> a < b.
Proof.
  unfold flt, fcmp.
  destruct (Qcompare_spec a b) as [E|E|E]; split; intros H;
    try reflexivity; try discriminate; lra.
Qed.

Lemma rn_mono x y : x <= y -> fle (rn x) (rn y) = true.
Proof.
  intros Hxy.
  destruct (Qcompare_spec x 0) as [X0|XN|XP];
  destruct (Qcompare_spec y 0) as [Y0|YN|YP]; try lra.
  - rewrite (rn_zero x X0), (rn_zero y Y0). reflexivity.
  - rewrite (rn_zero x X0), (rn_pos_case y YP).
    destruct (Qle_bool (pow2 1024) (rn_pos y)); [reflexivity|].
    apply fle_finite. rewrite Qred_correct. apply rn_pos_nonneg. exact YP.
  - rewrite (rn_neg_case x XN), (rn_zero y Y0).
    destruct (Qle_bool (pow2 1024) (rn_pos (- x))); [reflexivity|].
    apply fle_finite. rewrite Qred_correct.
    pose proof (rn_pos_nonneg (- x)). lra.
  - rewrite (rn_neg_case x XN), (rn_neg_case y YN).
    assert (M : rn_pos (- y) <= rn_pos (- x)) by (apply rn_pos_mono; lra).
    destruct (Qle_bool (pow2 1024) (rn_pos (- y))) eqn:Ey.
    + apply Qle_bool_iff in Ey.
      assert (Ex : Qle_bool (pow2 1024) (rn_pos (- x)) = true)
        by (apply Qle_bool_iff; lra).
      rewrite Ex. reflexivity.
    + destruct (Qle_bool (pow2 1024) (rn_pos (- x))); [reflexivity|].
      apply fle_finite. rewrite !Qred_correct. lra.
  - rewrite (rn_neg_case x XN), (rn_pos_case y YP).
    pose proof (rn_pos_nonneg (- x)). pose proof (rn_pos_nonneg y YP).
    destruct (Qle_bool (pow2 1024) (rn_pos (- x)));
    destruct (Qle_bool (pow2 1024) (rn_pos y)); try reflexivity.
    apply fle_finite. rewrite !Qred_correct. lra.
  - rewrite (rn_pos_case x XP), (rn_pos_case y YP).
    assert (M : rn_pos x <= rn_pos y) by (apply rn_pos_mono; lra).
    destruct (Qle_bool (pow2 1024) (rn_pos x)) eqn:Ex.
    + apply Qle_bool_iff in Ex.
      assert (Ey : Qle_bool (pow2 1024) (rn_pos y) = true)
        by (apply Qle_bool_iff; lra).
      rewrite Ey. reflexivity.
    + destruct (Qle_bool (pow2 1024) (rn_pos y)); [reflexivity|].
      apply fle_finite. rewrite !Qred_correct. exact M.
Qed.

(** A positive value at most [2^k] rounds to a finite float at most
    [2^k], for [k] below the overflow threshold. *)
Lemma rn_bounded x k :
  0 < x -> x <= pow2 k -> (-1022 <= k < 1024)%Z ->
  exists q, rn x = Finite q /\ 0 <= q /\ q <= pow2 k.
Proof.
  intros Hx Hle Hk.
  pose proof (rn_pos_le_pow2 x k Hx Hle ltac:(lia)) as B.
  pose proof (rn_pos_nonneg x Hx) as N.
  assert (pow2 k < pow2 1024) by (apply pow2_lt; lia).
  rewrite (rn_pos_case x Hx).
  assert (E : Qle_bool (pow2 1024) (rn_pos x) = false)
    by (apply Qle_bool_false; lra).
  rewrite E. exists (Qred (rn_pos x)).
  pose proof (Qred_correct (rn_pos x)) as R.
  split; [reflexivity|]. split; lra.
Qed.

(** [rn] against the standard library's executable IEEE 754
    specification: a division and a product with inexact results, a sum,
    the conversion of integers at the edge of the 53-bit range and of the
    overflow threshold, and subnormal results with ties. *)
Lemma rn_cross_check :
  let D := SFdiv 53 1024 in
  let M := SFmul 53 1024 in
  let A := SFadd 53 1024 in
  let I := sf_of_int in
  let tiny := D (D (I 1%Z) (I (2 ^ 1000)%Z)) (I (2 ^ 74)%Z) in
  finite_value (rn (1 # 10)) = sf_value (D (I 1%Z) (I 10%Z)) /\
  finite_value (fmul (rn (1 # 10)) (Finite 3)) = sf_value (M (D (I 1%Z) (I 10%Z)) (I 3%Z)) /\
  finite_value (fadd (rn (1 # 10)) (rn (2 # 10)))
  = sf_value (A (D (I 1%Z) (I 10%Z)) (D (I 2%Z) (I 10%Z))) /\
  finite_value (fmul (Finite 50000) (rn (6 # 5)))
  = sf_value (M (I 50000%Z) (D (I 6%Z) (I 5%Z))) /\
  finite_value (rn (inject_Z (2 ^ 53 + 1)%Z)) = sf_value (I (2 ^ 53 + 1)%Z) /\
  finite_value (rn (inject_Z (2 ^ 53 + 3)%Z)) = sf_value (I (2 ^ 53 + 3)%Z) /\
  finite_value (rn (inject_Z (2 ^ 1024 - 2 ^ 970 - 1)%Z))
  = sf_value (I (2 ^ 1024 - 2 ^ 970 - 1)%Z) /\
  (rn (inject_Z (2 ^ 1024 - 2 ^ 970)%Z), I (2 ^ 1024 - 2 ^ 970)%Z)
  = (PosInf, S754_infinity false) /\
  finite_value (rn (1 # 2 ^ 1074)) = sf_value tiny /\
  finite_value (rn (1 # 2 ^ 1075)) = sf_value (D tiny (I 2%Z)) /\
  finite_value (rn (3 # 2 ^ 1075)) = sf_value (D (M tiny (I 3%Z)) (I 2%Z)) /\
  finite_value (rn (5 # 2 ^ 1076)) = sf_value (D (M tiny (I 5%Z)) (I 4%Z)).
Proof. cbv zeta. repeat split; vm_compute; reflexivity. Qed.

(** ** Representable values *)

Lemma rn_is_f64 x : is_f64 (rn x).
Proof.
  assert (Pos : forall x, 0 < x ->
            exists m, rn_pos x == inject_Z m * pow2 (fexp x) /\ (0 <= m <= 2 ^ 53)%Z).
  { intros z Hz. exists (round_half_even (z / pow2 (fexp z))).
    split; [reflexivity|].
    pose proof (pow2_pos (fexp z)) as P.
    destruct (ilog2_spec z Hz) as [_ U].
    assert (B : z < pow2 (fexp z + 53)).
    { apply (Qlt_le_trans _ _ _ U). apply pow2_le. unfold fexp. lia. }
    rewrite (pow2_on_grid (fexp z) 53) in B by lia.
    assert (D0 : inject_Z 0 <= z / pow2 (fexp z)).
    { apply Qlt_le_weak, Qlt_shift_div_l; [exact P|].
      change (inject_Z 0) with 0. lra. }
    assert (D1 : z / pow2 (fexp z) <= inject_Z (2 ^ 53)).
    { apply Qlt_le_weak, Qlt_shift_div_r; [exact P|exact B]. }
    apply round_half_even_mono in D0, D1.
    rewrite round_half_even_Z in D0, D1. lia. }
  destruct (Qcompare_spec x 0) as [X0|XN|XP].
  - rewrite (rn_zero x X0). exists 0%Z, 0%Z.
    pose proof (pow2_pos 1024).
    repeat split; try lia; try lra.
  - rewrite (rn_neg_case x XN).
    destruct (Qle_bool (pow2 1024) (rn_pos (- x))) eqn:E; [exact I|].
    apply Qle_bool_false in E.
    destruct (Pos (- x) ltac:(lra)) as (m & Em & Hm).
    pose proof (rn_pos_nonneg (- x) ltac:(lra)) as N.
    pose proof (Qred_correct (- rn_pos (- x))) as R.
    exists (- m)%Z, (fexp (- x)).
    assert (inject_Z (- m) == - inject_Z m) by (rewrite inject_Z_opp; reflexivity).
    repeat split; try lia; try nra.
    unfold fexp. lia.
  - rewrite (rn_pos_case x XP).
    destruct (Qle_bool (pow2 1024) (rn_pos x)) eqn:E; [exact I|].
    apply Qle_bool_false in E.
    destruct (Pos x XP) as (m & Em & Hm).
    pose proof (rn_pos_nonneg x XP) as N.
    pose proof (Qred_correct (rn_pos x)) as R.
    exists m, (fexp x).
    repeat split; try lia; try lra.
    unfold fexp. lia.
Qed.

(** Rounding a float gives the float back. *)
Lemma rn_f64_finite q :
  is_f64 (Finite q) -> exists q', rn q = Finite q' /\ q' == q.
Proof.
  intros (m & e & Eq & Hm & He & Lo & Hi).
  pose proof (pow2_pos e) as Pe.
  destruct (Z.lt_trichotomy m 0) as [Neg | [Zero | Pos]].
  - assert (Hq : q < 0).
    { assert (inject_Z m < inject_Z 0) by (rewrite <- Zlt_Qlt; lia).
      change (inject_Z 0) with 0 in *. rewrite Eq. nra. }
    assert (F : rn_pos (- q) == - q).
    { assert (E' : - q == inject_Z (- m) * pow2 e)
        by (rewrite inject_Z_opp, Eq; ring).
      assert (Hnq : 0 < - q) by lra.
      rewrite (rn_pos_ext _ _ Hnq E'), E'.
      apply rn_pos_f64_fix; lia. }
    rewrite (rn_neg_case q Hq).
    assert (E : Qle_bool (pow2 1024) (rn_pos (- q)) = false)
      by (apply Qle_bool_false; lra).
    rewrite E. eexists. split; [reflexivity|].
    rewrite Qred_correct. lra.
  - exists 0. split; [|rewrite Eq, Zero; ring].
    apply rn_zero. rewrite Eq, Zero. ring.
  - assert (Hq : 0 < q).
    { assert (inject_Z 0 < inject_Z m) by (rewrite <- Zlt_Qlt; lia).
      change (inject_Z 0) with 0 in *. rewrite Eq. nra. }
    assert (F : rn_pos q == q).
    { rewrite (rn_pos_ext _ _ Hq Eq), Eq. apply rn_pos_f64_fix; lia. }
    rewrite (rn_pos_case q Hq).
    assert (E : Qle_bool (pow2 1024) (rn_pos q) = false)
      by (apply Qle_bool_false; lra).
    rewrite E. eexists. split; [reflexivity|].
    rewrite Qred_correct. exact F.
Qed.

Close Scope Q_scope.
End FloatFacts.

(* ================================================================= *)
(** * [car_agent.py]: amounts *)
(* ================================================================= *)

Module AmountFacts.
Import Py World CarAgent FloatFacts.
Open Scope Q_scope.

Lemma float_of_scale : float_of_int (10 ^ USDC_DECIMALS) = Ok (Finite 1000000).
Proof. vm_compute. reflexivity. Qed.

Lemma pow2_m53 : pow2 (-53) == 1 # 9007199254740992.
Proof. vm_compute. reflexivity. Qed.

Lemma pow2_m20 : pow2 (-20) == 1 # 1048576.
Proof. vm_compute. reflexivity. Qed.

Lemma pow2_60 : pow2 60 == 1152921504606846976.
Proof. vm_compute. reflexivity. Qed.

(** Integers up to [2^53] convert to floats exactly. *)
Lemma float_of_int_exact n :
  (0 <= n <= 2 ^ 53)%Z ->
  exists q, float_of_int n = Ok (Finite q) /\ q == inject_Z n.
Proof.
  intros Hn.
  assert (F : is_f64 (Finite (inject_Z n))).
  { exists n, 0%Z.
    assert (inject_Z 0 <= inject_Z n) by (rewrite <- Zle_Qle; lia).
    assert (inject_Z n <= inject_Z (2 ^ 53)) by (rewrite <- Zle_Qle; lia).
    change (inject_Z 0) with 0 in *.
    pose proof (pow2_Z 53 ltac:(lia)) as P53.
    pose proof (pow2_lt 53 1024 ltac:(lia)) as Plt.
    pose proof (pow2_pos 1024).
    repeat split; try lia; try lra.
    change (pow2 0) with 1. ring. }
  destruct (rn_f64_finite _ F) as (q & Rq & Eq).
  exists q. unfold float_of_int. rewrite Rq. auto.
Qed.

(** A value in the normal range, well below the overflow threshold, rounds
    to a finite float within relative distance [2^-53]. *)
Lemma rn_normal x :
  pow2 (-1022) <= x -> x <= pow2 1000 ->
  exists y, rn x = Finite y /\
    x - x * (1 # 9007199254740992) <= y /\
    y <= x + x * (1 # 9007199254740992).
Proof.
  intros Lo Hi.
  assert (Hx : 0 < x) by (pose proof (pow2_pos (-1022)); lra).
  destruct (rn_pos_rel_error x Lo) as [A B].
  rewrite pow2_m53 in A, B.
  pose proof (rn_pos_le_pow2 x 1000 Hx Hi ltac:(lia)) as C.
  pose proof (pow2_lt 1000 1024 ltac:(lia)) as D.
  rewrite (rn_pos_case x Hx).
  assert (E : Qle_bool (pow2 1024) (rn_pos x) = false)
    by (apply Qle_bool_false; lra).
  rewrite E. exists (Qred (rn_pos x)).
  pose proof (Qred_correct (rn_pos x)) as R.
  split; [reflexivity|]. split; lra.
Qed.

(** C10.  For every amount of at most [10^15] smallest units, converting
    to decimal token units with [from_usdc_base_units] and back with
    [to_usdc_base_units] gives the amount back: the division by [10^6],
    the multiplication by [10^6] and the final [round] lose nothing. *)
Theorem usdc_base_units_roundtrip (n : Z) :
  (0 <= n <= 10 ^ 15)%Z ->
  bind (from_usdc_base_units n) to_usdc_base_units = Ok n.
Proof.
  intros Hn.
  destruct (float_of_int_exact n ltac:(lia)) as (a & Fa & Ea).
  unfold from_usdc_base_units, to_usdc_base_units.
  rewrite Fa, float_of_scale. cbn [bind].
  unfold fdiv. change (is_zero (Finite 1000000)) with false. cbn [bind].
  destruct (Z.eq_dec n 0) as [Z0 | NZ].
  - assert (R1 : rn (a / 1000000) = Finite 0).
    { apply rn_zero. rewrite Ea, Z0. reflexivity. }
    rewrite R1. cbn [fmul]. rewrite (rn_zero (0 * 1000000)) by reflexivity.
    cbn [py_round]. rewrite Z0. reflexivity.
  - assert (N1 : inject_Z 1 <= inject_Z n) by (rewrite <- Zle_Qle; lia).
    assert (N2 : inject_Z n <= inject_Z (10 ^ 15)) by (rewrite <- Zle_Qle; lia).
    change (inject_Z 1) with 1 in N1.
    change (inject_Z (10 ^ 15)) with 1000000000000000 in N2.
    pose proof pow2_m20 as P20. pose proof pow2_60 as P60.
    pose proof (pow2_le (-1022) (-20) ltac:(lia)) as Q1.
    pose proof (pow2_le 60 1000 ltac:(lia)) as Q2.
    assert (D : a / 1000000 == a * (1 # 1000000)) by (field).
    destruct (rn_normal (a / 1000000)) as (y1 & R1 & L1 & U1); try lra.
    rewrite R1. cbn [fmul].
    destruct (rn_normal (y1 * 1000000)) as (y2 & R2 & L2 & U2); try lra.
    rewrite R2. cbn [py_round]. f_equal.
    apply round_half_even_near; lra.
Qed.

(** An instance of the round trip: 1234.567891 tokens. *)
Lemma usdc_base_units_roundtrip_witness :
  bind (from_usdc_base_units 1234567891) to_usdc_base_units = Ok 1234567891%Z.
Proof. apply usdc_base_units_roundtrip. lia. Defined.

(** ** The cap on liters *)

(** C4.  [cap_liters_to_fit_max_per_tx] computes the rule of the
    specification on every input, and gives 20.0 for 40 liters at 2.5 under
    a ceiling of 50 tokens, and 1.0 for half a liter at 2.0 under a ceiling
    of 100 tokens. *)
Theorem cap_liters_computes_rule :
  (forall liters price max_per_tx,
     cap_liters_to_fit_max_per_tx liters price max_per_tx
     = Spec.cap_to_policy liters price max_per_tx) /\
  cap_liters_to_fit_max_per_tx (Spec.float_lit 40) (Spec.float_lit (5 # 2)) 50000000
  = Ok (Spec.float_lit 20) /\
  cap_liters_to_fit_max_per_tx (Spec.float_lit (1 # 2)) (Spec.float_lit 2) 100000000
  = Ok (Spec.float_lit 1).
Proof.
  split; [|split; vm_compute; reflexivity].
  intros liters price max_per_tx.
  unfold cap_liters_to_fit_max_per_tx, Spec.cap_to_policy, from_usdc_base_units.
  rewrite float_of_scale.
  destruct (fle price (Finite 0)); [reflexivity|].
  destruct (float_of_int max_per_tx); reflexivity.
Qed.

Lemma fle_refl_finite q : fle (Finite q) (Finite q) = true.
Proof. apply fle_finite. lra. Qed.

Lemma flt_fle a b : flt a b = true -> fle a b = true.
Proof. unfold flt, fle. destruct (fcmp a b) as [[]|]; congruence. Qed.

(** On floats other than NaN the order is total. *)
Lemma fle_total a b :
  not_nan a = true -> not_nan b = true -> flt b a = false -> fle a b = true.
Proof.
  destruct a as [x| | |], b as [y| | |]; try discriminate; try reflexivity.
  intros _ _. unfold flt, fle, fcmp.
  destruct (Qcompare_spec y x) as [E|E|E]; try discriminate;
  destruct (Qcompare_spec x y) as [F|F|F]; try reflexivity; lra.
Qed.

Lemma fle_not_nan a b : fle a b = true -> not_nan a = true /\ not_nan b = true.
Proof. destruct a, b; try discriminate; auto. Qed.

Lemma rn_not_nan x : not_nan (rn x) = true.
Proof.
  unfold rn.
  destruct (Qcompare x 0); [reflexivity | |];
  match goal with |- context [Qle_bool ?a ?b] => destruct (Qle_bool a b) end;
  reflexivity.
Qed.

Lemma rn_finite_of_bound x k :
  - pow2 k <= x -> x <= pow2 k -> (-1022 <= k < 1024)%Z ->
  exists q, rn x = Finite q.
Proof.
  intros Lo Hi Hk.
  destruct (Qcompare_spec x 0) as [X0|XN|XP].
  - exists 0. apply rn_zero. exact X0.
  - pose proof (rn_pos_le_pow2 (- x) k ltac:(lra) ltac:(lra) ltac:(lia)) as B.
    pose proof (pow2_lt k 1024 ltac:(lia)).
    rewrite (rn_neg_case x XN).
    assert (E : Qle_bool (pow2 1024) (rn_pos (- x)) = false)
      by (apply Qle_bool_false; lra).
    rewrite E. eexists. reflexivity.
  - destruct (rn_bounded x k XP Hi Hk) as (q & R & _). exists q. exact R.
Qed.

Lemma two_decimals_mono x y : x <= y -> two_decimals x <= two_decimals y.
Proof.
  intros H. unfold two_decimals.
  assert (M : (round_half_even (x * 100) <= round_half_even (y * 100))%Z)
    by (apply round_half_even_mono; lra).
  rewrite Zle_Qle in M. unfold Qdiv.
  apply Qmult_le_compat_r; [exact M | discriminate].
Qed.

Lemma two_decimals_error x :
  x - (1 # 200) <= two_decimals x /\ two_decimals x <= x + (1 # 200).
Proof.
  unfold two_decimals.
  destruct (round_half_even_bounds (x * 100)) as [A B].
  set (k := inject_Z (round_half_even (x * 100))) in *.
  assert (E : k / 100 == k * (1 # 100)) by field.
  split; lra.
Qed.

(** [round(x, 2)] never fails on a float. *)
Lemma py_round2_total x : is_f64 x -> exists r, py_round2 x = Ok r.
Proof.
  destruct x as [q| | |]; try (intros _; eexists; reflexivity).
  intros F.
  assert (G : exists r, rn (two_decimals q) = Finite r).
  { destruct F as (m & e & Eq & Hm & He & Lo & Hi).
    destruct (Z_le_gt_dec 0 e) as [Epos | Eneg].
    - assert (Ei : q * 100 == inject_Z (m * 2 ^ e * 100)).
      { rewrite !inject_Z_mult, Eq, (pow2_Z e Epos). reflexivity. }
      assert (Ev : two_decimals q == q).
      { unfold two_decimals.
        rewrite (round_half_even_ext _ _ Ei), round_half_even_Z.
        rewrite !inject_Z_mult, Eq, (pow2_Z e Epos).
        change (inject_Z 100) with 100. field. }
      rewrite (rn_ext _ _ Ev).
      destruct (rn_f64_finite q) as (q' & R & _).
      + exists m, e. auto.
      + exists q'. exact R.
    - destruct (two_decimals_error q) as [A B].
      pose proof (pow2_le e (-1) ltac:(lia)) as Pe.
      change (pow2 (-1)) with (1 # 2) in Pe.
      pose proof (pow2_pos e) as Pe0.
      assert (Hm' : - inject_Z (2 ^ 53) <= inject_Z m /\ inject_Z m <= inject_Z (2 ^ 53)).
      { rewrite <- inject_Z_opp, <- !Zle_Qle. lia. }
      change (inject_Z (2 ^ 53)) with 9007199254740992 in Hm'.
      destruct Hm' as [M1 M2].
      assert (P53 : pow2 53 == 9007199254740992) by (vm_compute; reflexivity).
      apply (rn_finite_of_bound _ 53); try lia; rewrite P53; nra. }
  destruct G as (r & R). exists (Finite r).
  unfold py_round2. rewrite R. reflexivity.
Qed.

Lemma py_round2_finite q r :
  py_round2 (Finite q) = Ok r -> r = rn (two_decimals q).
Proof.
  unfold py_round2.
  destruct (rn (two_decimals q)); unfold raise; congruence.
Qed.

Lemma py_round2_not_nan x r :
  not_nan x = true -> py_round2 x = Ok r -> not_nan r = true.
Proof.
  destruct x as [q| | |]; try discriminate; intros _ H.
  - apply py_round2_finite in H. subst r. apply rn_not_nan.
  - inversion H. reflexivity.
  - inversion H. reflexivity.
Qed.

(** [round(x, 2)] is monotone. *)
Lemma py_round2_mono a b ra rb :
  fle a b = true -> py_round2 a = Ok ra -> py_round2 b = Ok rb ->
  fle ra rb = true.
Proof.
  intros Hab Ha Hb.
  destruct (fle_not_nan _ _ Hab) as [Na Nb].
  pose proof (py_round2_not_nan _ _ Na Ha) as Nra.
  pose proof (py_round2_not_nan _ _ Nb Hb) as Nrb.
  destruct a as [x| | |], b as [y| | |]; try discriminate.
  - apply py_round2_finite in Ha, Hb. subst ra rb.
    apply rn_mono, two_decimals_mono. apply fle_finite. exact Hab.
  - inversion Hb; subst rb. destruct ra; try discriminate; reflexivity.
  - inversion Hb; subst rb. destruct ra; try discriminate; reflexivity.
  - inversion Ha; subst ra. destruct rb; try discriminate; reflexivity.
  - inversion Ha; subst ra. destruct rb; try discriminate; reflexivity.
  - inversion Ha; subst ra. destruct rb; try discriminate; reflexivity.
Qed.


Lemma float_of_uint256 c :
  (0 <= c < 2 ^ 256)%Z ->
  exists a, float_of_int c = Ok (Finite a) /\ 0 <= a /\ a <= pow2 256.
Proof.
  intros Hc. unfold float_of_int.
  destruct (Z.eq_dec c 0) as [Z0 | NZ].
  - subst c. exists 0. pose proof (pow2_pos 256).
    split; [reflexivity|]. split; lra.
  - assert (0 < inject_Z c).
    { change 0 with (inject_Z 0). rewrite <- Zlt_Qlt. lia. }
    assert (inject_Z c <= pow2 256).
    { rewrite (pow2_Z 256) by lia. rewrite <- Zle_Qle. lia. }
    destruct (rn_bounded (inject_Z c) 256) as (q & R & B); try assumption; try lia.
    exists q. rewrite R. auto.
Qed.

Lemma fdiv_finite x p :
  ~ p == 0 -> fdiv (Finite x) (Finite p) = Ok (rn (x / p)).
Proof.
  intros Hp. unfold fdiv, is_zero, feq, fcmp.
  destruct (Qcompare_spec p 0) as [E|E|E]; try reflexivity. contradiction.
Qed.

(** The policy quantity [max_liters] is a float, and never NaN. *)
Lemma max_liters_defined price max_per_tx :
  flt (Finite 0) price = true -> (0 <= max_per_tx < 2 ^ 256)%Z ->
  exists max_liters,
    bind (from_usdc_base_units max_per_tx) (fun t => fdiv t price) = Ok max_liters /\
    is_f64 max_liters /\ not_nan max_liters = true.
Proof.
  intros Hp Hc.
  destruct (float_of_uint256 max_per_tx Hc) as (a & Fa & A0 & A1).
  unfold from_usdc_base_units. rewrite Fa, float_of_scale. cbn [bind].
  rewrite (fdiv_finite a 1000000) by discriminate. cbn [bind].
  assert (T : exists t, rn (a / 1000000) = Finite t).
  { assert (E : a / 1000000 == a * (1 # 1000000)) by field.
    pose proof (pow2_pos 256).
    apply (rn_finite_of_bound _ 256); try lia; lra. }
  destruct T as (t & Rt). rewrite Rt.
  destruct price as [p| | |]; try discriminate.
  - apply flt_finite in Hp.
    rewrite (fdiv_finite t p) by lra.
    eexists. split; [reflexivity|]. split; [apply rn_is_f64 | apply rn_not_nan].
  - exists (Finite 0). split; [reflexivity|]. split; [|reflexivity].
    exists 0%Z, 0%Z. pose proof (pow2_pos 1024).
    repeat split; try lia; try lra.
Qed.


Lemma py_round2_one : py_round2 (Finite 1) = Ok (Finite 1).
Proof. vm_compute. reflexivity. Qed.



Close Scope Q_scope.
End AmountFacts.

(* ================================================================= *)
(** * The two revert-reason parsers *)
(* ================================================================= *)

Module RevertReasonFacts.
Import Py World Spec.
Open Scope string_scope.


Lemma drop_prefix_spec p s r : drop_prefix p s = Some r -> s = p ++ r.
Proof.
  revert s. induction p as [|a p IH]; intros s; simpl.
  - intros H. inversion H. reflexivity.
  - destruct s as [|b s]; [discriminate|].
    destruct (Ascii.eqb_spec a b) as [E|N]; [|discriminate].
    intros H. subst b. f_equal. apply IH. exact H.
Qed.

Lemma split_skip sep t post :
  split_from sep (String.length t) (t ++ post) = split_from sep 0 post.
Proof.
  induction t as [|a t IH]; simpl.
  - destruct post; reflexivity.
  - exact IH.
Qed.

Lemma partition_unfold sep s :
  partition sep s =
  match drop_prefix sep s with
  | Some post => Some (EmptyString, post)
  | None =>
      match s with
      | EmptyString => None
      | String a s' =>
          match partition sep s' with
          | Some (pre, post) => Some (String a pre, post)
          | None => None
          end
      end
  end.
Proof. destruct s; reflexivity. Qed.

Lemma re_search_unfold lit cls s :
  re_search lit cls s =
  match re_match_at lit cls s with
  | Some g => Some g
  | None =>
      match s with
      | EmptyString => None
      | String _ s' => re_search lit cls s'
      end
  end.
Proof. destruct s; reflexivity. Qed.

(** [s.partition(sep)] splits [s] around an occurrence of [sep]. *)
Lemma partition_spec sep s pre post :
  partition sep s = Some (pre, post) -> s = pre ++ sep ++ post.
Proof.
  revert pre. induction s as [|a s IH]; intros pre; rewrite partition_unfold.
  - destruct (drop_prefix sep "") eqn:D; [|discriminate].
    intros H. inversion H; subst. apply drop_prefix_spec in D. exact D.
  - destruct (drop_prefix sep (String a s)) eqn:D.
    + intros H. inversion H; subst. apply drop_prefix_spec in D. exact D.
    + destruct (partition sep s) as [[pre' post']|] eqn:P; [|discriminate].
      intros H. inversion H; subst. simpl. f_equal. apply IH. reflexivity.
Qed.

Lemma partition_contains sep s :
  contains sep s = match partition sep s with Some _ => true | None => false end.
Proof.
  induction s as [|a s IH]; rewrite partition_unfold; simpl; unfold startswith.
  - destruct (drop_prefix sep ""); reflexivity.
  - destruct (drop_prefix sep (String a s)); [reflexivity|].
    simpl. rewrite IH. destruct (partition sep s) as [[? ?]|]; reflexivity.
Qed.

(** The pieces of [s.split(sep)]: the text before the first occurrence,
    then the pieces of what follows it. *)
Lemma split_partition a t s pre post :
  partition (String a t) s = Some (pre, post) ->
  split_from (String a t) 0 s = pre :: split_from (String a t) 0 post.
Proof.
  set (sep := String a t).
  revert pre. induction s as [|b s IH]; intros pre; rewrite partition_unfold.
  - simpl. discriminate.
  - simpl split_from. unfold startswith.
    destruct (drop_prefix sep (String b s)) eqn:D.
    + intros H. inversion H; subst.
      apply drop_prefix_spec in D. unfold sep in D. simpl in D.
      inversion D; subst.
      change (String.length sep - 1) with (String.length t - 0).
      rewrite Nat.sub_0_r. rewrite split_skip. reflexivity.
    + destruct (partition sep s) as [[pre' post']|] eqn:P; [|discriminate].
      intros H. inversion H; subst.
      rewrite (IH pre' eq_refl). reflexivity.
Qed.

Lemma split_no_occurrence sep s :
  contains sep s = false -> split_from sep 0 s = [s].
Proof.
  induction s as [|a s IH]; simpl.
  - reflexivity.
  - intros H. apply orb_false_iff in H. destruct H as [H1 H2].
    rewrite H1, (IH H2). reflexivity.
Qed.

(** The first piece of [s.split("'")] is [s] up to its first apostrophe. *)
Lemma split_apostrophe_first s :
  exists ps, split_from "'" 0 s = take_while not_apostrophe s :: ps.
Proof.
  induction s as [|a s [ps IH]].
  - exists []. reflexivity.
  - cbn [split_from take_while]. unfold startswith. cbn [drop_prefix].
    unfold not_apostrophe at 1. rewrite (Ascii.eqb_sym a "'").
    destruct (Ascii.eqb "'" a); cbn [negb].
    + eexists. reflexivity.
    + rewrite IH. eexists. reflexivity.
Qed.








Close Scope string_scope.
End RevertReasonFacts.

(* ================================================================= *)
(** * The spend functions *)
(* ================================================================= *)

Module SpendFacts.
Import Py World Spec Scenarios.
Open Scope string_scope.

(** Destructs the results of the calls a function makes in sequence. *)
Ltac step_binds :=
  repeat match goal with
         | |- context [bind ?r _] =>
             let R := fresh "R" in destruct r eqn:R; cbn [bind]
         end.

Lemma split_from_nonempty sep k s : split_from sep k s <> [].
Proof.
  revert k. induction s as [|a s IH]; intros k; simpl.
  - discriminate.
  - destruct k as [|k]; [|apply IH].
    destruct (startswith (String a s) sep); [discriminate|].
    destruct (split_from sep 0 s); discriminate.
Qed.

(** The reason extraction of [m2m_client.py] never raises. *)
Lemma revert_reason_total msg : exists r, M2MClient.revert_reason msg = Ok r.
Proof.
  unfold M2MClient.revert_reason.
  destruct (contains "execution reverted:" msg) eqn:C; [|eexists; reflexivity].
  rewrite RevertReasonFacts.partition_contains in C.
  destruct (partition "execution reverted:" msg) as [[pre post]|] eqn:P;
    [|discriminate].
  unfold split. cbn [is_empty bind].
  rewrite (RevertReasonFacts.split_partition _ _ _ _ _ P).
  unfold list_item. cbn [nth_error].
  pose proof (split_from_nonempty "execution reverted:" 0 post) as N1.
  destruct (split_from "execution reverted:" 0 post) as [|p ps]; [contradiction|].
  cbn [nth_error bind].
  pose proof (split_from_nonempty "'" 0 p) as N2.
  destruct (split_from "'" 0 p) as [|q qs]; [contradiction|].
  cbn [nth_error bind]. eexists. reflexivity.
Qed.

Lemma car_spend_try_discriminated w3 acct v o m a r :
  CarAgent.spend_try w3 acct v o m a = Ok r ->
  one_populated (CarAgent.tx_hash r) (CarAgent.error r).
Proof.
  unfold CarAgent.spend_try. step_binds; try discriminate.
  destruct (negb _); intros H; inversion H; subst; cbn.
  - right. split; reflexivity.
  - left. split; [discriminate | reflexivity].
Qed.

Lemma m2m_spend_try_discriminated w3 acct v o m a h e :
  M2MClient.spend_try w3 acct v o m a = Ok (h, e) ->
  one_populated h e.
Proof.
  unfold M2MClient.spend_try. step_binds; try discriminate.
  destruct (negb _); intros H; inversion H; subst; cbn.
  - right. split; reflexivity.
  - left. split; [discriminate | reflexivity].
Qed.

(** Whenever [send_vault_spend_tx_safe] returns, exactly one of
    [tx_hash] and [error] is populated. *)
Lemma car_spend_discriminated w3 v o m a r :
  CarAgent.send_vault_spend_tx_safe w3 v o m a = Ok r ->
  one_populated (CarAgent.tx_hash r) (CarAgent.error r).
Proof.
  unfold CarAgent.send_vault_spend_tx_safe. step_binds; try discriminate.
  destruct (_ =? 0)%Z.
  - intros H; inversion H; subst. right. split; reflexivity.
  - destruct (CarAgent.spend_try w3 a0 v o m a) as [r'|e] eqn:T.
    + intros H; inversion H; subst.
      exact (car_spend_try_discriminated _ _ _ _ _ _ _ T).
    + destruct (is_ContractLogicError (exn_cls e)).
      * intros H; inversion H; subst. right. split; reflexivity.
      * destruct (is_Exception (exn_cls e)); [|discriminate].
        intros H; inversion H; subst. right. split; reflexivity.
Qed.

Lemma m2m_spend_discriminated w3 v o m a h e :
  M2MClient.send_vault_spend_tx w3 v o m a = Ok (h, e) ->
  one_populated h e.
Proof.
  unfold M2MClient.send_vault_spend_tx. step_binds; try discriminate.
  destruct (_ =? 0)%Z.
  - intros H; inversion H; subst. right. split; reflexivity.
  - destruct (M2MClient.spend_try w3 a0 v o m a) as [[h' e']|x] eqn:T.
    + intros H; inversion H; subst.
      exact (m2m_spend_try_discriminated _ _ _ _ _ _ _ _ T).
    + destruct (is_ContractLogicError (exn_cls x)).
      * destruct (revert_reason_total (exn_str x)) as (reason & Er).
        rewrite Er. cbn [bind].
        intros H; inversion H; subst. right. split; reflexivity.
      * destruct (is_Exception (exn_cls x)); [|discriminate].
        intros H; inversion H; subst. right. split; reflexivity.
Qed.

(** [send_vault_spend_tx_safe] raises only what the two lookups made
    before the [try] raise, or an exception that is not an [Exception]. *)
Lemma car_spend_raises_only_outside_try w3 v o m a e :
  CarAgent.send_vault_spend_tx_safe w3 v o m a = Raise e ->
  account_from_key w3 = Raise e \/
  (exists acct, account_from_key w3 = Ok acct /\ get_balance w3 acct = Raise e) \/
  is_Exception (exn_cls e) = false.
Proof.
  unfold CarAgent.send_vault_spend_tx_safe.
  destruct (account_from_key w3) as [acct|x] eqn:A; cbn [bind].
  2:{ intros H; inversion H; subst. left. reflexivity. }
  destruct (get_balance w3 acct) as [bal|x] eqn:B; cbn [bind].
  2:{ intros H; inversion H; subst. right. left. exists acct. auto. }
  destruct (bal =? 0)%Z; [discriminate|].
  destruct (CarAgent.spend_try w3 acct v o m a) as [r|x]; [discriminate|].
  destruct (is_ContractLogicError (exn_cls x)); [discriminate|].
  destruct (is_Exception (exn_cls x)) eqn:X; [discriminate|].
  intros H; inversion H; subst. right. right. exact X.
Qed.

(** C2: the claim holds of the [try] block only.  With a node that cannot
    be reached, the balance lookup that precedes the [try] raises, and
    both spend functions raise [ConnectionError] to their caller instead
    of returning a result. *)
Theorem spend_raises_when_node_unreachable :
  CarAgent.send_vault_spend_tx_safe w3_unreachable vault owner merchant 100000000
  = Raise (Exn ConnectionError "HTTPConnectionPool: Max retries exceeded") /\
  M2MClient.send_vault_spend_tx w3_unreachable vault owner merchant 100000000
  = Raise (Exn ConnectionError "HTTPConnectionPool: Max retries exceeded").
Proof. split; reflexivity. Qed.

Close Scope string_scope.
End SpendFacts.

(* ================================================================= *)
(** * The settlement loop of [car_agent.py] *)
(* ================================================================= *)

Module SettlementFacts.
Import Py World Spec Scenarios.
Open Scope string_scope.

(** ** What a computation adds to the log *)

Lemma emits_ret {A} P (a : A) : emits_only P (ret a).
Proof. intros st. exists []. rewrite app_nil_r. auto. Qed.

Lemma emits_lift {A} P (r : result A) : emits_only P (lift r).
Proof. intros st. exists []. rewrite app_nil_r. auto. Qed.

Lemma emits_emit (P : event -> Prop) e : P e -> emits_only P (emit e).
Proof. intros H st. exists [e]. simpl. auto. Qed.

Lemma emits_http (P : event -> Prop) E url payload :
  P (HttpPost url payload) -> emits_only P (http_post_json E url payload).
Proof. intros H st. exists [HttpPost url payload]. simpl. auto. Qed.

Lemma emits_call_spend {A} (P : event -> Prop) E
  (f : web3 -> json -> json -> json -> Z -> result A) v o m a :
  P (Spend v o m a) -> emits_only P (call_spend E f v o m a).
Proof. intros H st. exists [Spend v o m a]. simpl. auto. Qed.

Lemma emits_bind {A B} P (m : io A) (k : A -> io B) :
  emits_only P m -> (forall a, emits_only P (k a)) ->
  emits_only P (iobind m k).
Proof.
  intros Hm Hk st. unfold iobind.
  destruct (Hm st) as (l1 & E1 & F1).
  destruct (m st) as [st' [a|e]]; simpl in E1.
  - destruct (Hk a st') as (l2 & E2 & F2).
    exists (l1 ++ l2)%list. rewrite E2, E1, app_assoc.
    split; [reflexivity | apply Forall_app; auto].
  - exists l1. simpl. auto.
Qed.

Ltac emits :=
  repeat first
    [ apply emits_ret
    | apply emits_lift
    | apply emits_emit; unfold not_aborted; congruence
    | apply emits_http; unfold not_aborted; congruence
    | apply emits_call_spend; unfold not_aborted; congruence
    | apply emits_bind; [|intros]
    | match goal with
      | |- emits_only _ (match ?x with (_, _) => _ end) => destruct x
      | |- emits_only _ (if ?c then _ else _) => destruct c eqn:?
      end ].

Lemma confirm_phase_never_aborts E invoice_id tx :
  emits_only not_aborted (CarAgent.confirm_phase E invoice_id tx).
Proof.
  unfold CarAgent.confirm_phase, CarAgent.confirm_with_server, print. emits.
Qed.

(** While the loop condition allows an iteration, the loop ends inside
    its body: it never reaches the code that follows it. *)
Lemma purchase_loop_never_aborts E car fuel price todo :
  forall attempts liters,
    (1 <= todo)%nat ->
    (attempts + todo = CarAgent.max_attempts)%nat ->
    emits_only not_aborted
      (CarAgent.purchase_loop E car fuel price todo attempts liters).
Proof.
  induction todo as [|todo IH]; intros attempts liters Hpos Hsum; [lia|].
  cbn [CarAgent.purchase_loop].
  unfold CarAgent.request_purchase_from_server, print.
  apply emits_bind; [emits|]. intros [status resp].
  destruct (negb _); [emits|].
  apply emits_bind; [emits|]. intros [invoice_id pr].
  do 5 (apply emits_bind; [emits|]; intros ?).
  apply emits_bind; [emits|]. intros spend_res.
  destruct (CarAgent.has_error spend_res).
  - apply emits_bind; [emits|]. intros _.
    match goal with |- emits_only _ (if ?c then _ else _) => destruct c eqn:C end;
      [|emits].
    apply andb_true_iff in C. destruct C as [_ C].
    apply Nat.ltb_lt in C.
    apply emits_bind; [emits|]. intros halved.
    apply emits_bind; [emits|]. intros _.
    apply IH; lia.
  - apply confirm_phase_never_aborts.
Qed.

(** ** Counting the spend calls *)

Lemma spends_ret {A} (a : A) : spends_at_most 0 (ret a).
Proof. intros st. simpl. lia. Qed.

Lemma spends_lift {A} (r : result A) : spends_at_most 0 (lift r).
Proof. intros st. simpl. lia. Qed.

Lemma spends_emit e : spends_at_most 0 (emit e).
Proof. intros st. simpl. lia. Qed.

Lemma spends_http E url payload :
  spends_at_most 0 (http_post_json E url payload).
Proof. intros st. simpl. lia. Qed.

Lemma spends_call_spend {A} E
  (f : web3 -> json -> json -> json -> Z -> result A) v o m a :
  spends_at_most 1 (call_spend E f v o m a).
Proof. intros st. simpl. lia. Qed.

Lemma spends_bind {A B} n1 n2 (m : io A) (k : A -> io B) :
  spends_at_most n1 m -> (forall a, spends_at_most n2 (k a)) ->
  spends_at_most (n1 + n2) (iobind m k).
Proof.
  intros Hm Hk st. unfold iobind.
  specialize (Hm st). destruct (m st) as [st' [a|e]]; simpl in *.
  - specialize (Hk a st'). lia.
  - lia.
Qed.

Lemma spends_weaken {A} n n' (m : io A) :
  (n <= n')%nat -> spends_at_most n m -> spends_at_most n' m.
Proof. intros Hle H st. specialize (H st). lia. Qed.

(** A step that spends nothing, followed by [k]. *)
Ltac free_step :=
  apply (spends_bind 0);
  [ first [ apply spends_lift | apply spends_emit | apply spends_http
          | apply spends_ret ]
  | intros ].

Lemma confirm_phase_spends E invoice_id tx :
  spends_at_most 0 (CarAgent.confirm_phase E invoice_id tx).
Proof.
  unfold CarAgent.confirm_phase, CarAgent.confirm_with_server, print.
  free_step. match goal with a : (_ * _)%type |- _ => destruct a end.
  destruct (negb _); apply spends_emit.
Qed.

(** The loop makes at most one spend for each iteration its condition
    allows. *)
Lemma purchase_loop_spends E car fuel price todo :
  forall attempts liters,
    spends_at_most todo
      (CarAgent.purchase_loop E car fuel price todo attempts liters).
Proof.
  induction todo as [|todo IH]; intros attempts liters.
  - apply spends_emit.
  - cbn [CarAgent.purchase_loop].
    unfold CarAgent.request_purchase_from_server, print.
    free_step. match goal with a : (_ * _)%type |- _ => destruct a end.
    destruct (negb _);
      [apply (spends_weaken 0); [lia | apply spends_emit]|].
    free_step. match goal with a : (_ * _)%type |- _ => destruct a end.
    do 5 free_step.
    apply (spends_bind 1 todo); [apply spends_call_spend|]. intros spend_res.
    destruct (CarAgent.has_error spend_res).
    + free_step.
      match goal with |- spends_at_most _ (if ?c then _ else _) => destruct c end.
      * do 2 free_step. apply IH.
      * apply (spends_weaken 0); [lia | apply spends_ret].
    + apply (spends_weaken 0); [lia | apply confirm_phase_spends].
Qed.

(** In every run at most three spends are attempted. *)
Lemma settlement_attempts_bounded E car fuel price liters :
  (n_spend (fst (run (CarAgent.main E car fuel price liters))) <= 3)%nat.
Proof.
  exact (purchase_loop_spends E car fuel price 3 0 liters start).
Qed.

Lemma headlines_in h l : In h (headlines l) -> In (Print h) l.
Proof.
  unfold headlines. rewrite in_flat_map. intros (e & He & Hh).
  destruct e; simpl in Hh; try contradiction.
  destruct Hh as [Hh|[]]. subst. exact He.
Qed.

(** The message that follows the loop, "All attempts exhausted" with the
    event [PAYMENT_ABORTED], is printed in no run, whatever the server and
    the chain do. *)
Lemma payment_aborted_unreachable E car fuel price liters :
  ~ In "PAYMENT_ABORTED"
      (headlines (log (fst (run (CarAgent.main E car fuel price liters))))).
Proof.
  intros H. apply headlines_in in H.
  assert (H1 : (1 <= CarAgent.max_attempts)%nat)
    by (unfold CarAgent.max_attempts; simpl; lia).
  destruct (purchase_loop_never_aborts E car fuel price
              CarAgent.max_attempts 0 liters H1 eq_refl start) as (l & El & Fl).
  unfold run, CarAgent.main in H. rewrite Nat.sub_0_r in H.
  rewrite El in H. simpl in H.
  rewrite Forall_forall in Fl. apply (Fl _ H). reflexivity.
Qed.

(** C1 on a vault that rejects every spend with "exceeds maxPerTx",
    starting from 40 liters: the quantities asked of the server are
    40, 20 and 10, three spends are attempted, and the third revert ends
    the run by the [return] that follows [PAYMENT_FAILED];
    [PAYMENT_ABORTED] is not reported. *)
Theorem third_revert_ends_in_payment_failed :
  let r := run (CarAgent.main env_exceeds car_id fuel_type
                  (float_lit (5 # 2)) (float_lit 40)) in
  snd r = Ok tt /\
  purchase_liters (log (fst r))
  = [JFloat (float_lit 40); JFloat (float_lit 20); JFloat (float_lit 10)] /\
  spends (log (fst r)) = [100000000; 50000000; 25000000]%Z /\
  headlines (log (fst r))
  = ["PAYMENT_FAILED"; "Retrying due to exceeds maxPerTx";
     "PAYMENT_FAILED"; "Retrying due to exceeds maxPerTx";
     "PAYMENT_FAILED"] /\
  ~ In "PAYMENT_ABORTED" (headlines (log (fst r))).
Proof.
  cbv zeta. repeat split; try (vm_compute; reflexivity).
  apply payment_aborted_unreachable.
Qed.

Close Scope string_scope.
End SettlementFacts.

(* ================================================================= *)
(** * Confirmation *)
(* ================================================================= *)

Module ConfirmationFacts.
Import Py World Spec Scenarios.
Open Scope string_scope.


Lemma after_requests_zero st l :
  {| n_http := n_http st; n_spend := n_spend st; log := (log st ++ l)%list |}
  = after_requests st 0 l.
Proof. unfold after_requests. rewrite Nat.add_0_r. reflexivity. Qed.

Lemma after_requests_one st l :
  {| n_http := S (n_http st); n_spend := n_spend st; log := (log st ++ l)%list |}
  = after_requests st 1 l.
Proof. unfold after_requests. rewrite Nat.add_1_r. reflexivity. Qed.












Close Scope string_scope.
End ConfirmationFacts.

(* ================================================================= *)
(** * Payment terms of the 402 answer *)
(* ================================================================= *)

Module SchemaFacts.
Import Py World Spec Scenarios.
Open Scope string_scope.

Lemma car_missing_fields pr ks :
  CarAgent.missing_fields (JDict pr) ks
  = Ok (filter (fun k => is_None (dict_get pr k)) ks).
Proof.
  induction ks as [|k ks IH]; [reflexivity|].
  cbn [CarAgent.missing_fields json_get bind filter]. rewrite IH. cbn [bind].
  destruct (is_None (dict_get pr k)); reflexivity.
Qed.

Lemma m2m_missing_fields pr ks :
  M2MClient.missing_fields (JDict pr) ks
  = Ok (filter (fun k => is_None (dict_get pr k)) ks).
Proof.
  induction ks as [|k ks IH]; [reflexivity|].
  cbn [M2MClient.missing_fields json_get bind filter]. rewrite IH. cbn [bind].
  destruct (is_None (dict_get pr k)); reflexivity.
Qed.

Lemma filter_missing pr ks k :
  In k ks -> dict_get pr k = JNull ->
  is_empty_list (filter (fun k => is_None (dict_get pr k)) ks) = false.
Proof.
  intros Hin Hk.
  assert (F : In k (filter (fun k => is_None (dict_get pr k)) ks)).
  { apply filter_In. split; [exact Hin|]. rewrite Hk. reflexivity. }
  destruct (filter _ ks); [contradiction | reflexivity].
Qed.

Lemma terms_of_pr body pr :
  terms_of body = Some pr ->
  (if truthy (dict_get body "payment_required")
   then dict_get body "payment_required" else JDict []) = JDict pr.
Proof.
  unfold terms_of.
  destruct (dict_get body "payment_required") as [|b|z|f|s|l|d] eqn:G;
    cbn [truthy]; try (intros H; inversion H; reflexivity).
  - destruct b; intros H; inversion H. reflexivity.
  - destruct (negb (z =? 0)%Z); intros H; inversion H. reflexivity.
  - destruct (negb (is_zero f)); intros H; inversion H. reflexivity.
  - destruct (negb (is_empty s)); intros H; inversion H. reflexivity.
  - destruct l; intros H; inversion H. reflexivity.
  - intros H; inversion H; subst. destruct pr; reflexivity.
Qed.

(** [extract_vault_payment_required] raises [SystemExit] on every schema
    failure. *)
Lemma car_extract_schema_failure body pr :
  terms_of body = Some pr -> car_schema_failure body pr ->
  exists msg,
    CarAgent.extract_vault_payment_required (JDict body)
    = Raise (Exn SystemExit msg).
Proof.
  intros T F. unfold CarAgent.extract_vault_payment_required.
  cbn [json_get bind]. rewrite (terms_of_pr _ _ T), car_missing_fields.
  cbn [json_get bind].
  set (missing := filter _ CarAgent.required_fields).
  destruct (negb (truthy (dict_get body "invoiceId"))
            || negb (is_empty_list missing)) eqn:C1;
    [eexists; reflexivity|].
  apply orb_false_iff in C1. destruct C1 as [C1 C2].
  apply negb_false_iff in C1, C2.
  destruct (negb (eq_str (dict_get pr "token") CarAgent.STABLECOIN)) eqn:C3;
    [eexists; reflexivity|].
  apply negb_false_iff in C3.
  destruct F as [F | [(k & Hin & Hk) | [F | (z & Hz & Nz)]]].
  - congruence.
  - unfold missing in C2. rewrite (filter_missing pr _ k Hin Hk) in C2. discriminate.
  - congruence.
  - rewrite Hz. cbn [bind].
    apply Z.eqb_neq in Nz. rewrite Nz. eexists. reflexivity.
Qed.

Lemma m2m_extract_schema_failure body pr :
  terms_of body = Some pr -> m2m_schema_failure body pr ->
  exists msg,
    M2MClient.extract_payment_required (JDict body)
    = Raise (Exn SystemExit msg).
Proof.
  intros T F. unfold M2MClient.extract_payment_required.
  cbn [json_get bind]. rewrite (terms_of_pr _ _ T).
  destruct (negb (truthy (dict_get body "invoiceId"))) eqn:C1;
    [eexists; reflexivity|].
  apply negb_false_iff in C1.
  rewrite m2m_missing_fields. cbn [bind].
  destruct F as [F | (k & Hin & Hk)]; [congruence|].
  rewrite (filter_missing pr _ k Hin Hk). eexists. reflexivity.
Qed.

(** C8 fails as stated: a 402 answer without invoice id makes
    [extract_vault_payment_required] raise [SystemExit], which leaves
    [main] as a raised exception; nothing is reported. *)
Lemma schema_failure_is_raised :
  let r := run (CarAgent.main env_no_invoice car_id fuel_type
                  (float_lit (5 # 2)) (float_lit 40)) in
  snd r = Raise (Exn SystemExit "Server 402 missing required fields") /\
  is_ok (snd r) = false /\
  headlines (log (fst r)) = [].
Proof. cbv zeta. repeat split; vm_compute; reflexivity. Qed.

(** C8, amended.  A 402 answer whose terms lack the invoice id or a
    required entry, name another token or another decimal count, ends
    [car_agent.py]'s run at once: [SystemExit] is raised out of [main]
    after the one purchase request, with no spend and no retry.  In
    [m2m_client.py] the same holds for a missing invoice id or a missing
    address or amount, and for any purchase status other than 402; the
    token and the decimal count are not examined there. *)
Theorem schema_failure_raises_system_exit E car fuel price liters body pr :
  terms_of body = Some pr ->
  (env_http E 0 "/fuel/purchase" (purchase_payload car fuel liters price)
   = Ok (402%Z, JDict body) ->
   car_schema_failure body pr ->
   exists msg,
     run (CarAgent.main E car fuel price liters)
     = (after_requests start 1
          [HttpPost "/fuel/purchase" (purchase_payload car fuel liters price)],
        Raise (Exn SystemExit msg))) /\
  (m2m_schema_failure body pr ->
   exists msg,
     run (M2MClient.main E 402 (JDict body))
     = (start, Raise (Exn SystemExit msg))) /\
  (forall status resp,
     status <> 402%Z ->
     run (M2MClient.main E status resp)
     = (start, Raise (Exn SystemExit "Expected HTTP 402 from server purchase"))) /\
  is_ok (M2MClient.extract_payment_required
           (JDict [("invoiceId", JStr "inv-1");
                   ("payment_required",
                    JDict [("vault_address", vault); ("owner_address", owner);
                           ("merchant_address", merchant);
                           ("amount_base_units", JStr "100000000");
                           ("token", JStr "DAI"); ("decimals", JInt 18)])]))
  = true.
Proof.
  intros T. split; [|split; [|split]].
  - intros R F.
    destruct (car_extract_schema_failure body pr T F) as (msg & X).
    exists msg.
    unfold run, CarAgent.main, CarAgent.max_attempts.
    cbn [Nat.sub Nat.add CarAgent.MAX_RETRIES_EXCEEDS_MAXPERTX
         CarAgent.purchase_loop].
    unfold CarAgent.request_purchase_from_server, iobind, http_post_json at 1.
    fold (purchase_payload car fuel liters price).
    cbn [start n_http]. rewrite R. cbn [negb Z.eqb Pos.eqb lift].
    rewrite X. reflexivity.
  - intros F.
    destruct (m2m_extract_schema_failure body pr T F) as (msg & X).
    exists msg. unfold run, M2MClient.main. cbn [negb Z.eqb Pos.eqb].
    unfold iobind, lift. rewrite X. reflexivity.
  - intros status resp N. unfold run, M2MClient.main.
    apply Z.eqb_neq in N. rewrite N. reflexivity.
  - reflexivity.
Qed.

(** The amended statement on an answer without invoice id. *)
Lemma schema_failure_raises_system_exit_witness :
  exists msg,
    run (CarAgent.main env_no_invoice car_id fuel_type
           (float_lit (5 # 2)) (float_lit 40))
    = (after_requests start 1
         [HttpPost "/fuel/purchase"
            (purchase_payload car_id fuel_type (float_lit 40) (float_lit (5 # 2)))],
       Raise (Exn SystemExit msg)).
Proof.
  apply (proj1 (schema_failure_raises_system_exit env_no_invoice car_id fuel_type
                  (float_lit (5 # 2)) (float_lit 40)
                  [("payment_required", terms 100000000)]
                  [("vault_address", vault); ("owner_address", owner);
                   ("merchant_address", merchant);
                   ("amount_base_units", JStr (str_of_int 100000000));
                   ("token", JStr "USDC"); ("decimals", JInt 6)]
                  eq_refl)).
  - reflexivity.
  - left. reflexivity.
Defined.

Close Scope string_scope.
End SchemaFacts.

(* ================================================================= *)
(** * Device discovery *)
(* ================================================================= *)

Module GeoFacts.
Import Py World Spec Scenarios FloatFacts.
Open Scope Q_scope.

Section Nearest.

(** The C library is arbitrary. *)
Variables math_radians math_sin math_cos math_asin math_sqrt float_square
  : pyfloat -> result pyfloat.

Let dist : json -> json -> result pyfloat :=
  M2MClient.device_distance math_radians math_sin math_cos math_asin
    math_sqrt float_square.

Let scan : json -> list json -> json -> pyfloat -> result (json * pyfloat) :=
  M2MClient.nearest_scan math_radians math_sin math_cos math_asin
    math_sqrt float_square.

Let pick : list json -> json -> result (json * Z) :=
  M2MClient.pick_nearest_device math_radians math_sin math_cos math_asin
    math_sqrt float_square.

Lemma scan_cons loc d rest best b q :
  dist loc d = Ok (Finite q) ->
  scan loc (d :: rest) best (Finite b)
  = if flt (Finite q) (Finite b) then scan loc rest d (Finite q)
    else scan loc rest best (Finite b).
Proof.
  intros H. unfold scan. cbn [M2MClient.nearest_scan].
  fold dist. rewrite H. reflexivity.
Qed.

(** The scan either keeps what it started with, no device being nearer,
    or ends on the first device at the least distance. *)
Lemma scan_first_minimum loc devices :
  forall best b,
    (forall d, In d devices -> exists q, dist loc d = Ok (Finite q)) ->
    (scan loc devices best (Finite b) = Ok (best, Finite b) /\
     forall j d q, nth_error devices j = Some d ->
                   dist loc d = Ok (Finite q) -> b <= q)
    \/
    (exists i d q,
       nth_error devices i = Some d /\ dist loc d = Ok (Finite q) /\
       scan loc devices best (Finite b) = Ok (d, Finite q) /\ q < b /\
       forall j d' q', nth_error devices j = Some d' ->
                       dist loc d' = Ok (Finite q') ->
                       q <= q' /\ ((j < i)%nat -> q < q')).
Proof.
  induction devices as [|d rest IH]; intros best b Hfin.
  - left. split; [reflexivity|]. intros [|j] ? ? H; discriminate.
  - destruct (Hfin d (or_introl eq_refl)) as (qd & Hd).
    assert (Hrest : forall d, In d rest -> exists q, dist loc d = Ok (Finite q))
      by (intros; apply Hfin; right; assumption).
    rewrite (scan_cons _ _ _ _ _ _ Hd).
    destruct (flt (Finite qd) (Finite b)) eqn:C.
    + apply flt_finite in C.
      destruct (IH d qd Hrest) as [[Hs A] | (i & d2 & q2 & N & D & Hs & L & A)].
      * right. exists 0%nat, d, qd. repeat split; auto.
        -- destruct j as [|j]; simpl in H.
           ++ inversion H; subst. rewrite Hd in H0. inversion H0. lra.
           ++ apply (A j d' q'); assumption.
        -- intros; lia.
      * right. exists (S i), d2, q2. repeat split; auto; try lra.
        -- destruct j as [|j]; simpl in H.
           ++ inversion H; subst. rewrite Hd in H0. inversion H0; subst. lra.
           ++ apply (A j d' q'); assumption.
        -- destruct j as [|j]; simpl in H; intros Hj.
           ++ inversion H; subst. rewrite Hd in H0. inversion H0; subst. lra.
           ++ apply (A j d' q'); try assumption. lia.
    + assert (Hge : b <= qd).
      { apply Qnot_lt_le. intros X. apply flt_finite in X. congruence. }
      destruct (IH best b Hrest) as [[Hs A] | (i & d2 & q2 & N & D & Hs & L & A)].
      * left. split; [exact Hs|].
        intros [|j] d' q' H H0; simpl in H.
        -- inversion H; subst. rewrite Hd in H0. inversion H0; subst. exact Hge.
        -- apply (A j d' q'); assumption.
      * right. exists (S i), d2, q2. repeat split; auto.
        -- destruct j as [|j]; simpl in H.
           ++ inversion H; subst. rewrite Hd in H0. inversion H0; subst. lra.
           ++ apply (A j d' q'); assumption.
        -- destruct j as [|j]; simpl in H; intros Hj.
           ++ inversion H; subst. rewrite Hd in H0. inversion H0; subst. lra.
           ++ apply (A j d' q'); try assumption. lia.
Qed.

(** If [asin] stays within its range (at most 2, say), every finite
    distance [haversine_m] returns is below the [10**18] the scan starts
    from: it is at most [2 * 6371000 * 2]. *)
Lemma haversine_below_initial lat1 lon1 lat2 lon2 q :
  (forall x y, math_asin x = Ok y -> fle y (Finite 2) = true) ->
  M2MClient.haversine_m math_radians math_sin math_cos math_asin math_sqrt
    float_square lat1 lon1 lat2 lon2 = Ok (Finite q) ->
  q < inject_Z (10 ^ 18).
Proof.
  intros Hasin H. unfold M2MClient.haversine_m in H.
  repeat match type of H with
         | context [bind ?r _] =>
             let R := fresh "R" in
             destruct r eqn:R; cbn [bind] in H; [|discriminate H]
         end.
  match goal with
  | R : float_of_int _ = Ok ?t |- _ => vm_compute in R; inversion R; subst t
  end.
  match goal with
  | R : math_asin _ = Ok ?y |- _ => pose proof (Hasin _ _ R) as Hy
  end.
  inversion H as [Hq]. clear H.
  match type of Hy with fle ?y _ = true => destruct y as [angle| | |] end;
    try discriminate.
  apply fle_finite in Hy.
  cbn [fmul] in Hq.
  assert (M : fle (rn (12742000 * angle)) (rn 25484000) = true)
    by (apply rn_mono; lra).
  rewrite Hq in M.
  assert (E : rn 25484000 = Finite 25484000) by (vm_compute; reflexivity).
  rewrite E in M. apply fle_finite in M.
  change (inject_Z (10 ^ 18)) with 1000000000000000000. lra.
Qed.


(** C7, amended.  On an empty list [pick_nearest_device] does not fail:
    it returns [None] for the device and the initial [10**18] for the
    distance. *)
Theorem pick_nearest_empty client_loc :
  pick [] client_loc = Ok (JNull, (10 ^ 18)%Z).
Proof. reflexivity. Qed.

End Nearest.

(** Over the reals the distance is at most half the circumference of the
    Earth, far below the [10**18] the scan starts from. *)
Lemma haversine_R_below_initial lat1 lon1 lat2 lon2 :
  (haversine_R lat1 lon1 lat2 lon2 <= PI * 6371000 /\
   haversine_R lat1 lon1 lat2 lon2 < 10 ^ 18)%R.
Proof.
  unfold haversine_R. cbv zeta.
  match goal with |- context [asin (sqrt ?x)] => set (a := x) end.
  pose proof (asin_bound (sqrt a)) as [_ U].
  pose proof PI_4 as P4. pose proof PI_RGT_0 as P0.
  split; [Lra.nra|].
  assert ((10 ^ 18 = 1000000000000000000)%R) by (simpl; Lra.lra).
  Lra.nra.
Qed.

(** C7 fails as stated: with no candidate the selection returns a value
    and raises nothing. *)
Lemma pick_nearest_empty_returns :
  approx_pick [] client_location = Ok (JNull, 1000000000000000000%Z) /\
  is_ok (approx_pick [] client_location) = true.
Proof. split; reflexivity. Qed.


Close Scope Q_scope.
End GeoFacts.

(* ================================================================= *)
(** * Facts about the order of floats *)
(* ================================================================= *)

Module OrderFacts.
Import Py FloatFacts AmountFacts.
Open Scope Q_scope.

Lemma fle_reflexive a : not_nan a = true -> fle a a = true.
Proof.
  destruct a as [q| | |]; try reflexivity; try discriminate.
  intros _. apply fle_refl_finite.
Qed.

Lemma flt_fle_trans a b c : flt a b = true -> fle b c = true -> flt a c = true.
Proof.
  destruct a as [x| | |], b as [y| | |], c as [z| | |];
    try discriminate; try reflexivity.
  rewrite !flt_finite, fle_finite. apply Qlt_le_trans.
Qed.

Lemma fle_transitive a b c : fle a b = true -> fle b c = true -> fle a c = true.
Proof.
  destruct a as [x| | |], b as [y| | |], c as [z| | |];
    try discriminate; try reflexivity.
  rewrite !fle_finite. apply Qle_trans.
Qed.

Lemma py_min_mono a b m :
  fle a b = true -> fle (py_min a m) (py_min b m) = true.
Proof.
  intros L. destruct (fle_not_nan _ _ L) as [Na Nb]. unfold py_min.
  destruct (flt m a) eqn:A, (flt m b) eqn:B.
  - apply fle_reflexive. apply flt_fle in A. apply (fle_not_nan _ _ A).
  - rewrite (flt_fle_trans _ _ _ A L) in B. discriminate.
  - apply fle_total; auto. apply flt_fle in B. apply (fle_not_nan _ _ B).
  - exact L.
Qed.

Lemma py_min_below a m : not_nan a = true -> fle (py_min a m) a = true.
Proof.
  intros Na. unfold py_min. destruct (flt m a) eqn:A.
  - apply flt_fle. exact A.
  - apply fle_reflexive. exact Na.
Qed.

Lemma py_max_mono c a b :
  not_nan c = true -> fle a b = true ->
  fle (py_max c a) (py_max c b) = true.
Proof.
  intros Nc L. unfold py_max, fgt.
  destruct (flt c a) eqn:A, (flt c b) eqn:B.
  - exact L.
  - rewrite (flt_fle_trans _ _ _ A L) in B. discriminate.
  - apply flt_fle. exact B.
  - apply fle_reflexive. exact Nc.
Qed.

Close Scope Q_scope.
End OrderFacts.

(* ================================================================= *)
(** * Transaction hashes *)
(* ================================================================= *)

Module TxHashFacts.
Import Py World Spec Scenarios.
Open Scope string_scope.

Lemma rstrip_idempotent s : rstrip (rstrip s) = rstrip s.
Proof.
  induction s as [|c s IH]; [reflexivity|].
  cbn [rstrip].
  destruct (is_space c && is_empty (rstrip s)) eqn:C; [reflexivity|].
  cbn [rstrip]. rewrite IH, C. reflexivity.
Qed.

(** What [lstrip] leaves starts with a character that is not white
    space. *)
Lemma lstrip_head s :
  match lstrip s with
  | EmptyString => True
  | String c _ => is_space c = false
  end.
Proof.
  induction s as [|c s IH]; [exact I|].
  cbn [lstrip]. destruct (is_space c) eqn:C; [exact IH | exact C].
Qed.

Lemma rstrip_head c s :
  is_space c = false -> rstrip (String c s) = String c (rstrip s).
Proof. intros C. cbn [rstrip]. rewrite C. reflexivity. Qed.

Lemma lstrip_strip s : lstrip (strip s) = strip s.
Proof.
  unfold strip. pose proof (lstrip_head s) as H.
  destruct (lstrip s) as [|c t]; [reflexivity|].
  rewrite (rstrip_head _ _ H). cbn [lstrip]. rewrite H. reflexivity.
Qed.

Lemma strip_idempotent s : strip (strip s) = strip s.
Proof.
  unfold strip at 1. rewrite lstrip_strip.
  unfold strip. apply rstrip_idempotent.
Qed.

Lemma strip_0x s : strip ("0x" ++ strip s) = "0x" ++ strip s.
Proof.
  unfold strip at 1. cbn [append lstrip].
  change (is_space "0") with false. cbv iota.
  rewrite !rstrip_head by reflexivity.
  unfold strip. rewrite rstrip_idempotent. reflexivity.
Qed.

Lemma normalize_txhash_shape h :
  startswith (M2MClient.normalize_txhash h) "0x" = true /\
  strip (M2MClient.normalize_txhash h) = M2MClient.normalize_txhash h.
Proof.
  unfold M2MClient.normalize_txhash.
  destruct (startswith (strip h) "0x") eqn:P; cbn [negb].
  - rewrite strip_idempotent. auto.
  - rewrite strip_0x. split; reflexivity.
Qed.

(** X1.  [normalize_txhash] always yields a hash that starts with [0x] and has
    no white space around it, and applying it twice changes nothing
    more. *)
Theorem normalize_txhash_prefixed_idempotent (h : string) :
  startswith (M2MClient.normalize_txhash h) "0x" = true /\
  strip (M2MClient.normalize_txhash h) = M2MClient.normalize_txhash h /\
  M2MClient.normalize_txhash (M2MClient.normalize_txhash h)
  = M2MClient.normalize_txhash h.
Proof.
  unfold M2MClient.normalize_txhash.
  destruct (startswith (strip h) "0x") eqn:P; cbn [negb].
  - rewrite strip_idempotent, P. cbn [negb]. auto.
  - rewrite strip_0x.
    assert (Q : startswith ("0x" ++ strip h) "0x" = true) by reflexivity.
    rewrite Q. cbn [negb]. auto.
Qed.

Close Scope string_scope.
End TxHashFacts.

(* ================================================================= *)
(** * The outcomes of the spend functions *)
(* ================================================================= *)

Module SpendOutcomeFacts.
Import Py World Spec Scenarios Runs SpendFacts.
Open Scope string_scope.

Ltac typed t := eexists t, _; cbn; intuition.

Lemma car_submit_outcome w3 tx r :
  CarAgent.submit_transaction w3 tx = Ok r ->
  (exists h, CarAgent.tx_hash r = Some h /\ CarAgent.error r = None /\
             startswith h "0x" = true) \/
  (CarAgent.tx_hash r = None /\
   exists d, CarAgent.error r = Some d /\ typed_error d).
Proof.
  unfold CarAgent.submit_transaction. step_binds; try discriminate.
  destruct (negb _); intros H; inversion H; subst; cbn.
  - right. split; [reflexivity|]. eexists. split; [reflexivity|].
    typed "TX_FAILED".
  - left. eexists. split; [reflexivity|]. split; [reflexivity|].
    destruct (startswith a0 "0x") eqn:P; cbn [negb]; [exact P | reflexivity].
Qed.

Lemma car_spend_try_factors w3 acct v o m a :
  CarAgent.spend_try w3 acct v o m a
  = bind (CarAgent.transaction_to_sign w3 acct v o m a)
         (CarAgent.submit_transaction w3).
Proof.
  unfold CarAgent.spend_try, CarAgent.transaction_to_sign,
    CarAgent.submit_transaction.
  step_binds; reflexivity.
Qed.

(** X2.  Whenever [send_vault_spend_tx_safe] returns, its result is either a
    transaction hash that starts with [0x], with no error, or no hash and
    an error dict whose ["type"] is one of [INSUFFICIENT_GAS],
    [TX_FAILED], [CONTRACT_REVERT] and [TX_ERROR] and whose ["message"]
    is a string. *)
Theorem car_spend_returns_hash_or_typed_error w3 v o m a r :
  CarAgent.send_vault_spend_tx_safe w3 v o m a = Ok r ->
  (exists h, CarAgent.tx_hash r = Some h /\ CarAgent.error r = None /\
             startswith h "0x" = true) \/
  (CarAgent.tx_hash r = None /\
   exists d, CarAgent.error r = Some d /\ typed_error d).
Proof.
  unfold CarAgent.send_vault_spend_tx_safe.
  destruct (account_from_key w3) as [acct|x]; cbn [bind]; [|discriminate].
  destruct (get_balance w3 acct) as [bal|x]; cbn [bind]; [|discriminate].
  destruct (bal =? 0)%Z.
  { intros H; inversion H; subst; cbn. right. split; [reflexivity|].
    eexists. split; [reflexivity|]. typed "INSUFFICIENT_GAS". }
  rewrite car_spend_try_factors.
  destruct (CarAgent.transaction_to_sign w3 acct v o m a) as [tx|e] eqn:T;
    cbn [bind].
  - destruct (CarAgent.submit_transaction w3 tx) as [r'|e] eqn:S.
    + intros H; inversion H; subst. exact (car_submit_outcome _ _ _ S).
    + destruct (is_ContractLogicError (exn_cls e));
        [|destruct (is_Exception (exn_cls e)); [|discriminate]];
        intros H; inversion H; subst; cbn; right; (split; [reflexivity|]);
        eexists; (split; [reflexivity|]).
      * typed "CONTRACT_REVERT".
      * typed "TX_ERROR".
  - destruct (is_ContractLogicError (exn_cls e));
      [|destruct (is_Exception (exn_cls e)); [|discriminate]];
      intros H; inversion H; subst; cbn; right; (split; [reflexivity|]);
      eexists; (split; [reflexivity|]).
    + typed "CONTRACT_REVERT".
    + typed "TX_ERROR".
Qed.

Lemma car_spend_returns_hash_or_typed_error_witness :
  let r := {| CarAgent.tx_hash := None;
              CarAgent.error :=
                Some [("type", JStr "CONTRACT_REVERT");
                      ("reason", JStr "exceeds maxPerTx");
                      ("message",
                       JStr "Vault spend() reverted. Likely policy/limits/whitelist.");
                      ("vault_address", vault);
                      ("owner_address", owner);
                      ("merchant_address", merchant);
                      ("amount_base_units", JStr "100000000")] |} in
  (exists h, CarAgent.tx_hash r = Some h /\ CarAgent.error r = None /\
             startswith h "0x" = true) \/
  (CarAgent.tx_hash r = None /\
   exists d, CarAgent.error r = Some d /\ typed_error d).
Proof.
  cbv zeta.
  apply (car_spend_returns_hash_or_typed_error
           (w3_reverting "execution reverted: exceeds maxPerTx")
           vault owner merchant 100000000).
  vm_compute. reflexivity.
Defined.

Lemma m2m_spend_try_outcome w3 acct v o m a h e :
  M2MClient.spend_try w3 acct v o m a = Ok (h, e) ->
  (exists x, h = Some x /\ e = None /\ startswith x "0x" = true /\ strip x = x) \/
  (h = None /\ exists d, e = Some d /\ typed_error d).
Proof.
  unfold M2MClient.spend_try. step_binds; try discriminate.
  destruct (negb _); intros H; inversion H; subst; cbn.
  - right. split; [reflexivity|]. eexists. split; [reflexivity|].
    typed "TX_FAILED".
  - left. eexists. split; [reflexivity|]. split; [reflexivity|].
    split; apply TxHashFacts.normalize_txhash_shape.
Qed.

(** X3.  Whenever [send_vault_spend_tx] of [m2m_client.py] returns, its
    result is either a transaction hash with no error, or no hash and an
    error dict whose ["type"] is one of [INSUFFICIENT_GAS], [TX_FAILED],
    [CONTRACT_REVERT] and [TX_ERROR] and whose ["message"] is a string.
    The hash has been through [normalize_txhash]: it starts with [0x] and
    has no white space around it. *)
Theorem m2m_spend_returns_hash_or_typed_error w3 v o m a h e :
  M2MClient.send_vault_spend_tx w3 v o m a = Ok (h, e) ->
  (exists x, h = Some x /\ e = None /\ startswith x "0x" = true /\ strip x = x) \/
  (h = None /\ exists d, e = Some d /\ typed_error d).
Proof.
  unfold M2MClient.send_vault_spend_tx.
  destruct (account_from_key w3) as [acct|x]; cbn [bind]; [|discriminate].
  destruct (get_balance w3 acct) as [bal|x]; cbn [bind]; [|discriminate].
  destruct (bal =? 0)%Z.
  { intros H; inversion H; subst; cbn. right. split; [reflexivity|].
    eexists. split; [reflexivity|]. typed "INSUFFICIENT_GAS". }
  destruct (M2MClient.spend_try w3 acct v o m a) as [[h' e']|x] eqn:T.
  - intros H; inversion H; subst. exact (m2m_spend_try_outcome _ _ _ _ _ _ _ _ T).
  - destruct (is_ContractLogicError (exn_cls x)).
    + destruct (revert_reason_total (exn_str x)) as (reason & Er).
      rewrite Er. cbn [bind].
      intros H; inversion H; subst. right. split; [reflexivity|].
      eexists. split; [reflexivity|]. typed "CONTRACT_REVERT".
    + destruct (is_Exception (exn_cls x)); [|discriminate].
      intros H; inversion H; subst. right. split; [reflexivity|].
      eexists. split; [reflexivity|]. typed "TX_ERROR".
Qed.

Lemma m2m_spend_returns_hash_or_typed_error_witness :
  (exists x, Some "0x9a3c" = Some x /\ @None dict = None /\
             startswith x "0x" = true /\ strip x = x) \/
  (Some "0x9a3c" = None /\ exists d, @None dict = Some d /\ typed_error d).
Proof.
  apply (m2m_spend_returns_hash_or_typed_error w3_ok vault owner merchant
           100000000 (Some "0x9a3c") None).
  vm_compute. reflexivity.
Defined.

Ltac raised :=
  repeat match goal with
         | H : ?a = _, H' : ?a = _ |- _ => rewrite H in H'
         | H : Ok _ = Ok _ |- _ => inversion H; subst; clear H
         | H : Raise _ = Raise _ |- _ => inversion H; subst; clear H
         | H : Ok _ = Raise _ |- _ => discriminate H
         | H : Raise _ = Ok _ |- _ => discriminate H
         end;
  first [reflexivity | congruence].

(** X4.  Both spend functions raise exactly what the account lookup or the
    balance lookup raises, and what the [try] block raises that is not
    an [Exception]. *)
Theorem spend_raises_exactly_outside_try w3 v o m a e :
  (CarAgent.send_vault_spend_tx_safe w3 v o m a = Raise e <->
   account_from_key w3 = Raise e \/
   (exists acct, account_from_key w3 = Ok acct /\
                 get_balance w3 acct = Raise e) \/
   (exists acct bal, account_from_key w3 = Ok acct /\
                     get_balance w3 acct = Ok bal /\ bal <> 0%Z /\
                     CarAgent.spend_try w3 acct v o m a = Raise e /\
                     is_Exception (exn_cls e) = false)) /\
  (M2MClient.send_vault_spend_tx w3 v o m a = Raise e <->
   account_from_key w3 = Raise e \/
   (exists acct, account_from_key w3 = Ok acct /\
                 get_balance w3 acct = Raise e) \/
   (exists acct bal, account_from_key w3 = Ok acct /\
                     get_balance w3 acct = Ok bal /\ bal <> 0%Z /\
                     M2MClient.spend_try w3 acct v o m a = Raise e /\
                     is_Exception (exn_cls e) = false)).
Proof.
  split.
  - unfold CarAgent.send_vault_spend_tx_safe.
    destruct (account_from_key w3) as [acct|x] eqn:A; cbn [bind].
    2:{ split; [intros H; inversion H; subst; left; reflexivity|].
        intros [H|[(c & H & _)|(c & b & H & _)]]; congruence. }
    destruct (get_balance w3 acct) as [bal|x] eqn:B; cbn [bind].
    2:{ split; [intros H; inversion H; subst; right; left; exists acct; auto|].
        intros [H|[(c & H & H')|(c & b & H & H' & _)]]; congruence. }
    destruct (bal =? 0)%Z eqn:Z0.
    { apply Z.eqb_eq in Z0. split; [discriminate|].
      intros [H|[(c & H & H')|(c & b & H & H' & N & _)]]; congruence. }
    apply Z.eqb_neq in Z0.
    destruct (CarAgent.spend_try w3 acct v o m a) as [r|x] eqn:T.
    { split; [discriminate|].
      intros [H|[(c & H & H')|(c & b & H & H' & N & T' & _)]]; congruence. }
    destruct (is_ContractLogicError (exn_cls x)) eqn:C.
    { split; [discriminate|].
      intros [H|[(c & H & H')|(c & b & H & H' & N & T' & X)]]; try congruence.
      assert (c = acct) by congruence. subst.
      rewrite T in T'. inversion T'; subst.
      destruct (exn_cls e); discriminate. }
    destruct (is_Exception (exn_cls x)) eqn:X.
    { split; [discriminate|].
      intros [H|[(c & H & H')|(c & b & H & H' & N & T' & X')]]; congruence. }
    split.
    + intros H; inversion H; subst. right. right. exists acct, bal. auto.
    + intros [H|[(c & H & H')|(c & b & H & H' & N & T' & X')]]; congruence.
  - unfold M2MClient.send_vault_spend_tx.
    destruct (account_from_key w3) as [acct|x] eqn:A; cbn [bind].
    2:{ split; [intros H; inversion H; subst; left; reflexivity|].
        intros [H|[(c & H & _)|(c & b & H & _)]]; first [congruence | raised]. }
    destruct (get_balance w3 acct) as [bal|x] eqn:B; cbn [bind].
    2:{ split; [intros H; inversion H; subst; right; left; exists acct; auto|].
        intros [H|[(c & H & H')|(c & b & H & H' & _)]]; first [congruence | raised]. }
    destruct (bal =? 0)%Z eqn:Z0.
    { apply Z.eqb_eq in Z0. split; [discriminate|].
      intros [H|[(c & H & H')|(c & b & H & H' & N & _)]]; first [congruence | raised]. }
    apply Z.eqb_neq in Z0.
    destruct (M2MClient.spend_try w3 acct v o m a) as [r|x] eqn:T.
    { split; [discriminate|].
      intros [H|[(c & H & H')|(c & b & H & H' & N & T' & _)]]; first [congruence | raised]. }
    destruct (is_ContractLogicError (exn_cls x)) eqn:C.
    { destruct (revert_reason_total (exn_str x)) as (reason & Er).
      rewrite Er. cbn [bind].
      split; [discriminate|].
      intros [H|[(c & H & H')|(c & b & H & H' & N & T' & X)]]; try congruence.
      assert (c = acct) by congruence. subst.
      rewrite T in T'. inversion T'; subst.
      destruct (exn_cls e); discriminate. }
    destruct (is_Exception (exn_cls x)) eqn:X.
    { split; [discriminate|].
      intros [H|[(c & H & H')|(c & b & H & H' & N & T' & X')]]; first [congruence | raised]. }
    split.
    + intros H; inversion H; subst. right. right. exists acct, bal. auto.
    + intros [H|[(c & H & H')|(c & b & H & H' & N & T' & X')]]; first [congruence | raised].
Qed.

Close Scope string_scope.
End SpendOutcomeFacts.

(* ================================================================= *)
(** * The transaction that is signed *)
(* ================================================================= *)

Module TransactionFacts.
Import Py World Spec Scenarios FloatFacts AmountFacts SpendFacts.
Open Scope string_scope.





Open Scope Q_scope.




Close Scope Q_scope.



Close Scope string_scope.
End TransactionFacts.

(* ================================================================= *)
(** * The terms that the extraction returns *)
(* ================================================================= *)

Module TermsFacts.
Import Py World Spec Scenarios SchemaFacts.
Open Scope string_scope.

(** A value that is truthy and answers [get] is a dict. *)
Lemma terms_dict (pr0 : json) ks l :
  CarAgent.missing_fields (if truthy pr0 then pr0 else JDict []) ks = Ok l ->
  ks <> [] -> is_empty_list l = true ->
  exists d, pr0 = JDict d /\ truthy pr0 = true.
Proof.
  intros M K L.
  destruct ks as [|k ks]; [contradiction|].
  destruct (truthy pr0) eqn:T.
  - destruct pr0; try (cbn in M; discriminate). eauto.
  - rewrite car_missing_fields in M. inversion M; subst.
    cbn in L. discriminate.
Qed.

Lemma present_fields d ks :
  is_empty_list (filter (fun k => is_None (dict_get d k)) ks) = true ->
  forall k, In k ks -> exists v, json_item (JDict d) k = Ok v /\ v <> JNull.
Proof.
  intros L k Hin.
  assert (N : is_None (dict_get d k) = false).
  { destruct (is_None (dict_get d k)) eqn:E; [|reflexivity].
    assert (F : In k (filter (fun k => is_None (dict_get d k)) ks))
      by (apply filter_In; auto).
    destruct (filter _ ks); [contradiction | discriminate]. }
  unfold dict_get in N. cbn [json_item]. unfold dict_item.
  destruct (dict_lookup d k) as [v|]; [|discriminate].
  exists v. split; [reflexivity|]. intros ->. discriminate.
Qed.

(** X6.  Whenever [extract_vault_payment_required] returns, it returns the
    invoice id and the terms of the answer as they are; the invoice id is
    truthy, every required entry of the terms is present and not [None]
    (so that the lookups [pr[...]] of [main] cannot fail), the token is
    USDC and the decimal count is 6. *)
Theorem car_extract_returns_checked_terms resp invoice_id pr :
  CarAgent.extract_vault_payment_required resp = Ok (invoice_id, pr) ->
  json_get resp "invoiceId" = Ok invoice_id /\
  json_get resp "payment_required" = Ok pr /\
  truthy invoice_id = true /\
  (forall k, In k CarAgent.required_fields ->
     exists v, json_item pr k = Ok v /\ v <> JNull) /\
  json_get pr "token" = Ok (JStr "USDC") /\
  (exists decimals, json_get pr "decimals" = Ok decimals /\
                    py_int decimals = Ok 6%Z).
Proof.
  unfold CarAgent.extract_vault_payment_required.
  destruct (json_get resp "invoiceId") as [inv|] eqn:I; cbn [bind];
    [|discriminate].
  destruct (json_get resp "payment_required") as [pr0|] eqn:P; cbn [bind];
    [|discriminate].
  destruct (CarAgent.missing_fields _ CarAgent.required_fields)
    as [missing|] eqn:M; cbn [bind]; [|discriminate].
  destruct (negb (truthy inv) || negb (is_empty_list missing)) eqn:C;
    [discriminate|].
  apply orb_false_iff in C. destruct C as [C1 C2].
  apply negb_false_iff in C1, C2.
  destruct (terms_dict pr0 _ _ M ltac:(discriminate) C2) as (d & -> & T).
  rewrite T in *. rewrite car_missing_fields in M.
  injection M as <-.
  cbn [json_get bind].
  match goal with
  | |- context [if negb ?c then _ else _] => destruct c eqn:C3
  end; cbn [negb]; [|discriminate].
  destruct (py_int (dict_get d "decimals")) as [z|] eqn:D; cbn [bind];
    [|discriminate].
  match goal with
  | |- context [if negb ?c then _ else _] => destruct c eqn:C4
  end; cbn [negb]; [|discriminate].
  apply Z.eqb_eq in C4. subst z.
  intros H; inversion H; subst.
  repeat split; try reflexivity; try assumption.
  - apply (present_fields d CarAgent.required_fields). exact C2.
  - revert C3. cbn [json_get].
    destruct (dict_get d "token"); cbn [eq_str]; try discriminate.
    intros C3. apply String.eqb_eq in C3. subst. reflexivity.
  - eexists. split; [reflexivity | exact D].
Qed.

Lemma car_extract_returns_checked_terms_witness :
  json_get (quote 100000000) "invoiceId" = Ok (JStr "inv-1") /\
  json_get (quote 100000000) "payment_required" = Ok (terms 100000000) /\
  truthy (JStr "inv-1") = true /\
  (forall k, In k CarAgent.required_fields ->
     exists v, json_item (terms 100000000) k = Ok v /\ v <> JNull) /\
  json_get (terms 100000000) "token" = Ok (JStr "USDC") /\
  (exists decimals, json_get (terms 100000000) "decimals" = Ok decimals /\
                    py_int decimals = Ok 6%Z).
Proof.
  apply (car_extract_returns_checked_terms (quote 100000000)).
  vm_compute. reflexivity.
Defined.

(** X7.  Whenever [extract_payment_required] of [m2m_client.py] returns, it
    returns the invoice id and the terms of the answer as they are; the
    invoice id is truthy and the three addresses and the amount are
    present and not [None], so that the lookups [pr[...]] of [main]
    cannot fail.  The token and the decimal count are not examined. *)
Theorem m2m_extract_returns_checked_terms resp invoice_id pr :
  M2MClient.extract_payment_required resp = Ok (invoice_id, pr) ->
  json_get resp "invoiceId" = Ok invoice_id /\
  json_get resp "payment_required" = Ok pr /\
  truthy invoice_id = true /\
  (forall k, In k M2MClient.required_fields ->
     exists v, json_item pr k = Ok v /\ v <> JNull).
Proof.
  unfold M2MClient.extract_payment_required.
  destruct (json_get resp "invoiceId") as [inv|] eqn:I; cbn [bind];
    [|discriminate].
  destruct (json_get resp "payment_required") as [pr0|] eqn:P; cbn [bind];
    [|discriminate].
  destruct (negb (truthy inv)) eqn:C1; [discriminate|].
  apply negb_false_iff in C1.
  destruct (M2MClient.missing_fields _ M2MClient.required_fields)
    as [missing|] eqn:M; cbn [bind]; [|discriminate].
  destruct (negb (is_empty_list missing)) eqn:C2; [discriminate|].
  apply negb_false_iff in C2.
  assert (D : exists d, pr0 = JDict d /\ truthy pr0 = true).
  { destruct (truthy pr0) eqn:T.
    - destruct pr0; try (cbn in M; discriminate). eauto.
    - rewrite m2m_missing_fields in M. inversion M; subst.
      cbn in C2. discriminate. }
  destruct D as (d & -> & T). rewrite T in *.
  rewrite m2m_missing_fields in M. injection M as <-.
  intros H; inversion H; subst.
  repeat split; try reflexivity; try assumption.
  apply (present_fields d M2MClient.required_fields). exact C2.
Qed.

Lemma m2m_extract_returns_checked_terms_witness :
  json_get (quote 100000000) "invoiceId" = Ok (JStr "inv-1") /\
  json_get (quote 100000000) "payment_required" = Ok (terms 100000000) /\
  truthy (JStr "inv-1") = true /\
  (forall k, In k M2MClient.required_fields ->
     exists v, json_item (terms 100000000) k = Ok v /\ v <> JNull).
Proof.
  apply (m2m_extract_returns_checked_terms (quote 100000000)).
  vm_compute. reflexivity.
Defined.

Close Scope string_scope.
End TermsFacts.

(* ================================================================= *)
(** * Device discovery in [main] *)
(* ================================================================= *)

Module DiscoveryFacts.
Import Py World Spec Scenarios FloatFacts.
Open Scope Q_scope.

Section Candidates.

Variables math_radians math_sin math_cos math_asin math_sqrt float_square
  : pyfloat -> result pyfloat.

Let dist : json -> json -> result pyfloat :=
  M2MClient.device_distance math_radians math_sin math_cos math_asin
    math_sqrt float_square.

Let scan : json -> list json -> json -> pyfloat -> result (json * pyfloat) :=
  M2MClient.nearest_scan math_radians math_sin math_cos math_asin
    math_sqrt float_square.

Let pick : list json -> json -> result (json * Z) :=
  M2MClient.pick_nearest_device math_radians math_sin math_cos math_asin
    math_sqrt float_square.

(** A device whose distance does not compare below the best so far is
    passed over. *)
Lemma scan_passes_over loc devices best b :
  (forall d, In d devices -> exists x, dist loc d = Ok x /\ flt x b = false) ->
  scan loc devices best b = Ok (best, b).
Proof.
  induction devices as [|d rest IH]; intros H; [reflexivity|].
  destruct (H d (or_introl eq_refl)) as (x & Hx & C).
  unfold scan. cbn [M2MClient.nearest_scan]. fold dist. rewrite Hx.
  cbn [bind]. rewrite C. apply IH.
  intros d' Hd'. apply H. right. exact Hd'.
Qed.

(** The first device whose distance cannot be computed ends the scan
    with its exception, whatever was found before it. *)
Lemma scan_raises loc pre d post e :
  forall best b,
    (forall p, In p pre -> exists x, dist loc p = Ok x) ->
    dist loc d = Raise e ->
    scan loc (pre ++ d :: post) best b = Raise e.
Proof.
  induction pre as [|p pre IH]; intros best b Hpre Hd.
  - unfold scan. cbn [app M2MClient.nearest_scan]. fold dist.
    rewrite Hd. reflexivity.
  - destruct (Hpre p (or_introl eq_refl)) as (x & Hx).
    unfold scan. cbn [app M2MClient.nearest_scan]. fold dist.
    rewrite Hx. cbn [bind].
    destruct (flt x b); apply IH; auto;
      intros p' Hp'; apply Hpre; right; exact Hp'.
Qed.

(** X8.  When no candidate is at a distance that compares below [10**18] (the
    list is empty, or every distance is NaN, infinite or huge),
    [pick_nearest_device] returns [None] with the distance [10**18]: a
    non-empty list does not guarantee a device. *)
Theorem pick_nearest_none_in_range devices client_loc :
  (forall d, In d devices ->
     exists x, dist client_loc d = Ok x /\
               flt x (Finite (inject_Z (10 ^ 18))) = false) ->
  pick devices client_loc = Ok (JNull, (10 ^ 18)%Z).
Proof.
  intros H. unfold pick, M2MClient.pick_nearest_device. fold scan.
  rewrite (scan_passes_over _ _ _ _ H). reflexivity.
Qed.

(** X9.  One device without usable coordinates makes the whole selection
    raise, even when valid and nearer devices come before it in the
    list. *)
Theorem pick_nearest_raises_on_bad_device pre d post client_loc e :
  (forall p, In p pre -> exists x, dist client_loc p = Ok x) ->
  dist client_loc d = Raise e ->
  pick (pre ++ d :: post) client_loc = Raise e.
Proof.
  intros Hpre Hd. unfold pick, M2MClient.pick_nearest_device. fold scan.
  rewrite (scan_raises _ _ _ _ _ _ _ Hpre Hd). reflexivity.
Qed.

(** X10.  If [asin] stays within its range (at most 2, say), every finite
    distance that [haversine_m] returns is at most [2 * 6371000 * 2]
    meters, and so compares below the [10**18] from which the selection
    starts. *)
Theorem haversine_within_bound lat1 lon1 lat2 lon2 q :
  (forall x y, math_asin x = Ok y -> fle y (Finite 2) = true) ->
  M2MClient.haversine_m math_radians math_sin math_cos math_asin math_sqrt
    float_square lat1 lon1 lat2 lon2 = Ok (Finite q) ->
  q <= 25484000 /\
  flt (Finite q) (Finite (inject_Z (10 ^ 18))) = true.
Proof.
  intros Hasin H. unfold M2MClient.haversine_m in H.
  repeat match type of H with
         | context [bind ?r _] =>
             let R := fresh "R" in
             destruct r eqn:R; cbn [bind] in H; [|discriminate H]
         end.
  match goal with
  | R : float_of_int _ = Ok ?t |- _ => vm_compute in R; inversion R; subst t
  end.
  match goal with
  | R : math_asin _ = Ok ?y |- _ => pose proof (Hasin _ _ R) as Hy
  end.
  inversion H as [Hq]. clear H.
  match type of Hy with fle ?y _ = true => destruct y as [angle| | |] end;
    try discriminate.
  apply fle_finite in Hy. cbn [fmul] in Hq.
  assert (M : fle (rn (12742000 * angle)) (rn 25484000) = true)
    by (apply rn_mono; lra).
  rewrite Hq in M.
  assert (E : rn 25484000 = Finite 25484000) by (vm_compute; reflexivity).
  rewrite E in M. apply fle_finite in M.
  split; [exact M|]. rewrite Hq. apply flt_finite.
  change (inject_Z (10 ^ 18)) with 1000000000000000000. lra.
Qed.

End Candidates.

Open Scope string_scope.

Lemma haversine_within_bound_witness :
  exists q,
    M2MClient.haversine_m approx_radians approx_sin approx_cos checked_asin
      approx_sqrt approx_square
      (JFloat (rn (-235505 # 10000))) (JFloat (rn (-466333 # 10000)))
      (JFloat (rn (-2356 # 100))) (JFloat (rn (-4665 # 100)))
    = Ok (Finite q) /\
    q <= 25484000 /\
    flt (Finite q) (Finite (inject_Z (10 ^ 18))) = true.
Proof.
  eexists. split; [vm_compute; reflexivity|].
  apply (haversine_within_bound approx_radians approx_sin approx_cos
           checked_asin approx_sqrt approx_square
           (JFloat (rn (-235505 # 10000))) (JFloat (rn (-466333 # 10000)))
           (JFloat (rn (-2356 # 100))) (JFloat (rn (-4665 # 100)))).
  - intros x y. unfold checked_asin.
    destruct (fle x (Finite 1)) eqn:C; [|discriminate].
    intros H. inversion H; subst.
    apply (OrderFacts.fle_transitive _ _ _ C). reflexivity.
  - vm_compute. reflexivity.
Defined.

Lemma pick_nearest_none_in_range_witness :
  approx_pick [JDict [("device_id", JStr "gs-009");
                      ("location", JDict [("lat", JFloat NaN);
                                          ("lon", JFloat NaN)])]]
    client_location
  = Ok (JNull, (10 ^ 18)%Z).
Proof.
  unfold approx_pick.
  apply (pick_nearest_none_in_range approx_radians approx_sin approx_cos
           approx_asin approx_sqrt approx_square
           [JDict [("device_id", JStr "gs-009");
                   ("location", JDict [("lat", JFloat NaN);
                                       ("lon", JFloat NaN)])]]
           client_location).
  intros d [<- | []]. exists NaN. split; vm_compute; reflexivity.
Defined.

Lemma pick_nearest_raises_on_bad_device_witness :
  approx_pick (stations ++ [JDict [("device_id", JStr "gs-004")]])
    client_location
  = Raise (Exn KeyError "location").
Proof.
  apply (pick_nearest_raises_on_bad_device approx_radians approx_sin
           approx_cos approx_asin approx_sqrt approx_square
           stations (JDict [("device_id", JStr "gs-004")]) []).
  - intros p [<- | [<- | [<- | []]]]; eexists; vm_compute; reflexivity.
  - reflexivity.
Defined.

Section Flow.

Variables math_radians math_sin math_cos math_asin math_sqrt float_square
  : pyfloat -> result pyfloat.
Variable float_of_str : string -> result pyfloat.
Variable load_devices : result json.
Variable request_builder : string -> result json.
Variable negotiator : json -> json -> result json.

Let dist : json -> json -> result pyfloat :=
  M2MClient.device_distance math_radians math_sin math_cos math_asin
    math_sqrt float_square.

Let discovery : json -> json -> string -> result json :=
  M2MClient.discovery math_radians math_sin math_cos math_asin math_sqrt
    float_square.

Let main_from_argv : list string -> env -> io unit :=
  M2MClient.main_from_argv math_radians math_sin math_cos math_asin
    math_sqrt float_square float_of_str load_devices request_builder
    negotiator.

(** X11.  With no candidate in range, [main] fails at [device["device_id"]]
    with a [TypeError], [device] being [None]: the run ends there, before
    any request to the server and before any spend. *)
Theorem main_fails_without_device argv arg E db ui candidates loc devices :
  nth_error argv 1 = Some arg ->
  M2MClient.is_business_case (strip arg) = true ->
  load_devices = Ok db ->
  request_builder (strip arg) = Ok ui ->
  json_item db (strip arg) = Ok candidates ->
  json_item ui "location" = Ok loc ->
  M2MClient.iterate candidates = Ok devices ->
  (forall d, In d devices ->
     exists x, dist loc d = Ok x /\
               flt x (Finite (inject_Z (10 ^ 18))) = false) ->
  exists msg,
    run (main_from_argv argv E)
    = ({| n_http := 0; n_spend := 0;
          log := [Print "USER_SELECTED_SERVICE"] |},
       Raise (Exn TypeError msg)).
Proof.
  intros A B L U C P I H.
  destruct argv as [|a0 [|a1 rest]]; try discriminate.
  cbn [nth_error] in A. inversion A; subst a1.
  unfold run, main_from_argv, M2MClient.main_from_argv.
  cbn [List.length Nat.ltb Nat.leb list_item nth_error].
  unfold iobind at 1. cbn [lift]. rewrite B. cbn [negb].
  unfold iobind at 1. cbn [lift]. rewrite L.
  unfold iobind at 1. cbn [lift]. rewrite U.
  unfold iobind at 1, print at 1, emit at 1. cbn [start log n_http n_spend app].
  unfold iobind at 1. cbn [lift].
  unfold M2MClient.discovery. rewrite C, P. cbn [bind]. rewrite I. cbn [bind].
  rewrite (pick_nearest_none_in_range _ _ _ _ _ _ _ _ H).
  cbn [bind json_item]. eexists. reflexivity.
Qed.

(** X12.  When every candidate of the business case is at a finite distance
    below [10**18] and has an id and a type, the discovery step of [main]
    builds the [DEVICE_SELECTED] event for the nearest candidate, the
    first one at the least distance, with its id, type and location and
    the distance truncated to an integer; the name is the candidate's own
    or, when it has no ["name"] entry, its id. *)
Theorem discovery_selects_nearest db ui business_case candidates loc devices :
  json_item db business_case = Ok candidates ->
  json_item ui "location" = Ok loc ->
  M2MClient.iterate candidates = Ok devices ->
  devices <> [] ->
  (forall d, In d devices ->
     exists q id type,
       dist loc d = Ok (Finite q) /\ q < inject_Z (10 ^ 18) /\
       json_item d "device_id" = Ok id /\ json_item d "type" = Ok type) ->
  exists i best q id type name location,
    nth_error devices i = Some best /\
    dist loc best = Ok (Finite q) /\
    (forall j d' q',
       nth_error devices j = Some d' -> dist loc d' = Ok (Finite q') ->
       q <= q' /\ ((j < i)%nat -> q < q')) /\
    json_item best "device_id" = Ok id /\
    json_item best "type" = Ok type /\
    json_item best "location" = Ok location /\
    M2MClient.json_get_default best "name" id = Ok name /\
    discovery db ui business_case
    = Ok (JDict [("event", JStr "DEVICE_SELECTED");
                 ("business_case", JStr business_case);
                 ("device", JDict [("device_id", id); ("type", type);
                                   ("name", name); ("location", location)]);
                 ("distance_meters",
                  JInt (Z.quot (Qnum q) (Zpos (Qden q))))]).
Proof.
  intros C P I Hne Hall.
  assert (Hfin : forall d, In d devices -> exists q, dist loc d = Ok (Finite q)).
  { intros d Hd. destruct (Hall d Hd) as (q & _ & _ & Hq & _). eauto. }
  destruct (GeoFacts.scan_first_minimum math_radians math_sin math_cos
              math_asin math_sqrt float_square loc devices JNull
              (inject_Z (10 ^ 18)) Hfin)
    as [[_ A] | (i & best & q & N & D & Hs & Lt & A)].
  { destruct devices as [|d rest]; [contradiction|].
    destruct (Hall d (or_introl eq_refl)) as (q & ? & ? & Hq & Hlt & _).
    specialize (A 0%nat d q eq_refl Hq). lra. }
  destruct (Hall best (nth_error_In _ _ N)) as (q0 & id & type & _ & _ & Hid & Hty).
  assert (Hloc : exists d location,
             best = JDict d /\ json_item best "location" = Ok location).
  { fold dist in D. unfold dist, M2MClient.device_distance in D.
    destruct (json_item loc "lat"); cbn [bind] in D; [|discriminate].
    destruct (json_item loc "lon"); cbn [bind] in D; [|discriminate].
    destruct (json_item best "location") as [location|] eqn:Lo;
      cbn [bind] in D; [|discriminate].
    destruct best; try discriminate. eauto. }
  destruct Hloc as (d & location & -> & Hloc).
  exists i, (JDict d), q, id, type,
    (match dict_lookup d "name" with Some v => v | None => id end), location.
  repeat split; auto.
  - apply (A j d' q'); assumption.
  - apply (A j d' q'); assumption.
  - unfold discovery, M2MClient.discovery. rewrite C, P. cbn [bind].
    rewrite I. cbn [bind]. unfold M2MClient.pick_nearest_device.
    rewrite Hs. cbn [bind int_of_float]. rewrite Hid, Hty. cbn [bind].
    cbn [M2MClient.json_get_default bind]. rewrite Hloc. reflexivity.
Qed.

End Flow.

Lemma main_fails_without_device_witness :
  exists msg,
    run (M2MClient.main_from_argv approx_radians approx_sin approx_cos
           approx_asin approx_sqrt approx_square
           (fun _ => raise ValueError "could not convert string to float")
           (Ok (JDict [("gas_station", JList stations); ("laundry", JList [])]))
           (fun _ => Ok (JDict [("location", client_location)]))
           (fun _ _ => Ok (JDict []))
           ["m2m_client.py"; " laundry "] env_ok)
    = ({| n_http := 0; n_spend := 0;
          log := [Print "USER_SELECTED_SERVICE"] |},
       Raise (Exn TypeError msg)).
Proof.
  apply (main_fails_without_device approx_radians approx_sin approx_cos
           approx_asin approx_sqrt approx_square _ _ _ _
           ["m2m_client.py"; " laundry "] " laundry " env_ok
           (JDict [("gas_station", JList stations); ("laundry", JList [])])
           (JDict [("location", client_location)])
           (JList []) client_location []);
    try reflexivity.
  intros d [].
Defined.

Lemma discovery_selects_nearest_witness :
  exists i best q id type name location,
    nth_error stations i = Some best /\
    approx_distance client_location best = Ok (Finite q) /\
    (forall j d' q',
       nth_error stations j = Some d' ->
       approx_distance client_location d' = Ok (Finite q') ->
       q <= q' /\ ((j < i)%nat -> q < q')) /\
    json_item best "device_id" = Ok id /\
    json_item best "type" = Ok type /\
    json_item best "location" = Ok location /\
    M2MClient.json_get_default best "name" id = Ok name /\
    M2MClient.discovery approx_radians approx_sin approx_cos approx_asin
      approx_sqrt approx_square
      (JDict [("gas_station", JList stations)])
      (JDict [("location", client_location)]) "gas_station"
    = Ok (JDict [("event", JStr "DEVICE_SELECTED");
                 ("business_case", JStr "gas_station");
                 ("device", JDict [("device_id", id); ("type", type);
                                   ("name", name); ("location", location)]);
                 ("distance_meters",
                  JInt (Z.quot (Qnum q) (Zpos (Qden q))))]).
Proof.
  apply (discovery_selects_nearest approx_radians approx_sin approx_cos
           approx_asin approx_sqrt approx_square
           (JDict [("gas_station", JList stations)])
           (JDict [("location", client_location)]) "gas_station"
           (JList stations) client_location stations);
    try reflexivity.
  - discriminate.
  - intros d [H | [H | [H | []]]]; subst d;
      (eexists; eexists; eexists;
       split; [vm_compute; reflexivity|];
       split; [vm_compute; reflexivity|];
       split; reflexivity).
Defined.

Close Scope string_scope.
Close Scope Q_scope.
End DiscoveryFacts.

(* ================================================================= *)
(** * Amounts and the cap on liters, continued *)
(* ================================================================= *)

Module PlannerFacts.
Import Py World CarAgent Spec Scenarios FloatFacts AmountFacts OrderFacts.
Open Scope Q_scope.

Lemma pow2_m30 : pow2 (-30) == 1 # 1073741824.
Proof. reflexivity. Qed.

(** X13.  On every amount of the vault's [uint256] range
    [from_usdc_base_units] returns a finite, non-negative float, within a
    relative error of [3 * 2^-53] of the exact [amount / 10^6]. *)
Theorem from_usdc_base_units_accurate (n : Z) :
  (0 <= n < 2 ^ 256)%Z ->
  exists q,
    from_usdc_base_units n = Ok (Finite q) /\
    0 <= q /\
    (inject_Z n / 1000000) * (1 - (3 # 9007199254740992)) <= q /\
    q <= (inject_Z n / 1000000) * (1 + (3 # 9007199254740992)).
Proof.
  intros Hn. unfold from_usdc_base_units. rewrite float_of_scale.
  destruct (Z.eq_dec n 0) as [->|NZ].
  { exists 0. split; [vm_compute; reflexivity|].
    repeat split; apply Qle_bool_iff; reflexivity. }
  assert (N1 : 1 <= inject_Z n).
  { change 1 with (inject_Z 1). rewrite <- Zle_Qle. lia. }
  assert (N2 : inject_Z n <= pow2 256).
  { rewrite (pow2_Z 256) by lia. rewrite <- Zle_Qle. lia. }
  assert (P1 : pow2 (-1022) <= pow2 (-30)) by (apply pow2_le; lia).
  assert (P2 : pow2 257 <= pow2 1000) by (apply pow2_le; lia).
  rewrite pow2_m30 in P1. rewrite (pow2_succ 256) in P2.
  pose proof (rn_normal (inject_Z n)) as R1.
  pose proof (fun a => rn_normal (a / 1000000)) as R2.
  set (lo := pow2 (-1022)) in *. set (hi := pow2 1000) in *.
  set (top := pow2 256) in *. clearbody lo hi top. clear Hn NZ.
  destruct R1 as (a & Ra & La & Ua); [clear R2; lra..|].
  unfold float_of_int. rewrite Ra. cbn [bind].
  rewrite fdiv_finite by (intros X; discriminate X).
  assert (D1 : a / 1000000 == a * (1 # 1000000)) by field.
  assert (D2 : inject_Z n / 1000000 == inject_Z n * (1 # 1000000)) by field.
  destruct (R2 a) as (q & Rq & Lq & Uq); [clear R2; lra..|].
  exists q. rewrite Rq. split; [reflexivity|]. clear R2.
  split; [lra|]. split; lra.
Qed.

Lemma from_usdc_base_units_accurate_witness :
  exists q,
    from_usdc_base_units 50000000 = Ok (Finite q) /\
    0 <= q /\
    (inject_Z 50000000 / 1000000) * (1 - (3 # 9007199254740992)) <= q /\
    q <= (inject_Z 50000000 / 1000000) * (1 + (3 # 9007199254740992)).
Proof. apply (from_usdc_base_units_accurate 50000000). lia. Defined.

(** X14.  [to_usdc_base_units] keeps the order of amounts: a larger amount
    never converts to fewer base units. *)
Theorem to_usdc_base_units_monotone x y a b :
  fle x y = true ->
  to_usdc_base_units x = Ok a ->
  to_usdc_base_units y = Ok b ->
  (a <= b)%Z.
Proof.
  unfold to_usdc_base_units. rewrite float_of_scale. cbn [bind].
  intros L A B.
  destruct x as [p| | |], y as [q| | |]; try discriminate.
  apply fle_finite in L. cbn [fmul] in A, B.
  assert (M : fle (rn (p * 1000000)) (rn (q * 1000000)) = true)
    by (apply rn_mono; lra).
  destruct (rn (p * 1000000)) as [u| | |]; try discriminate.
  destruct (rn (q * 1000000)) as [v| | |]; try discriminate.
  apply fle_finite in M. cbn [py_round] in A, B.
  inversion A; inversion B; subst.
  apply round_half_even_mono. exact M.
Qed.

Lemma to_usdc_base_units_monotone_witness :
  to_usdc_base_units (float_lit (1999 # 100)) = Ok 19990000%Z /\
  to_usdc_base_units (float_lit 20) = Ok 20000000%Z /\
  (19990000 <= 20000000)%Z.
Proof.
  split; [vm_compute; reflexivity|]. split; [vm_compute; reflexivity|].
  apply (to_usdc_base_units_monotone (float_lit (1999 # 100)) (float_lit 20));
    vm_compute; reflexivity.
Defined.

(** ** The cap on liters *)

(** X15.  Asking for more liters never yields fewer: the cap is monotone in
    the requested quantity, for every price and ceiling. *)
Theorem cap_liters_monotone liters1 liters2 price max_per_tx capped1 capped2 :
  fle liters1 liters2 = true ->
  cap_liters_to_fit_max_per_tx liters1 price max_per_tx = Ok capped1 ->
  cap_liters_to_fit_max_per_tx liters2 price max_per_tx = Ok capped2 ->
  fle capped1 capped2 = true.
Proof.
  intros L. unfold cap_liters_to_fit_max_per_tx.
  destruct (fle price (Finite 0)).
  - intros H1 H2. inversion H1; inversion H2; subst.
    apply py_max_mono; [reflexivity | exact L].
  - destruct (from_usdc_base_units max_per_tx) as [t|]; cbn [bind];
      [|discriminate].
    destruct (fdiv t price) as [max_liters|]; cbn [bind]; [|discriminate].
    destruct (py_round2 (py_min liters1 max_liters)) as [r1|] eqn:R1;
      cbn [bind]; [|discriminate].
    destruct (py_round2 (py_min liters2 max_liters)) as [r2|] eqn:R2;
      cbn [bind]; [|discriminate].
    intros H1 H2. inversion H1; inversion H2; subst.
    apply py_max_mono; [reflexivity|].
    apply (py_round2_mono _ _ _ _ (py_min_mono _ _ max_liters L) R1 R2).
Qed.

Lemma cap_liters_monotone_witness :
  cap_liters_to_fit_max_per_tx (float_lit 15) (float_lit (5 # 2)) 50000000
  = Ok (float_lit 15) /\
  cap_liters_to_fit_max_per_tx (float_lit 40) (float_lit (5 # 2)) 50000000
  = Ok (float_lit 20) /\
  fle (float_lit 15) (float_lit 20) = true.
Proof.
  split; [vm_compute; reflexivity|]. split; [vm_compute; reflexivity|].
  apply (cap_liters_monotone (float_lit 15) (float_lit 40) (float_lit (5 # 2))
           50000000 (float_lit 15) (float_lit 20));
    vm_compute; reflexivity.
Defined.

(** X16.  For a positive price the cap never returns more than the request
    rounded to two decimals, the floor of one liter apart. *)
Theorem cap_liters_below_request liters price max_per_tx capped :
  is_f64 liters -> not_nan liters = true ->
  fle price (Finite 0) = false ->
  cap_liters_to_fit_max_per_tx liters price max_per_tx = Ok capped ->
  exists rounded,
    py_round2 liters = Ok rounded /\
    fle capped (py_max (Finite 1) rounded) = true.
Proof.
  intros F N P. unfold cap_liters_to_fit_max_per_tx. rewrite P.
  destruct (from_usdc_base_units max_per_tx) as [t|]; cbn [bind];
    [|discriminate].
  destruct (fdiv t price) as [max_liters|]; cbn [bind]; [|discriminate].
  destruct (py_round2 (py_min liters max_liters)) as [r|] eqn:R;
    cbn [bind]; [|discriminate].
  intros H. inversion H; subst.
  destruct (py_round2_total liters F) as (rounded & Rl).
  exists rounded. split; [exact Rl|].
  apply py_max_mono; [reflexivity|].
  apply (py_round2_mono _ _ _ _ (py_min_below liters max_liters N) R Rl).
Qed.

Lemma cap_liters_below_request_witness :
  exists rounded,
    py_round2 (float_lit (1234 # 1000)) = Ok rounded /\
    fle (float_lit (123 # 100)) (py_max (Finite 1) rounded) = true.
Proof.
  apply (cap_liters_below_request (float_lit (1234 # 1000))
           (float_lit (5 # 2)) 50000000 (float_lit (123 # 100))).
  - apply rn_is_f64.
  - reflexivity.
  - reflexivity.
  - vm_compute. reflexivity.
Defined.

(** ** Capping twice *)

Lemma flt_not_fle a b : flt a b = true -> fle b a = false.
Proof.
  destruct a as [x| | |], b as [y| | |]; try discriminate; try reflexivity.
  rewrite flt_finite. intros H.
  destruct (fle (Finite y) (Finite x)) eqn:C; [|reflexivity].
  apply fle_finite in C. lra.
Qed.

Lemma fle_not_flt a b : fle a b = true -> flt b a = false.
Proof.
  intros H. destruct (flt b a) eqn:C; [|reflexivity].
  apply flt_not_fle in C. congruence.
Qed.

Lemma py_round2_of_finite x u :
  py_round2 x = Ok (Finite u) ->
  exists q, x = Finite q /\ rn (two_decimals q) = Finite u.
Proof.
  destruct x as [q| | |]; cbn [py_round2]; try (intros H; discriminate H).
  destruct (rn (two_decimals q)) eqn:R; intros H; inversion H; subst. eauto.
Qed.

Lemma py_round2_from_rn q u :
  rn (two_decimals q) = Finite u -> py_round2 (Finite q) = Ok (Finite u).
Proof. intros R. cbn [py_round2]. rewrite R. reflexivity. Qed.

Lemma pow2_45 : pow2 45 == 35184372088832.
Proof. reflexivity. Qed.

(** A float that is the rounding of a decimal with two places, positive
    and at most [2^45], rounds to two places as that decimal. *)
Lemma two_decimals_of_rounded q y :
  q <= 35184372088832 ->
  rn (two_decimals q) = Finite y -> 0 < y ->
  two_decimals y == two_decimals q.
Proof.
  intros Hq R Hy.
  set (k := round_half_even (q * 100)).
  assert (T : two_decimals q == inject_Z k * (1 # 100)).
  { unfold two_decimals. fold k. field. }
  assert (K1 : (k <= 3518437208883200)%Z).
  { rewrite <- (round_half_even_Z 3518437208883200).
    apply round_half_even_mono.
    change (inject_Z 3518437208883200) with 3518437208883200. lra. }
  assert (K0 : (1 <= k)%Z).
  { destruct (Z_lt_le_dec k 1) as [L|L]; [|exact L]. exfalso.
    assert (N : two_decimals q <= 0).
    { rewrite T. assert (inject_Z k <= 0)
        by (change 0 with (inject_Z 0); rewrite <- Zle_Qle; lia).
      lra. }
    pose proof (rn_mono _ _ N) as M. rewrite R in M.
    rewrite (rn_zero 0) in M by reflexivity.
    apply fle_finite in M. lra. }
  assert (Q1 : 1 <= inject_Z k).
  { change 1 with (inject_Z 1). rewrite <- Zle_Qle. exact K0. }
  assert (Q2 : inject_Z k <= 3518437208883200).
  { change 3518437208883200 with (inject_Z 3518437208883200).
    rewrite <- Zle_Qle. exact K1. }
  assert (P1 : pow2 (-1022) <= pow2 (-30)) by (apply pow2_le; lia).
  assert (P2 : pow2 60 <= pow2 1000) by (apply pow2_le; lia).
  rewrite pow2_m30 in P1. rewrite pow2_60 in P2.
  pose proof (rn_normal (two_decimals q)) as N.
  set (lo := pow2 (-1022)) in *. set (hi := pow2 1000) in *.
  clearbody lo hi. clear K0 K1 Hq.
  destruct N as (y' & R' & Lo & Hi); [lra | lra |].
  rewrite R in R'. inversion R'; subst y'. clear R'.
  unfold two_decimals at 1.
  assert (E : round_half_even (y * 100) = k).
  { apply round_half_even_near; lra. }
  rewrite E. rewrite T. field.
Qed.

Lemma py_round2_idempotent q y :
  q <= 35184372088832 ->
  py_round2 (Finite q) = Ok (Finite y) -> 1 < y ->
  py_round2 (Finite y) = Ok (Finite y).
Proof.
  intros Hq R Hy.
  destruct (py_round2_of_finite _ _ R) as (q' & E & Rn). inversion E; subst q'.
  apply py_round2_from_rn. rewrite <- Rn. apply rn_ext.
  apply (two_decimals_of_rounded q y Hq Rn). lra.
Qed.

(** The cap applied to its own result, under one positive price and one
    ceiling. *)
Lemma cap_of_cap liters ml x :
  fle liters (Finite 35184372088832) = true ->
  is_f64 ml -> not_nan ml = true ->
  py_round2 (py_min liters ml) = Ok x ->
  exists y,
    py_round2 (py_min (py_max (Finite 1) x) ml) = Ok y /\
    py_max (Finite 1) y = py_max (Finite 1) x.
Proof.
  intros L Fml Nml R.
  destruct (fle_not_nan _ _ L) as [Nl _].
  pose proof (py_min_below liters ml Nl) as Mb.
  assert (Mm : fle (py_min liters ml) ml = true).
  { unfold py_min. destruct (flt ml liters) eqn:G.
    - apply fle_reflexive. exact Nml.
    - apply fle_total; assumption. }
  assert (E : py_max (Finite 1) x = if flt (Finite 1) x then x else Finite 1)
    by reflexivity.
  rewrite E. clear E. destruct (flt (Finite 1) x) eqn:G.
  - (* the first result is above the floor *)
    pose proof (fle_transitive _ _ _ Mb L) as M45.
    destruct (py_min liters ml) as [q| | |] eqn:Em; try discriminate M45.
    2:{ cbn [py_round2] in R. inversion R; subst. discriminate G. }
    apply fle_finite in M45.
    destruct x as [u| | |]; try discriminate G.
    2:{ cbn [py_round2] in R. destruct (rn (two_decimals q)); discriminate R. }
    assert (Above : py_max (Finite 1) (Finite u) = Finite u)
      by (unfold py_max, fgt; rewrite G; reflexivity).
    apply flt_finite in G.
    destruct (py_round2_of_finite _ _ R) as (q' & E & Rn).
    inversion E; subst q'. clear E.
    pose proof (two_decimals_of_rounded q u M45 Rn ltac:(lra)) as T.
    unfold py_min at 1. destruct (flt ml (Finite u)) eqn:B.
    + destruct ml as [p| | |]; try discriminate B.
      2:{ discriminate Mm. }
      apply flt_finite in B. apply fle_finite in Mm.
      exists (Finite u). split.
      * apply py_round2_from_rn. rewrite <- Rn. apply rn_ext.
        pose proof (two_decimals_mono q p Mm) as T1.
        pose proof (two_decimals_mono p u ltac:(lra)) as T2.
        lra.
      * exact Above.
    + exists (Finite u). split.
      * apply py_round2_from_rn. rewrite <- Rn. apply rn_ext. exact T.
      * exact Above.
  - (* the first result is the floor *)
    unfold py_min at 1. destruct (flt ml (Finite 1)) eqn:B.
    + destruct (py_round2_total ml Fml) as (r & Er).
      exists r. split; [exact Er|].
      pose proof (py_round2_mono _ _ _ _ (flt_fle _ _ B) Er py_round2_one) as H1.
      unfold py_max, fgt. rewrite (fle_not_flt _ _ H1). reflexivity.
    + exists (Finite 1). split; [exact py_round2_one | reflexivity].
Qed.

(** X27.  Capping is idempotent: for a request of at most [2^45] liters, a
    positive price and a ceiling of the vault's range, the cap applied to
    its own result returns that result. *)
Theorem cap_liters_idempotent liters price max_per_tx capped :
  fle liters (Finite 35184372088832) = true ->
  flt (Finite 0) price = true ->
  (0 <= max_per_tx < 2 ^ 256)%Z ->
  cap_liters_to_fit_max_per_tx liters price max_per_tx = Ok capped ->
  cap_liters_to_fit_max_per_tx capped price max_per_tx = Ok capped.
Proof.
  intros L P C.
  destruct (max_liters_defined price max_per_tx P C) as (ml & Eml & Fml & Nml).
  unfold cap_liters_to_fit_max_per_tx. rewrite (flt_not_fle _ _ P).
  unfold bind in Eml |- *.
  destruct (from_usdc_base_units max_per_tx) as [t|e]; [|discriminate].
  rewrite Eml.
  destruct (py_round2 (py_min liters ml)) as [x|] eqn:R; [|discriminate].
  intros H. inversion H; subst capped. clear H.
  destruct (cap_of_cap liters ml x L Fml Nml R) as (y & Ry & Ey).
  rewrite Ry, Ey. reflexivity.
Qed.

Lemma cap_liters_idempotent_witness :
  cap_liters_to_fit_max_per_tx (float_lit (123 # 100)) (float_lit (5 # 2))
    50000000 = Ok (float_lit (123 # 100)).
Proof.
  apply (cap_liters_idempotent (float_lit (1234 # 1000)) (float_lit (5 # 2))
           50000000 (float_lit (123 # 100))).
  - reflexivity.
  - reflexivity.
  - lia.
  - vm_compute. reflexivity.
Defined.

Close Scope Q_scope.
End PlannerFacts.

(* ================================================================= *)
(** * The log of a run of [car_agent.py] *)
(* ================================================================= *)

Module TraceFacts.
Import Py World Spec Scenarios Runs.
Open Scope string_scope.

(** ** One step of a computation *)

Lemma step_lift_ok {A B} (a : A) (k : A -> io B) st :
  iobind (lift (Ok a)) k st = k a st.
Proof. reflexivity. Qed.

Lemma step_lift_raise {A B} e (k : A -> io B) st :
  iobind (lift (Raise e)) k st = (st, Raise e).
Proof. reflexivity. Qed.

Lemma step_print {B} h (k : unit -> io B) st :
  iobind (print h) k st
  = k tt {| n_http := n_http st; n_spend := n_spend st;
            log := log st ++ [Print h] |}.
Proof. reflexivity. Qed.

Lemma step_http {B} E url payload (k : Z * json -> io B) st :
  iobind (http_post_json E url payload) k st
  = let st' := {| n_http := S (n_http st); n_spend := n_spend st;
                  log := log st ++ [HttpPost url payload] |} in
    match env_http E (n_http st) url payload with
    | Ok r => k r st'
    | Raise e => (st', Raise e)
    end.
Proof. reflexivity. Qed.

Lemma step_spend {A B} E (f : web3 -> json -> json -> json -> Z -> result A)
  v o m a (k : A -> io B) st :
  iobind (call_spend E f v o m a) k st
  = let st' := {| n_http := n_http st; n_spend := S (n_spend st);
                  log := log st ++ [Spend v o m a] |} in
    match f (env_web3 E (n_spend st)) v o m a with
    | Ok r => k r st'
    | Raise e => (st', Raise e)
    end.
Proof. reflexivity. Qed.

Lemma eq_str_true j s : eq_str j s = true -> j = JStr s.
Proof.
  destruct j; try discriminate. cbn [eq_str]. intros H.
  apply String.eqb_eq in H. subst. reflexivity.
Qed.

Lemma quiet_nil : quiet [].
Proof. repeat split. Qed.

Lemma quiet_print h : quiet [Print h].
Proof. repeat split. Qed.

(** A spend result without error carries a hash and nothing else. *)
Lemma car_spend_success w3 v o m a r :
  CarAgent.send_vault_spend_tx_safe w3 v o m a = Ok r ->
  CarAgent.has_error r = false ->
  exists h, r = {| CarAgent.tx_hash := Some h; CarAgent.error := None |}.
Proof.
  intros H E.
  destruct (SpendFacts.car_spend_discriminated _ _ _ _ _ _ H) as [[N1 N2]|[N1 N2]].
  - destruct r as [[h|] e]; cbn in *; [|contradiction]. subst. eauto.
  - destruct r as [t e]. unfold CarAgent.has_error in E. cbn in *.
    unfold M2MClient.has_error in N2. rewrite N2 in E. discriminate.
Qed.

Ltac ends_with l :=
  exists l; unfold print, emit; cbn [fst log n_http n_spend];
  rewrite <- ?List.app_assoc; split; [reflexivity|].

Create HintDb runs.
#[local] Hint Resolve quiet_nil quiet_print : runs.

(** The log of the loop of [car_agent.py] has the shape [settlement]. *)
Lemma purchase_loop_settlement E car fuel price todo :
  forall attempts liters st,
    (1 <= todo)%nat ->
    (attempts + todo = CarAgent.max_attempts)%nat ->
    exists seg,
      log (fst (CarAgent.purchase_loop E car fuel price todo attempts liters st))
      = (log st ++ seg)%list /\
      settlement E car fuel price (n_http st) (n_spend st) liters seg.
Proof.
  induction todo as [|todo IH]; intros attempts liters st Hpos Hsum; [lia|].
  cbn [CarAgent.purchase_loop]. unfold CarAgent.request_purchase_from_server.
  fold (purchase_payload car fuel liters price).
  set (payload := purchase_payload car fuel liters price).
  rewrite step_http. cbv zeta.
  destruct (env_http E (n_http st) "/fuel/purchase" payload)
    as [[status resp]|e] eqn:R.
  2:{ ends_with [HttpPost "/fuel/purchase" payload]. constructor; auto with runs. }
  destruct (negb (status =? 402)%Z) eqn:S402.
  { ends_with [HttpPost "/fuel/purchase" payload; Print "SERVER_ERROR"].
    constructor; auto with runs. }
  apply negb_false_iff, Z.eqb_eq in S402. subst status.
  destruct (CarAgent.extract_vault_payment_required resp) as [[inv pr]|e] eqn:X.
  2:{ rewrite step_lift_raise.
      ends_with [HttpPost "/fuel/purchase" payload]. constructor; auto with runs. }
  rewrite step_lift_ok.
  destruct (json_item pr "vault_address") as [v|e] eqn:V.
  2:{ rewrite step_lift_raise.
      ends_with [HttpPost "/fuel/purchase" payload]. constructor; auto with runs. }
  rewrite step_lift_ok.
  destruct (json_item pr "owner_address") as [o|e] eqn:O.
  2:{ rewrite step_lift_raise.
      ends_with [HttpPost "/fuel/purchase" payload]. constructor; auto with runs. }
  rewrite step_lift_ok.
  destruct (json_item pr "merchant_address") as [m|e] eqn:M.
  2:{ rewrite step_lift_raise.
      ends_with [HttpPost "/fuel/purchase" payload]. constructor; auto with runs. }
  rewrite step_lift_ok.
  destruct (json_item pr "amount_base_units") as [aj|e] eqn:AJ.
  2:{ rewrite step_lift_raise.
      ends_with [HttpPost "/fuel/purchase" payload]. constructor; auto with runs. }
  rewrite step_lift_ok.
  destruct (py_int aj) as [a|e] eqn:A.
  2:{ rewrite step_lift_raise.
      ends_with [HttpPost "/fuel/purchase" payload]. constructor; auto with runs. }
  rewrite step_lift_ok.
  assert (Q : car_quoted (env_http E (n_http st) "/fuel/purchase" payload)
                inv v o m a).
  { exists resp, pr, aj. rewrite R. auto 10. }
  rewrite step_spend. cbv zeta. cbn [n_spend n_http log].
  destruct (CarAgent.send_vault_spend_tx_safe (env_web3 E (n_spend st)) v o m a)
    as [r|e] eqn:Sp.
  2:{ ends_with [HttpPost "/fuel/purchase" payload; Spend v o m a].
      apply (settle_spend_last _ _ _ _ _ _ _ inv); auto with runs. }
  destruct (CarAgent.has_error r) eqn:HE.
  - rewrite step_print. cbn [n_spend n_http log].
    match goal with |- context [if ?c then _ else _] => destruct c eqn:C end.
    2:{ ends_with [HttpPost "/fuel/purchase" payload; Spend v o m a;
                   Print "PAYMENT_FAILED"].
        apply (settle_spend_last _ _ _ _ _ _ _ inv); auto with runs. }
    apply andb_true_iff in C. destruct C as [C C3].
    apply andb_true_iff in C. destruct C as [C1 C2].
    apply Nat.ltb_lt in C3. apply eq_str_true in C1, C2.
    destruct (py_round2 (fmul liters CarAgent.LITERS_REDUCTION_FACTOR))
      as [halved|e] eqn:H2.
    2:{ rewrite step_lift_raise.
        ends_with [HttpPost "/fuel/purchase" payload; Spend v o m a;
                   Print "PAYMENT_FAILED"].
        apply (settle_spend_last _ _ _ _ _ _ _ inv); auto with runs. }
    rewrite step_lift_ok, step_print. cbn [n_spend n_http log].
    match goal with
    | |- context [CarAgent.purchase_loop _ _ _ _ _ _ _ ?s] =>
        destruct (IH (S attempts) (py_max (Finite 1) halved) s) as (seg & L & T);
          [unfold CarAgent.max_attempts, CarAgent.MAX_RETRIES_EXCEEDS_MAXPERTX in *; lia
          |lia|]
    end.
    cbn [n_spend n_http log] in L, T.
    exists (HttpPost "/fuel/purchase" payload :: Spend v o m a
            :: Print "PAYMENT_FAILED"
            :: Print "Retrying due to exceeds maxPerTx" :: seg).
    split.
    + rewrite L. rewrite <- !List.app_assoc. reflexivity.
    + apply (settle_retried _ _ _ _ _ _ _ inv v o m a r halved); auto.
      revert HE C1 C2. unfold exceeds_max_per_tx, CarAgent.has_error,
        CarAgent.error_dict.
      destruct (CarAgent.error r) as [d|]; [|discriminate].
      intros _ C1 C2. exists d. auto.
  - destruct (car_spend_success _ _ _ _ _ _ Sp HE) as (h & ->).
    cbn [CarAgent.tx_hash].
    unfold CarAgent.confirm_phase, CarAgent.confirm_with_server.
    fold (confirm_payload inv (Some h)).
    rewrite step_http. cbv zeta. cbn [n_spend n_http log].
    match goal with |- context [env_http ?e ?i ?u ?p] =>
      destruct (env_http e i u p) as [[c_status c_resp]|e'] end.
    + destruct (negb (c_status =? 200)%Z).
      * ends_with [HttpPost "/fuel/purchase" payload; Spend v o m a;
                   HttpPost "/fuel/confirm" (confirm_payload inv (Some h));
                   Print "CONFIRM_FAILED"].
        apply (settle_confirmed _ _ _ _ _ _ _ inv); auto with runs.
      * ends_with [HttpPost "/fuel/purchase" payload; Spend v o m a;
                   HttpPost "/fuel/confirm" (confirm_payload inv (Some h));
                   Print "Flow complete"].
        apply (settle_confirmed _ _ _ _ _ _ _ inv); auto with runs.
    + ends_with [HttpPost "/fuel/purchase" payload; Spend v o m a;
                 HttpPost "/fuel/confirm" (confirm_payload inv (Some h))].
      apply (settle_confirmed _ _ _ _ _ _ _ inv); auto with runs.
Qed.

(** ** Reading a log *)

Lemma spend_calls_post u p l : spend_calls (HttpPost u p :: l) = spend_calls l.
Proof. reflexivity. Qed.

Lemma spend_calls_print h l : spend_calls (Print h :: l) = spend_calls l.
Proof. reflexivity. Qed.

Lemma spend_calls_spend v o m a l :
  spend_calls (Spend v o m a :: l) = (v, o, m, a) :: spend_calls l.
Proof. reflexivity. Qed.

Lemma http_posts_post u p l : http_posts (HttpPost u p :: l) = (u, p) :: http_posts l.
Proof. reflexivity. Qed.

Lemma http_posts_print h l : http_posts (Print h :: l) = http_posts l.
Proof. reflexivity. Qed.

Lemma http_posts_spend v o m a l :
  http_posts (Spend v o m a :: l) = http_posts l.
Proof. reflexivity. Qed.

Ltac read_log :=
  repeat first
    [ rewrite spend_calls_post | rewrite spend_calls_print
    | rewrite spend_calls_spend | rewrite http_posts_post
    | rewrite http_posts_print | rewrite http_posts_spend ].

Ltac read_log_in H :=
  repeat first
    [ rewrite spend_calls_post in H | rewrite spend_calls_print in H
    | rewrite spend_calls_spend in H | rewrite http_posts_post in H
    | rewrite http_posts_print in H | rewrite http_posts_spend in H ].

Lemma quiet_posts_to u l : http_posts l = [] -> posts_to u l = [].
Proof.
  induction l as [|e l IH]; [reflexivity|].
  destruct e; cbn; try exact IH. discriminate.
Qed.

Lemma purchase_liters_quiet l : quiet l -> purchase_liters l = [].
Proof.
  intros [_ [H _]]. unfold purchase_liters. rewrite (quiet_posts_to _ _ H).
  reflexivity.
Qed.

Lemma purchase_liters_request car fuel liters price l :
  purchase_liters
    (HttpPost "/fuel/purchase" (purchase_payload car fuel liters price) :: l)
  = JFloat liters :: purchase_liters l.
Proof. reflexivity. Qed.

Lemma purchase_liters_skip e l :
  match e with
  | HttpPost u _ => String.eqb u "/fuel/purchase" = false
  | _ => True
  end ->
  purchase_liters (e :: l) = purchase_liters l.
Proof.
  unfold purchase_liters. destruct e; cbn; try reflexivity.
  intros ->. reflexivity.
Qed.

(** ** What the shape of the log gives *)

Section Settlement.

Variables (E : env) (car fuel : json) (price : pyfloat).

Lemma settlement_retries i j liters seg :
  settlement E car fuel price i j liters seg ->
  forall k v o m a,
    nth_error (spend_calls seg) k = Some (v, o, m, a) ->
    (S k < List.length (spend_calls seg))%nat ->
    exists r,
      CarAgent.send_vault_spend_tx_safe (env_web3 E (j + k)) v o m a = Ok r /\
      exceeds_max_per_tx r.
Proof.
  induction 1 as [i j liters tail [Q1 [Q2 _]]
                 |i j liters inv v0 o0 m0 a0 tail Hq [Q1 [Q2 _]]
                 |i j liters inv v0 o0 m0 a0 h tail Hq Hs [Q1 [Q2 _]]
                 |i j liters inv v0 o0 m0 a0 r halved rest Hq Hs Hx Hh Hrest IH];
    intros k v o m a N L; read_log_in N; read_log_in L.
  - rewrite Q1 in N. destruct k; discriminate.
  - rewrite Q1 in L. cbn in L. lia.
  - rewrite Q1 in L. cbn in L. lia.
  - destruct k as [|k]; cbn [nth_error List.length] in N, L.
    + inversion N; subst. rewrite Nat.add_0_r. eauto.
    + rewrite Nat.add_succ_r. apply (IH k); [exact N | lia].
Qed.

Lemma settlement_quotes i j liters seg :
  settlement E car fuel price i j liters seg ->
  forall k v o m a,
    nth_error (spend_calls seg) k = Some (v, o, m, a) ->
    exists quantity invoice_id,
      nth_error (http_posts seg) k
      = Some ("/fuel/purchase", purchase_payload car fuel quantity price) /\
      car_quoted
        (env_http E (i + k) "/fuel/purchase"
           (purchase_payload car fuel quantity price))
        invoice_id v o m a.
Proof.
  induction 1 as [i j liters tail [Q1 [Q2 _]]
                 |i j liters inv v0 o0 m0 a0 tail Hq [Q1 [Q2 _]]
                 |i j liters inv v0 o0 m0 a0 h tail Hq Hs [Q1 [Q2 _]]
                 |i j liters inv v0 o0 m0 a0 r halved rest Hq Hs Hx Hh Hrest IH];
    intros k v o m a N; read_log_in N; read_log.
  - rewrite Q1 in N. destruct k; discriminate.
  - rewrite Q1 in N. destruct k as [|[|k]]; try discriminate.
    inversion N; subst. rewrite Nat.add_0_r. exists liters, inv. auto.
  - rewrite Q1 in N. destruct k as [|[|k]]; try discriminate.
    inversion N; subst. rewrite Nat.add_0_r. exists liters, inv. auto.
  - destruct k as [|k]; cbn [nth_error] in N |- *.
    + inversion N; subst. rewrite Nat.add_0_r. exists liters, inv. auto.
    + rewrite Nat.add_succ_r. apply (IH k). exact N.
Qed.

Lemma settlement_confirmation i j liters seg :
  settlement E car fuel price i j liters seg ->
  forall k payload,
    nth_error (http_posts seg) k = Some ("/fuel/confirm", payload) ->
    exists n quantity invoice_id v o m a h,
      k = S n /\
      List.length (http_posts seg) = S k /\
      List.length (spend_calls seg) = S n /\
      nth_error (spend_calls seg) n = Some (v, o, m, a) /\
      car_quoted
        (env_http E (i + n) "/fuel/purchase"
           (purchase_payload car fuel quantity price))
        invoice_id v o m a /\
      CarAgent.send_vault_spend_tx_safe (env_web3 E (j + n)) v o m a
      = Ok {| CarAgent.tx_hash := Some h; CarAgent.error := None |} /\
      payload = confirm_payload invoice_id (Some h).
Proof.
  induction 1 as [i j liters tail [Q1 [Q2 _]]
                 |i j liters inv v0 o0 m0 a0 tail Hq [Q1 [Q2 _]]
                 |i j liters inv v0 o0 m0 a0 h tail Hq Hs [Q1 [Q2 _]]
                 |i j liters inv v0 o0 m0 a0 r halved rest Hq Hs Hx Hh Hrest IH];
    intros k payload N; read_log_in N; read_log.
  - rewrite Q2 in N. destruct k as [|[|k]]; discriminate.
  - rewrite Q2 in N. destruct k as [|[|k]]; discriminate.
  - rewrite Q2 in N |- *. rewrite Q1.
    destruct k as [|[|[|k]]]; try discriminate.
    inversion N; subst.
    exists 0%nat, liters, inv, v0, o0, m0, a0, h.
    rewrite !Nat.add_0_r. repeat split; auto.
  - destruct k as [|k]; cbn [nth_error] in N; [discriminate|].
    destruct (IH k payload N)
      as (n & q & inv' & v & o & m & a & h & -> & L1 & L2 & N2 & Q & Sp & P).
    exists (S n), q, inv', v, o, m, a, h.
    rewrite !Nat.add_succ_r. cbn [List.length nth_error].
    repeat split; auto.
Qed.

Lemma py_max_floor x : fle (Finite 1) (py_max (Finite 1) x) = true.
Proof.
  unfold py_max, fgt. destruct (flt (Finite 1) x) eqn:C.
  - apply AmountFacts.flt_fle. exact C.
  - reflexivity.
Qed.

Lemma settlement_quantities i j liters seg :
  settlement E car fuel price i j liters seg ->
  exists rest,
    purchase_liters seg = JFloat liters :: rest /\
    forall k x y,
      nth_error (JFloat liters :: rest) k = Some x ->
      nth_error (JFloat liters :: rest) (S k) = Some y ->
      exists quantity halved,
        x = JFloat quantity /\
        py_round2 (fmul quantity CarAgent.LITERS_REDUCTION_FACTOR) = Ok halved /\
        y = JFloat (py_max (Finite 1) halved).
Proof.
  induction 1 as [i j liters tail Q
                 |i j liters inv v0 o0 m0 a0 tail Hq Q
                 |i j liters inv v0 o0 m0 a0 h tail Hq Hs Q
                 |i j liters inv v0 o0 m0 a0 r halved rest Hq Hs Hx Hh Hrest IH];
    rewrite purchase_liters_request.
  - exists []. rewrite (purchase_liters_quiet _ Q). split; [reflexivity|].
    intros k x y _ Y. cbn [nth_error] in Y. destruct k; discriminate Y.
  - exists []. rewrite purchase_liters_skip by exact I.
    rewrite (purchase_liters_quiet _ Q). split; [reflexivity|].
    intros k x y _ Y. cbn [nth_error] in Y. destruct k; discriminate Y.
  - exists []. rewrite !purchase_liters_skip by (exact I || reflexivity).
    rewrite (purchase_liters_quiet _ Q). split; [reflexivity|].
    intros k x y _ Y. cbn [nth_error] in Y. destruct k; discriminate Y.
  - destruct IH as (rest' & L & A).
    exists (JFloat (py_max (Finite 1) halved) :: rest').
    rewrite !purchase_liters_skip by exact I. rewrite L.
    split; [reflexivity|].
    intros [|k] x y X Y; cbn [nth_error] in X, Y.
    + inversion X; inversion Y; subst. eauto.
    + apply (A k x y); assumption.
Qed.

End Settlement.

(** ** Whole runs of [car_agent.py] *)

Lemma main_settlement_from E car fuel price liters st :
  exists seg,
    log (fst (CarAgent.main E car fuel price liters st)) = (log st ++ seg)%list /\
    settlement E car fuel price (n_http st) (n_spend st) liters seg.
Proof.
  unfold CarAgent.main. rewrite Nat.sub_0_r.
  apply purchase_loop_settlement; [|reflexivity].
  unfold CarAgent.max_attempts. cbn. lia.
Qed.

Lemma main_settlement E car fuel price liters :
  settlement E car fuel price 0 0 liters
    (log (fst (run (CarAgent.main E car fuel price liters)))).
Proof.
  destruct (main_settlement_from E car fuel price liters start)
    as (seg & L & T).
  unfold run. rewrite L. exact T.
Qed.

Lemma purchase_liters_app l1 l2 :
  purchase_liters (l1 ++ l2) = (purchase_liters l1 ++ purchase_liters l2)%list.
Proof.
  unfold purchase_liters, posts_to. rewrite flat_map_app, map_app. reflexivity.
Qed.

Lemma step_io {A B} (m : io A) (k : A -> io B) st :
  iobind m k st
  = match m st with
    | (st', Ok a) => k a st'
    | (st', Raise e) => (st', Raise e)
    end.
Proof. reflexivity. Qed.

(** X17.  A spend is followed by another one only if it failed with
    [CONTRACT_REVERT] and the reason "exceeds maxPerTx": after a spend
    that returned a hash, or failed in any other way, or raised, no more
    spend is attempted. *)
Theorem respends_only_after_exceeds_max_per_tx E car fuel price liters
  k v o m a :
  let calls :=
    spend_calls (log (fst (run (CarAgent.main E car fuel price liters)))) in
  nth_error calls k = Some (v, o, m, a) ->
  (S k < List.length calls)%nat ->
  exists r,
    CarAgent.send_vault_spend_tx_safe (env_web3 E k) v o m a = Ok r /\
    exceeds_max_per_tx r.
Proof.
  cbv zeta. intros N L.
  exact (settlement_retries E car fuel price 0 0 liters _
           (main_settlement E car fuel price liters) k v o m a N L).
Qed.

Lemma respends_only_after_exceeds_max_per_tx_witness :
  exists r,
    CarAgent.send_vault_spend_tx_safe (env_web3 env_exceeds 0)
      vault owner merchant 100000000 = Ok r /\
    exceeds_max_per_tx r.
Proof.
  apply (respends_only_after_exceeds_max_per_tx env_exceeds car_id fuel_type
           (float_lit (5 # 2)) (float_lit 40) 0 vault owner merchant 100000000).
  - vm_compute. reflexivity.
  - vm_compute. repeat constructor.
Defined.

(** X18.  Every spend is made for the quote that answered the purchase request
    just before it: the vault, owner, merchant and amount passed to the
    vault are those of the accepted terms of that answer. *)
Theorem spends_only_what_was_quoted E car fuel price liters k v o m a :
  let final := fst (run (CarAgent.main E car fuel price liters)) in
  nth_error (spend_calls (log final)) k = Some (v, o, m, a) ->
  exists quantity invoice_id,
    nth_error (http_posts (log final)) k
    = Some ("/fuel/purchase", purchase_payload car fuel quantity price) /\
    car_quoted
      (env_http E k "/fuel/purchase" (purchase_payload car fuel quantity price))
      invoice_id v o m a.
Proof.
  cbv zeta. intros N.
  exact (settlement_quotes E car fuel price 0 0 liters _
           (main_settlement E car fuel price liters) k v o m a N).
Qed.

Lemma spends_only_what_was_quoted_witness :
  exists quantity invoice_id,
    nth_error
      (http_posts
         (log (fst (run (CarAgent.main env_exceeds car_id fuel_type
                           (float_lit (5 # 2)) (float_lit 40))))))
      1
    = Some ("/fuel/purchase",
            purchase_payload car_id fuel_type quantity (float_lit (5 # 2))) /\
    car_quoted
      (env_http env_exceeds 1 "/fuel/purchase"
         (purchase_payload car_id fuel_type quantity (float_lit (5 # 2))))
      invoice_id vault owner merchant 50000000.
Proof.
  apply (spends_only_what_was_quoted env_exceeds car_id fuel_type
           (float_lit (5 # 2)) (float_lit 40) 1 vault owner merchant 50000000).
  vm_compute. reflexivity.
Defined.

(** X19.  A confirmation request is sent only for a payment that went through:
    it follows a spend that returned a transaction hash, carries that hash
    and the invoice id of the quote the spend was made for, and is the
    last request of the run; no spend follows it. *)
Theorem confirms_only_a_settled_payment E car fuel price liters k payload :
  let final := fst (run (CarAgent.main E car fuel price liters)) in
  nth_error (http_posts (log final)) k = Some ("/fuel/confirm", payload) ->
  exists n quantity invoice_id v o m a h,
    k = S n /\
    List.length (http_posts (log final)) = S k /\
    List.length (spend_calls (log final)) = S n /\
    nth_error (spend_calls (log final)) n = Some (v, o, m, a) /\
    car_quoted
      (env_http E n "/fuel/purchase" (purchase_payload car fuel quantity price))
      invoice_id v o m a /\
    CarAgent.send_vault_spend_tx_safe (env_web3 E n) v o m a
    = Ok {| CarAgent.tx_hash := Some h; CarAgent.error := None |} /\
    payload = confirm_payload invoice_id (Some h).
Proof.
  cbv zeta. intros N.
  exact (settlement_confirmation E car fuel price 0 0 liters _
           (main_settlement E car fuel price liters) k payload N).
Qed.

Lemma confirms_only_a_settled_payment_witness :
  let final := fst (run (CarAgent.main env_ok car_id fuel_type
                           (float_lit (5 # 2)) (float_lit 40))) in
  exists n quantity invoice_id v o m a h,
    1%nat = S n /\
    List.length (http_posts (log final)) = 2%nat /\
    List.length (spend_calls (log final)) = S n /\
    nth_error (spend_calls (log final)) n = Some (v, o, m, a) /\
    car_quoted
      (env_http env_ok n "/fuel/purchase"
         (purchase_payload car_id fuel_type quantity (float_lit (5 # 2))))
      invoice_id v o m a /\
    CarAgent.send_vault_spend_tx_safe (env_web3 env_ok n) v o m a
    = Ok {| CarAgent.tx_hash := Some h; CarAgent.error := None |} /\
    confirm_payload (JStr "inv-1") (Some "0x9a3c")
    = confirm_payload invoice_id (Some h).
Proof.
  cbv zeta.
  apply (confirms_only_a_settled_payment env_ok car_id fuel_type
           (float_lit (5 # 2)) (float_lit 40) 1
           (confirm_payload (JStr "inv-1") (Some "0x9a3c"))).
  vm_compute. reflexivity.
Defined.

(** X20.  The first purchase request asks for the liters [main] starts from,
    and each later one for half the liters of the one before, rounded to
    two decimals and raised to one liter if less: no request after the
    first asks for less than one liter. *)
Theorem requested_liters_halve E car fuel price liters k x y :
  let asked :=
    purchase_liters (log (fst (run (CarAgent.main E car fuel price liters)))) in
  nth_error asked k = Some x ->
  nth_error asked (S k) = Some y ->
  nth_error asked 0 = Some (JFloat liters) /\
  exists quantity halved,
    x = JFloat quantity /\
    py_round2 (fmul quantity CarAgent.LITERS_REDUCTION_FACTOR) = Ok halved /\
    y = JFloat (py_max (Finite 1) halved) /\
    fle (Finite 1) (py_max (Finite 1) halved) = true.
Proof.
  cbv zeta.
  destruct (settlement_quantities E car fuel price 0 0 liters _
              (main_settlement E car fuel price liters)) as (rest & L & A).
  rewrite L. intros X Y. split; [reflexivity|].
  destruct (A k x y X Y) as (q & h & -> & R & ->).
  exists q, h. repeat split; auto. apply py_max_floor.
Qed.

Lemma requested_liters_halve_witness :
  nth_error
    (purchase_liters
       (log (fst (run (CarAgent.main env_exceeds car_id fuel_type
                         (float_lit (5 # 2)) (float_lit (3 # 2)))))))
    0
  = Some (JFloat (float_lit (3 # 2))) /\
  exists quantity halved,
    JFloat (float_lit (3 # 2)) = JFloat quantity /\
    py_round2 (fmul quantity CarAgent.LITERS_REDUCTION_FACTOR) = Ok halved /\
    JFloat (float_lit 1) = JFloat (py_max (Finite 1) halved) /\
    fle (Finite 1) (py_max (Finite 1) halved) = true.
Proof.
  apply (requested_liters_halve env_exceeds car_id fuel_type
           (float_lit (5 # 2)) (float_lit (3 # 2)) 0
           (JFloat (float_lit (3 # 2))) (JFloat (float_lit 1)));
    vm_compute; reflexivity.
Defined.

Close Scope string_scope.
End TraceFacts.

(* ================================================================= *)
(** * The log of a run of [m2m_client.py] *)
(* ================================================================= *)

Module M2MRunFacts.
Import Py World Spec Scenarios Runs TraceFacts.
Open Scope string_scope.

Lemma spend_calls_sleep s l : spend_calls (Sleep s :: l) = spend_calls l.
Proof. reflexivity. Qed.

Lemma http_posts_sleep s l : http_posts (Sleep s :: l) = http_posts l.
Proof. reflexivity. Qed.

Lemma confirm_loop_confirming E inv tx attempts :
  forall st,
    exists seg,
      log (fst (M2MClient.confirm_loop E inv tx attempts st))
      = (log st ++ seg)%list /\
      confirming inv tx (List.length attempts) seg.
Proof.
  induction attempts as [|a rest IH]; intros st.
  { ends_with [Print "CONFIRM_TIMEOUT"]. exists 0%nat. cbn.
    repeat split; auto; lia. }
  cbn [M2MClient.confirm_loop]. fold (confirm_payload inv tx).
  set (payload := confirm_payload inv tx).
  rewrite step_http. cbv zeta.
  assert (One : forall tail,
             spend_calls tail = [] -> http_posts tail = [] ->
             sleeps tail = [] ->
             confirming inv tx (List.length (a :: rest))
               (HttpPost "/m2m/confirm" payload :: tail)).
  { intros tail T1 T2 T3. exists 1%nat.
    rewrite spend_calls_post, http_posts_post, T1, T2.
    change (sleeps (HttpPost "/m2m/confirm" payload :: tail))
      with (sleeps tail). rewrite T3. cbn.
    repeat split; auto; lia. }
  destruct (env_http E (n_http st) "/m2m/confirm" payload)
    as [[status body]|e].
  2:{ ends_with [HttpPost "/m2m/confirm" payload]. apply One; reflexivity. }
  destruct (status =? 200)%Z.
  { ends_with [HttpPost "/m2m/confirm" payload; Print "END-TO-END SUCCESS"].
    apply One; reflexivity. }
  destruct (status =? 402)%Z.
  - unfold iobind at 1.
    destruct (json_get body "error") as [err|e]; unfold iobind at 1, lift at 1.
    2:{ ends_with [HttpPost "/m2m/confirm" payload]. apply One; reflexivity. }
    unfold ret at 1.
    destruct (M2MClient.is_pending_error err).
    + unfold sleep. unfold iobind at 1, emit at 1.
      cbn [n_http n_spend log].
      match goal with
      | |- context [M2MClient.confirm_loop _ _ _ _ ?s] =>
          destruct (IH s) as (seg & L & n & C1 & C2 & C3 & C4 & C5 & C6)
      end.
      cbn [log] in L.
      exists (HttpPost "/m2m/confirm" payload :: Sleep 2 :: seg).
      split; [rewrite L, <- !List.app_assoc; reflexivity|].
      exists (S n).
      rewrite spend_calls_post, spend_calls_sleep, http_posts_post,
        http_posts_sleep, C1, C2.
      change (sleeps (HttpPost "/m2m/confirm" payload :: Sleep 2 :: seg))
        with (2%Z :: sleeps seg).
      cbn [repeat List.length]. repeat split; auto; lia.
    + ends_with [HttpPost "/m2m/confirm" payload; Print "CONFIRM_FAILED"].
      apply One; reflexivity.
  - unfold iobind at 1, ret at 1.
    ends_with [HttpPost "/m2m/confirm" payload; Print "CONFIRM_FAILED"].
    apply One; reflexivity.
Qed.

(** A spend of [m2m_client.py] without error returns a normalized
    hash. *)
Lemma m2m_spend_success w3 v o m a h e :
  M2MClient.send_vault_spend_tx w3 v o m a = Ok (h, e) ->
  M2MClient.has_error e = false ->
  exists x, h = Some x /\ e = None /\ startswith x "0x" = true.
Proof.
  intros H N. unfold M2MClient.send_vault_spend_tx in H.
  destruct (account_from_key w3) as [acct|]; cbn [bind] in H; [|discriminate].
  destruct (get_balance w3 acct) as [bal|]; cbn [bind] in H; [|discriminate].
  destruct (bal =? 0)%Z.
  { inversion H; subst. discriminate. }
  destruct (M2MClient.spend_try w3 acct v o m a) as [[h' e']|x] eqn:T.
  - inversion H; subst.
    destruct (SpendOutcomeFacts.m2m_spend_try_outcome _ _ _ _ _ _ _ _ T)
      as [(y & -> & -> & P & _)|(-> & d & -> & (t & msg & D & _))].
    + eauto.
    + destruct d; [discriminate D | discriminate N].
  - destruct (is_ContractLogicError (exn_cls x)).
    + destruct (SpendFacts.revert_reason_total (exn_str x)) as (reason & Er).
      rewrite Er in H. cbn [bind] in H. inversion H; subst. discriminate.
    + destruct (is_Exception (exn_cls x)); [|discriminate].
      inversion H; subst. discriminate.
Qed.

Lemma m2m_main_settlement E status resp st :
  exists seg,
    log (fst (M2MClient.main E status resp st)) = (log st ++ seg)%list /\
    m2m_settlement E (n_spend st) status resp seg.
Proof.
  unfold M2MClient.main.
  destruct (negb (status =? 402)%Z) eqn:S402.
  { exists []. cbn. rewrite List.app_nil_r. split; [reflexivity|].
    left. apply quiet_nil. }
  apply negb_false_iff, Z.eqb_eq in S402.
  assert (Stop : forall e : exn,
             exists seg, log (fst (st, @Raise unit e)) = (log st ++ seg)%list /\
                         m2m_settlement E (n_spend st) status resp seg).
  { intros e. exists []. cbn. rewrite List.app_nil_r. split; [reflexivity|].
    left. apply quiet_nil. }
  destruct (M2MClient.extract_payment_required resp) as [[inv pr]|e] eqn:X;
    [rewrite step_lift_ok | rewrite step_lift_raise; apply Stop].
  destruct (json_item pr "vault_address") as [v|e] eqn:V;
    [rewrite step_lift_ok | rewrite step_lift_raise; apply Stop].
  destruct (json_item pr "owner_address") as [o|e] eqn:O;
    [rewrite step_lift_ok | rewrite step_lift_raise; apply Stop].
  destruct (json_item pr "merchant_address") as [m|e] eqn:M;
    [rewrite step_lift_ok | rewrite step_lift_raise; apply Stop].
  destruct (json_item pr "amount_base_units") as [aj|e] eqn:AJ;
    [rewrite step_lift_ok | rewrite step_lift_raise; apply Stop].
  destruct (py_int aj) as [a|e] eqn:A;
    [rewrite step_lift_ok | rewrite step_lift_raise; apply Stop].
  assert (Q : m2m_quoted status resp inv v o m a).
  { exists pr, aj. auto 10. }
  rewrite step_spend. cbv zeta.
  destruct (M2MClient.send_vault_spend_tx (env_web3 E (n_spend st)) v o m a)
    as [[h err]|e] eqn:Sp.
  2:{ ends_with [Spend v o m a]. right.
      exists inv, v, o, m, a, []. auto using quiet_nil. }
  destruct (M2MClient.has_error err) eqn:HE.
  { ends_with [Spend v o m a; Print "PAYMENT_FAILED"]. right.
    exists inv, v, o, m, a, [Print "PAYMENT_FAILED"]. auto using quiet_print. }
  destruct (m2m_spend_success _ _ _ _ _ _ _ Sp HE) as (x & -> & -> & P).
  match goal with
  | |- context [M2MClient.confirm_loop _ _ _ ?l ?s] =>
      destruct (confirm_loop_confirming E inv (Some x) l s) as (seg & L & C)
  end.
  cbn [log] in L.
  exists (Spend v o m a :: seg).
  split; [rewrite L, <- List.app_assoc; reflexivity|].
  right. exists inv, v, o, m, a, seg. split; [exact Q|]. split; [reflexivity|].
  right. exists x. auto.
Qed.

Lemma spend_calls_app l1 l2 :
  spend_calls (l1 ++ l2) = (spend_calls l1 ++ spend_calls l2)%list.
Proof. apply flat_map_app. Qed.

Lemma http_posts_app l1 l2 :
  http_posts (l1 ++ l2) = (http_posts l1 ++ http_posts l2)%list.
Proof. apply flat_map_app. Qed.

Lemma sleeps_app l1 l2 : sleeps (l1 ++ l2) = (sleeps l1 ++ sleeps l2)%list.
Proof. apply flat_map_app. Qed.

Lemma in_repeat {A} (x y : A) n : In y (repeat x n) -> y = x.
Proof. intros H. exact (repeat_spec n x y H). Qed.

(** X21.  From the purchase answer on, [m2m_client.py] spends at most once and
    only for the quote it received.  It asks for confirmation only after
    that one spend has returned a hash, which starts with [0x]: every
    request is the confirmation request for that hash and the invoice of
    the quote, there are at most six of them, and each is followed by at
    most one sleep, of two seconds. *)
Theorem m2m_settles_once_then_confirms E status resp st :
  exists seg,
    log (fst (M2MClient.main E status resp st)) = (log st ++ seg)%list /\
    (List.length (spend_calls seg) <= 1)%nat /\
    (forall v o m a,
       In (v, o, m, a) (spend_calls seg) ->
       exists invoice_id, m2m_quoted status resp invoice_id v o m a) /\
    (forall url payload,
       In (url, payload) (http_posts seg) ->
       url = "/m2m/confirm" /\
       exists invoice_id v o m a h,
         spend_calls seg = [(v, o, m, a)] /\
         m2m_quoted status resp invoice_id v o m a /\
         M2MClient.send_vault_spend_tx (env_web3 E (n_spend st)) v o m a
         = Ok (Some h, None) /\
         startswith h "0x" = true /\
         payload = confirm_payload invoice_id (Some h)) /\
    (List.length (http_posts seg) <= 6)%nat /\
    Forall (fun s => s = 2%Z) (sleeps seg) /\
    (List.length (sleeps seg) <= List.length (http_posts seg))%nat.
Proof.
  destruct (m2m_main_settlement E status resp st) as (seg & L & Sh).
  exists seg. split; [exact L|].
  destruct Sh as [(Q1 & Q2 & Q3)
                 |(inv & v & o & m & a & tl & Q & -> & [(Q1 & Q2 & Q3)|Hc])].
  - rewrite Q1, Q2, Q3. cbn. repeat split; auto; try lia; intros; contradiction.
  - rewrite spend_calls_spend, http_posts_spend, Q1, Q2.
    change (sleeps (Spend v o m a :: tl)) with (sleeps tl). rewrite Q3.
    cbn. repeat split; auto; try lia; try (intros; contradiction).
    intros v' o' m' a' [H|[]]. inversion H; subst. eauto.
  - destruct Hc as (h & Sp & P & n & C1 & C2 & C3 & C4 & C5 & C6).
    rewrite spend_calls_spend, http_posts_spend, C1, C2.
    change (sleeps (Spend v o m a :: tl)) with (sleeps tl).
    rewrite repeat_length. unfold M2MClient.max_attempts in C3.
    repeat split; auto; try (cbn; lia).
    + intros v' o' m' a' [H|[]]. inversion H; subst. eauto.
    + apply in_repeat in H. inversion H. reflexivity.
    + apply in_repeat in H. inversion H; subst.
      exists inv, v, o, m, a, h. auto.
Qed.

(** ** From the command line *)

Lemma business_case_cases bc :
  M2MClient.is_business_case bc = true ->
  bc = "gas_station" \/ bc = "vending_machine" \/ bc = "laundry".
Proof.
  unfold M2MClient.is_business_case. rewrite !orb_true_iff, !String.eqb_eq.
  tauto.
Qed.

Section Flow.

Variables math_radians math_sin math_cos math_asin math_sqrt float_square
  : pyfloat -> result pyfloat.
Variable float_of_str : string -> result pyfloat.
Variable load_devices : result json.
Variable request_builder : string -> result json.
Variable negotiator : json -> json -> result json.

Let main_from_argv : list string -> env -> io unit :=
  M2MClient.main_from_argv math_radians math_sin math_cos math_asin
    math_sqrt float_square float_of_str load_devices request_builder
    negotiator.

Let purchase : env -> string -> json -> io (Z * json) :=
  M2MClient.purchase float_of_str.

(** The purchase step makes one request, to the endpoint of the
    business case, or none. *)
Lemma purchase_posts_once E bc quote_req st :
  M2MClient.is_business_case bc = true ->
  purchase E bc quote_req st = (st, snd (purchase E bc quote_req st)) /\
  (exists e, snd (purchase E bc quote_req st) = Raise e)
  \/
  exists url payload,
    purchase_endpoint bc url /\
    purchase E bc quote_req st
    = ({| n_http := S (n_http st); n_spend := n_spend st;
          log := log st ++ [HttpPost url payload] |},
       env_http E (n_http st) url payload).
Proof.
  intros B. unfold purchase, M2MClient.purchase.
  destruct (json_item quote_req "client_id") as [client_id|e];
    [rewrite step_lift_ok | rewrite step_lift_raise; left; cbn; eauto].
  destruct (json_item quote_req "device_id") as [device_id|e];
    [rewrite step_lift_ok | rewrite step_lift_raise; left; cbn; eauto].
  destruct (json_item quote_req "payload") as [payload|e];
    [rewrite step_lift_ok | rewrite step_lift_raise; left; cbn; eauto].
  destruct (String.eqb bc "gas_station") eqn:G.
  { apply String.eqb_eq in G.
    destruct (json_item payload "fuel_type") as [fuel_type|e];
      [rewrite step_lift_ok | rewrite step_lift_raise; left; cbn; eauto].
    destruct (json_item payload "liters") as [lj|e];
      [rewrite step_lift_ok | rewrite step_lift_raise; left; cbn; eauto].
    destruct (M2MClient.to_float float_of_str lj) as [liters|e];
      [rewrite step_lift_ok | rewrite step_lift_raise; left; cbn; eauto].
    destruct (json_item payload "max_price_per_liter_usd") as [pj|e];
      [rewrite step_lift_ok | rewrite step_lift_raise; left; cbn; eauto].
    destruct (M2MClient.to_float float_of_str pj) as [price|e];
      [rewrite step_lift_ok | rewrite step_lift_raise; left; cbn; eauto].
    right. eexists _, _. split; [left; split; [exact G | reflexivity]|].
    reflexivity. }
  destruct (String.eqb bc "vending_machine") eqn:V.
  { apply String.eqb_eq in V.
    right. eexists _, _. split; [right; left; split; [exact V | reflexivity]|].
    reflexivity. }
  apply String.eqb_neq in G, V.
  destruct (business_case_cases bc B) as [H|[H|H]]; try contradiction.
  right. eexists _, _. split; [right; right; split; [exact H | reflexivity]|].
  reflexivity.
Qed.

(** The log of a whole run: prints only; or prints, the purchase
    request, and what follows the answer. *)
Lemma main_from_argv_log argv E :
  let final := fst (run (main_from_argv argv E)) in
  quiet (log final) \/
  exists arg url payload prints tail,
    nth_error argv 1 = Some arg /\
    purchase_endpoint (strip arg) url /\
    quiet prints /\
    log final = (prints ++ HttpPost url payload :: tail)%list /\
    (tail = [] \/
     exists status resp,
       env_http E 0 url payload = Ok (status, resp) /\
       m2m_settlement E 0 status resp tail).
Proof.
  cbv zeta. unfold run, main_from_argv, M2MClient.main_from_argv.
  destruct (List.length argv <? 2)%nat; [left; apply quiet_nil|].
  unfold list_item, raise.
  destruct (nth_error argv 1) as [arg|] eqn:A;
    [rewrite step_lift_ok | rewrite step_lift_raise; left; apply quiet_nil].
  destruct (negb (M2MClient.is_business_case (strip arg))) eqn:B;
    [left; apply quiet_nil|].
  apply negb_false_iff in B.
  destruct load_devices as [db|e];
    [rewrite step_lift_ok | rewrite step_lift_raise; left; apply quiet_nil].
  destruct (request_builder (strip arg)) as [ui|e];
    [rewrite step_lift_ok | rewrite step_lift_raise; left; apply quiet_nil].
  rewrite step_print.
  destruct (M2MClient.discovery _ _ _ _ _ _ db ui (strip arg)) as [selected|e];
    [rewrite step_lift_ok | rewrite step_lift_raise; left; repeat split].
  rewrite step_print.
  destruct (negotiator ui selected) as [quote_req|e];
    [rewrite step_lift_ok | rewrite step_lift_raise; left; repeat split].
  rewrite step_print. cbn [n_http n_spend log start app].
  set (st3 := {| n_http := 0; n_spend := 0; log := _ |}).
  unfold iobind. fold purchase.
  destruct (purchase_posts_once E (strip arg) quote_req st3 B)
    as [[P (e & R)] | (url & payload & Ep & P)].
  { rewrite P, R. left. repeat split. }
  rewrite P. subst st3. cbn [n_http n_spend log app].
  right. exists arg, url, payload.
  exists [Print "USER_SELECTED_SERVICE"; Print "DEVICE_SELECTED";
          Print "QUOTE_REQUEST"].
  destruct (env_http E 0 url payload) as [[status resp]|e] eqn:R.
  - match goal with
    | |- context [M2MClient.main E status resp ?s] =>
        destruct (m2m_main_settlement E status resp s) as (seg & L & Sh)
    end.
    exists seg. split; [reflexivity|]. split; [exact Ep|].
    split; [repeat split|]. split; [exact L|].
    right. exists status, resp. split; [reflexivity | exact Sh].
  - exists []. split; [reflexivity|]. split; [exact Ep|].
    split; [repeat split|]. split; [reflexivity|]. left. reflexivity.
Qed.

Lemma m2m_settlement_counts E j status resp seg :
  m2m_settlement E j status resp seg ->
  (List.length (spend_calls seg) <= 1)%nat /\
  (exists n payload,
     http_posts seg = repeat ("/m2m/confirm", payload) n /\ (n <= 6)%nat /\
     (List.length (sleeps seg) <= n)%nat) /\
  Forall (fun s => s = 2%Z) (sleeps seg).
Proof.
  intros [(Q1 & Q2 & Q3)
         |(inv & v & o & m & a & tl & Q & -> & [(Q1 & Q2 & Q3)|Hc])].
  - rewrite Q1, Q2, Q3. cbn. split; [lia|]. split; [|constructor].
    exists 0%nat, JNull. cbn. split; [reflexivity | split; lia].
  - rewrite spend_calls_spend, http_posts_spend, Q1, Q2.
    change (sleeps (Spend v o m a :: tl)) with (sleeps tl). rewrite Q3.
    cbn. split; [lia|]. split; [|constructor].
    exists 0%nat, JNull. cbn. split; [reflexivity | split; lia].
  - destruct Hc as (h & Sp & P & n & C1 & C2 & C3 & C4 & C5 & C6).
    rewrite spend_calls_spend, http_posts_spend, C1, C2.
    change (sleeps (Spend v o m a :: tl)) with (sleeps tl).
    unfold M2MClient.max_attempts in C3.
    cbn [List.length]. split; [lia|]. split; [|exact C5].
    eexists n, _. split; [reflexivity | split; lia].
Qed.

(** X22.  A run of [m2m_client.py] posts its purchase request, the first
    request it makes, to the endpoint of the business case named on the
    command line; the branch for "laundry", which is taken for anything
    but a gas station or a vending machine, is reached for "laundry"
    only.  Every later request, of which there are at most six, is a
    confirmation request. *)
Theorem m2m_purchase_goes_to_its_endpoint argv E k url payload :
  nth_error (http_posts (log (fst (run (main_from_argv argv E))))) k
  = Some (url, payload) ->
  (k = 0%nat /\
   exists arg, nth_error argv 1 = Some arg /\
               purchase_endpoint (strip arg) url) \/
  ((1 <= k <= 6)%nat /\ url = "/m2m/confirm").
Proof.
  intros N.
  destruct (main_from_argv_log argv E)
    as [(_ & Q & _) | (arg & u & p & prints & tl & A & Ep & (_ & Q & _) & L & T)].
  { rewrite Q in N. destruct k; discriminate. }
  rewrite L, http_posts_app, Q, http_posts_post in N. cbn [app] in N.
  destruct k as [|k]; cbn [nth_error] in N.
  { inversion N; subst. left. eauto. }
  right. destruct T as [-> | (status & resp & R & Sh)].
  { destruct k; discriminate. }
  destruct (m2m_settlement_counts _ _ _ _ _ Sh) as (_ & (n & p' & H & Hn & _) & _).
  rewrite H in N.
  assert (Hk : (k < n)%nat).
  { rewrite <- (repeat_length ("/m2m/confirm", p') n).
    apply nth_error_Some. rewrite N. discriminate. }
  apply nth_error_In, in_repeat in N. inversion N. split; [lia | reflexivity].
Qed.

(** X23.  In every run of [m2m_client.py] there is at most one spend, there
    are at most seven requests, and the only pauses are sleeps of two
    seconds, at most six of them. *)
Theorem m2m_run_is_bounded argv E :
  let final := fst (run (main_from_argv argv E)) in
  (List.length (spend_calls (log final)) <= 1)%nat /\
  (List.length (http_posts (log final)) <= 7)%nat /\
  Forall (fun s => s = 2%Z) (sleeps (log final)) /\
  (List.length (sleeps (log final)) <= 6)%nat.
Proof.
  cbv zeta.
  destruct (main_from_argv_log argv E)
    as [(Q1 & Q2 & Q3)
       | (arg & u & p & prints & tl & A & Ep & (Q1 & Q2 & Q3) & L & T)].
  { rewrite Q1, Q2, Q3. cbn. repeat split; auto; lia. }
  rewrite L, spend_calls_app, http_posts_app, sleeps_app, Q1, Q2, Q3.
  rewrite spend_calls_post, http_posts_post.
  change (sleeps (HttpPost u p :: tl)) with (sleeps tl). cbn [app List.length].
  destruct T as [-> | (status & resp & R & Sh)].
  { cbn. repeat split; auto; lia. }
  destruct (m2m_settlement_counts _ _ _ _ _ Sh)
    as (C1 & (n & p' & H & Hn & Hs) & C3).
  rewrite H, repeat_length. repeat split; auto; lia.
Qed.

End Flow.

Lemma m2m_purchase_goes_to_its_endpoint_witness :
  (0%nat = 0%nat /\
   exists arg, nth_error ["m2m_client.py"; "gas_station "] 1 = Some arg /\
               purchase_endpoint (strip arg) "/fuel/purchase") \/
  ((1 <= 0 <= 6)%nat /\ "/fuel/purchase" = "/m2m/confirm").
Proof.
  apply (m2m_purchase_goes_to_its_endpoint approx_radians approx_sin
           approx_cos approx_asin approx_sqrt approx_square no_float_of_str
           (Ok devices_db) (fun _ => Ok ui_event)
           (fun _ _ => Ok quote_request)
           ["m2m_client.py"; "gas_station "] env_ok 0 "/fuel/purchase"
           (purchase_payload (JStr "client-001") (JStr "GASOLINE")
              (float_lit 20) (float_lit (5 # 2)))).
  vm_compute. reflexivity.
Defined.

Close Scope string_scope.
End M2MRunFacts.

(* ================================================================= *)
(** * The demo mode and the failure report of [car_agent.py] *)
(* ================================================================= *)

Module DemoModeFacts.
Import Py World CarAgent Spec Scenarios Runs TraceFacts.
Open Scope string_scope.

(** What the demo mode block leaves behind: it makes no request and no
    spend, and it lets [main] go on only with an enabled policy, with the
    smaller of the liters asked for and their cap. *)
Lemma demo_mode_block_outcome cfg w3 policyOf price liters st :
  let out := demo_mode_block cfg w3 policyOf price liters st in
  (exists prints, log (fst out) = (log st ++ prints)%list /\ quiet prints) /\
  n_http (fst out) = n_http st /\
  n_spend (fst out) = n_spend st /\
  forall adjusted,
    snd out = Ok (Some adjusted) ->
    exists vault owner spender p capped,
      DEMO_VAULT_ADDRESS cfg = Some vault /\
      DEMO_OWNER_ADDRESS cfg = Some owner /\
      account_from_key w3 = Ok spender /\
      read_policy_max_per_tx w3 policyOf (JStr vault) (JStr owner)
        (JStr spender) = Ok p /\
      enabled p = true /\
      cap_liters_to_fit_max_per_tx liters price (maxPerTx p) = Ok capped /\
      adjusted = py_min liters capped.
Proof.
  cbv zeta. unfold demo_mode_block.
  assert (Stop : forall (e : exn) l,
             quiet l ->
             let out := ({| n_http := n_http st; n_spend := n_spend st;
                            log := log st ++ l |},
                         @Raise (option pyfloat) e) in
             (exists prints,
                log (fst out) = (log st ++ prints)%list /\ quiet prints) /\
             n_http (fst out) = n_http st /\
             n_spend (fst out) = n_spend st /\
             forall adjusted,
               snd out = Ok (Some adjusted) ->
               exists vault owner spender p capped,
                 DEMO_VAULT_ADDRESS cfg = Some vault /\
                 DEMO_OWNER_ADDRESS cfg = Some owner /\
                 account_from_key w3 = Ok spender /\
                 read_policy_max_per_tx w3 policyOf (JStr vault) (JStr owner)
                   (JStr spender) = Ok p /\
                 enabled p = true /\
                 cap_liters_to_fit_max_per_tx liters price (maxPerTx p)
                 = Ok capped /\
                 adjusted = py_min liters capped).
  { intros e l Q. cbn. repeat split; eauto. discriminate. }
  destruct (not_set (DEMO_VAULT_ADDRESS cfg) || not_set (DEMO_OWNER_ADDRESS cfg))
    eqn:NS.
  { unfold lift, raise. cbn. repeat split; [exists []|discriminate].
    rewrite List.app_nil_r. auto using quiet_nil. }
  apply orb_false_iff in NS. destruct NS as [NV NO].
  destruct (DEMO_VAULT_ADDRESS cfg) as [vault|] eqn:DV; [|discriminate].
  destruct (DEMO_OWNER_ADDRESS cfg) as [owner|] eqn:DO; [|discriminate].
  cbn [setting_value].
  destruct (account_from_key w3) as [spender|e] eqn:A.
  2:{ rewrite step_lift_raise. cbn. repeat split; [exists []|discriminate].
      rewrite List.app_nil_r. auto using quiet_nil. }
  rewrite step_lift_ok.
  destruct (read_policy_max_per_tx w3 policyOf (JStr vault) (JStr owner)
              (JStr spender)) as [p|e] eqn:RP.
  2:{ rewrite step_lift_raise. cbn. repeat split; [exists []|discriminate].
      rewrite List.app_nil_r. auto using quiet_nil. }
  rewrite step_lift_ok, step_print.
  destruct (from_usdc_base_units (maxPerTx p)) as [u1|e].
  2:{ rewrite step_lift_raise. apply Stop. apply quiet_print. }
  rewrite step_lift_ok.
  destruct (from_usdc_base_units (dailyLimit p)) as [u2|e].
  2:{ rewrite step_lift_raise. apply Stop. apply quiet_print. }
  rewrite step_lift_ok.
  destruct (enabled p) eqn:En; cbn [negb].
  2:{ rewrite step_print. unfold ret. cbn [fst snd log n_http n_spend].
      rewrite <- List.app_assoc.
      repeat split; [eexists; split; [reflexivity|repeat split]|discriminate]. }
  destruct (cap_liters_to_fit_max_per_tx liters price (maxPerTx p))
    as [capped|e] eqn:C.
  2:{ rewrite step_lift_raise. apply Stop. apply quiet_print. }
  rewrite step_lift_ok.
  destruct (flt capped liters) eqn:F.
  - rewrite step_print. unfold ret. cbn [fst snd log n_http n_spend].
    rewrite <- List.app_assoc.
    repeat split; [eexists; split; [reflexivity|repeat split]|].
    intros adj H. inversion H; subst.
    exists vault, owner, spender, p, adj. repeat split; auto.
    unfold py_min. rewrite F. reflexivity.
  - unfold ret. cbn [fst snd log n_http n_spend].
    repeat split; [eexists; split; [reflexivity|repeat split]|].
    intros adj H. inversion H; subst.
    exists vault, owner, spender, p, capped. repeat split; auto.
    unfold py_min. rewrite F. reflexivity.
Qed.

Section Main.

Variable float_of_str : string -> result pyfloat.

(** X24.  In demo mode a purchase request is made only if the vault and owner
    addresses are set and the policy read from the vault is enabled; the
    first request then asks for the smaller of the liters the trader
    asked for and their cap under the policy's per-transaction limit,
    which is never more than the trader asked for. *)
Theorem demo_mode_first_request cfg w3 policyOf E trader_event first rest :
  DEMO_MODE cfg = true ->
  purchase_liters
    (log (fst (run (main_from_trader_event float_of_str cfg w3 policyOf E
                      trader_event))))
  = first :: rest ->
  exists liters_json liters price_json price vault owner spender p capped,
    json_item trader_event "liters" = Ok liters_json /\
    to_float float_of_str liters_json = Ok liters /\
    json_item trader_event "max_price_per_liter_usd" = Ok price_json /\
    to_float float_of_str price_json = Ok price /\
    DEMO_VAULT_ADDRESS cfg = Some vault /\
    DEMO_OWNER_ADDRESS cfg = Some owner /\
    account_from_key w3 = Ok spender /\
    read_policy_max_per_tx w3 policyOf (JStr vault) (JStr owner) (JStr spender)
    = Ok p /\
    enabled p = true /\
    cap_liters_to_fit_max_per_tx liters price (maxPerTx p) = Ok capped /\
    first = JFloat (py_min liters capped) /\
    (not_nan liters = true -> fle (py_min liters capped) liters = true).
Proof.
  intros D. unfold run, main_from_trader_event.
  destruct (json_get trader_event "event") as [event|e];
    [rewrite step_lift_ok | rewrite step_lift_raise; discriminate].
  destruct (eq_str event "NO_ACTION"); [discriminate|].
  destruct (json_item trader_event "car_id") as [car|e];
    [rewrite step_lift_ok | rewrite step_lift_raise; discriminate].
  destruct (json_item trader_event "fuel_type") as [fuel|e];
    [rewrite step_lift_ok | rewrite step_lift_raise; discriminate].
  destruct (json_item trader_event "max_price_per_liter_usd") as [pj|e];
    [rewrite step_lift_ok | rewrite step_lift_raise; discriminate].
  destruct (to_float float_of_str pj) as [price|e] eqn:Tp;
    [rewrite step_lift_ok | rewrite step_lift_raise; discriminate].
  destruct (json_item trader_event "liters") as [lj|e];
    [rewrite step_lift_ok | rewrite step_lift_raise; discriminate].
  destruct (to_float float_of_str lj) as [liters|e] eqn:Tl;
    [rewrite step_lift_ok | rewrite step_lift_raise; discriminate].
  rewrite D, step_io.
  pose proof (demo_mode_block_outcome cfg w3 policyOf price liters start) as O.
  cbv zeta in O.
  destruct (demo_mode_block cfg w3 policyOf price liters start)
    as [st' [[adjusted|]|e]];
    cbn [fst snd] in O;
    destruct O as ((prints & L & Q) & _ & _ & O); cbn [log start app] in L.
  - destruct (O adjusted eq_refl)
      as (vault & owner & spender & p & capped & H1 & H2 & H3 & H4 & H5 & H6 & ->).
    destruct (main_settlement_from E car fuel price (py_min liters capped) st')
      as (seg & Ls & T).
    destruct (settlement_quantities _ _ _ _ _ _ _ _ T) as (rest' & Lq & _).
    rewrite Ls, L, purchase_liters_app, (purchase_liters_quiet _ Q), Lq.
    cbn [app]. intros H. inversion H; subst.
    exists lj, liters, pj, price, vault, owner, spender, p, capped.
    repeat split; auto.
    apply OrderFacts.py_min_below.
  - unfold ret. cbn [fst]. rewrite L, (purchase_liters_quiet _ Q). discriminate.
  - cbn [fst]. rewrite L, (purchase_liters_quiet _ Q). discriminate.
Qed.

End Main.

Lemma demo_mode_first_request_witness :
  exists liters_json liters price_json price vault owner spender p capped,
    json_item trader_event "liters" = Ok liters_json /\
    to_float no_float_of_str liters_json = Ok liters /\
    json_item trader_event "max_price_per_liter_usd" = Ok price_json /\
    to_float no_float_of_str price_json = Ok price /\
    DEMO_VAULT_ADDRESS demo_settings = Some vault /\
    DEMO_OWNER_ADDRESS demo_settings = Some owner /\
    account_from_key w3_ok = Ok spender /\
    read_policy_max_per_tx w3_ok (policy_of true 50000000) (JStr vault)
      (JStr owner) (JStr spender) = Ok p /\
    enabled p = true /\
    cap_liters_to_fit_max_per_tx liters price (maxPerTx p) = Ok capped /\
    JFloat (float_lit 20) = JFloat (py_min liters capped) /\
    (not_nan liters = true -> fle (py_min liters capped) liters = true).
Proof.
  apply (demo_mode_first_request no_float_of_str demo_settings w3_ok
           (policy_of true 50000000) env_ok trader_event
           (JFloat (float_lit 20)) []).
  - reflexivity.
  - vm_compute. reflexivity.
Defined.

Close Scope string_scope.
End DemoModeFacts.

Module ReportFacts.
Import Py World CarAgent Spec Scenarios Runs TraceFacts.
Open Scope string_scope.

Lemma eq_str_refl s : eq_str (JStr s) s = true.
Proof. apply String.eqb_refl. Qed.

(** X25.  The [PAYMENT_FAILED] event carries the invoice id and the error as
    given, and three or four suggestions; "Reduce liters ..." is among
    them exactly for the error on which [main] retries with fewer liters,
    [CONTRACT_REVERT] with the reason "exceeds maxPerTx". *)
Theorem payment_failed_event_suggests_fewer_liters
  (r : SpendResult) (d : dict) (invoice_id : json) :
  error r = Some d ->
  let event := make_payment_failed_event invoice_id d in
  dict_get event "event" = JStr "PAYMENT_FAILED" /\
  dict_get event "invoiceId" = invoice_id /\
  dict_get event "error" = JDict d /\
  exists actions,
    dict_get event "suggested_actions" = JList actions /\
    (3 <= List.length actions <= 4)%nat /\
    (In (JStr "Reduce liters to fit maxPerTx, or increase maxPerTx policy.")
        actions
     <-> exceeds_max_per_tx r).
Proof.
  intros Er. cbv zeta. unfold make_payment_failed_event.
  repeat (split; [reflexivity|]).
  eexists. split; [reflexivity|].
  destruct (eq_str (dict_get d "type") "CONTRACT_REVERT"
            && eq_str (dict_get d "reason") "exceeds maxPerTx") eqn:C.
  - split; [cbn; lia|]. split; [|intros _; left; reflexivity].
    intros _. apply andb_true_iff in C. destruct C as [C1 C2].
    exists d. auto using eq_str_true.
  - split; [cbn; lia|]. split.
    + intros [H|[H|[H|[]]]]; discriminate H.
    + intros (d' & Er' & T & R). rewrite Er in Er'. inversion Er'; subst d'.
      rewrite T, R, !eq_str_refl in C. discriminate C.
Qed.

Lemma payment_failed_event_suggests_fewer_liters_witness :
  let d := [("type", JStr "CONTRACT_REVERT");
            ("reason", JStr "exceeds maxPerTx")] in
  let event := make_payment_failed_event (JStr "inv-1") d in
  dict_get event "event" = JStr "PAYMENT_FAILED" /\
  dict_get event "invoiceId" = JStr "inv-1" /\
  dict_get event "error" = JDict d /\
  exists actions,
    dict_get event "suggested_actions" = JList actions /\
    (3 <= List.length actions <= 4)%nat /\
    (In (JStr "Reduce liters to fit maxPerTx, or increase maxPerTx policy.")
        actions
     <-> exceeds_max_per_tx {| tx_hash := None; error := Some d |}).
Proof.
  cbv zeta.
  apply (payment_failed_event_suggests_fewer_liters
           {| tx_hash := None;
              error := Some [("type", JStr "CONTRACT_REVERT");
                             ("reason", JStr "exceeds maxPerTx")] |}).
  reflexivity.
Defined.

Close Scope string_scope.
End ReportFacts.

(* ================================================================= *)
(** * The reasons the parsers return *)
(* ================================================================= *)

Module ReasonFacts.
Import Py World Spec Scenarios Runs RevertReasonFacts.
Open Scope string_scope.

Lemma all_chars_take_while p s : all_chars p (take_while p s) = true.
Proof.
  induction s as [|c s IH]; [reflexivity|].
  cbn [take_while]. destruct (p c) eqn:C; [|reflexivity].
  cbn [all_chars]. rewrite C, IH. reflexivity.
Qed.

Lemma all_chars_lstrip p s : all_chars p s = true -> all_chars p (lstrip s) = true.
Proof.
  induction s as [|c s IH]; [auto|].
  cbn [lstrip all_chars]. intros H. apply andb_true_iff in H.
  destruct H as [H1 H2].
  destruct (is_space c); [auto|]. cbn [all_chars]. rewrite H1, H2. reflexivity.
Qed.

Lemma all_chars_rstrip p s : all_chars p s = true -> all_chars p (rstrip s) = true.
Proof.
  induction s as [|c s IH]; [auto|].
  cbn [rstrip all_chars]. intros H. apply andb_true_iff in H.
  destruct H as [H1 H2].
  destruct (is_space c && is_empty (rstrip s)); [reflexivity|].
  cbn [all_chars]. rewrite H1, (IH H2). reflexivity.
Qed.

Lemma all_chars_strip p s : all_chars p s = true -> all_chars p (strip s) = true.
Proof. intros H. apply all_chars_rstrip, all_chars_lstrip, H. Qed.

Lemma re_search_all_chars lit cls s g :
  re_search lit cls s = Some g -> all_chars cls g = true.
Proof.
  induction s as [|c s IH]; rewrite re_search_unfold; unfold re_match_at.
  - destruct (drop_prefix lit EmptyString) as [r|]; [|discriminate].
    destruct (take_while cls r) eqn:T; [discriminate|].
    intros H. inversion H; subst. rewrite <- T. apply all_chars_take_while.
  - destruct (drop_prefix lit (String c s)) as [r|]; [|exact IH].
    destruct (take_while cls r) eqn:T; [exact IH|].
    intros H. inversion H; subst. rewrite <- T. apply all_chars_take_while.
Qed.

(** X26.  Both parsers always give a reason, and the reason they give never
    contains an apostrophe and has no white space around it, whatever the
    message of the exception. *)
Theorem revert_reasons_are_clean (cls : exn_class) (msg : string) :
  clean (CarAgent.parse_revert_reason (Exn cls msg)) /\
  exists reason, M2MClient.revert_reason msg = Ok reason /\ clean reason.
Proof.
  split.
  - unfold CarAgent.parse_revert_reason. cbn [exn_str].
    destruct (re_search "execution reverted: " not_apostrophe msg) as [g|] eqn:R.
    + split; [|apply TxHashFacts.strip_idempotent].
      apply all_chars_strip. exact (re_search_all_chars _ _ _ _ R).
    + split; reflexivity.
  - unfold M2MClient.revert_reason.
    destruct (contains "execution reverted:" msg) eqn:C;
      [|eexists; split; [reflexivity | split; reflexivity]].
    rewrite partition_contains in C.
    destruct (partition "execution reverted:" msg) as [[pre post]|] eqn:P;
      [|discriminate].
    unfold split. cbn [is_empty bind].
    rewrite (split_partition _ _ _ _ _ P).
    unfold list_item. cbn [nth_error].
    pose proof (SpendFacts.split_from_nonempty "execution reverted:" 0 post) as N1.
    destruct (split_from "execution reverted:" 0 post) as [|p ps];
      [contradiction|].
    cbn [nth_error bind].
    destruct (split_apostrophe_first p) as (qs & Q). rewrite Q.
    cbn [nth_error bind]. eexists. split; [reflexivity|].
    split; [|apply TxHashFacts.strip_idempotent].
    apply all_chars_strip, all_chars_take_while.
Qed.

Close Scope string_scope.
End ReasonFacts.

(* ================================================================= *)
(** * The requests of a run of [car_agent.py] *)
(* ================================================================= *)

Module RequestFacts.
Import Py World CarAgent Spec Scenarios Runs TraceFacts M2MRunFacts DemoModeFacts.
Open Scope string_scope.

(** A request of [car_agent.py] made for [car], [fuel] and [price]: a
    purchase request that names the three, or a confirmation request. *)
Lemma settlement_posts E car fuel price i j liters seg :
  settlement E car fuel price i j liters seg ->
  forall url payload,
    In (url, payload) (http_posts seg) ->
    (url = "/fuel/purchase" /\
     exists asked, payload = purchase_payload car fuel asked price) \/
    url = "/fuel/confirm".
Proof.
  induction 1 as [i j liters tail Q
                 |i j liters inv v o m a tail C Q
                 |i j liters inv v o m a h tail C Sp Q
                 |i j liters inv v o m a r halved rest C Sp X R T IH];
    intros url payload; read_log; cbn [In].
  - destruct Q as (_ & -> & _).
    intros [H|[]]. inversion H; subst. left. eauto.
  - destruct Q as (_ & -> & _).
    intros [H|[]]. inversion H; subst. left. eauto.
  - destruct Q as (_ & -> & _).
    intros [H|[H|[]]]; inversion H; subst; [left; eauto | right; reflexivity].
  - intros [H|H]; [inversion H; subst; left; eauto | apply IH; exact H].
Qed.

Section Main.

Variable float_of_str : string -> result pyfloat.

(** X28.  Whatever a run of [car_agent.py] sends to the server, it sends
    for a trader event that is a dict, is not [NO_ACTION] and has a car
    id, a fuel type and a maximum price that [float] accepts: each
    request is either a purchase request carrying this car id, this fuel
    type and this price, whatever the retries have done to the liters, or
    a confirmation request. *)
Theorem requests_carry_the_trader_event cfg w3 policyOf E trader_event
  k url payload :
  nth_error
    (http_posts
       (log (fst (run (main_from_trader_event float_of_str cfg w3 policyOf E
                         trader_event))))) k
  = Some (url, payload) ->
  exists event car fuel price_json price,
    json_get trader_event "event" = Ok event /\
    eq_str event "NO_ACTION" = false /\
    json_item trader_event "car_id" = Ok car /\
    json_item trader_event "fuel_type" = Ok fuel /\
    json_item trader_event "max_price_per_liter_usd" = Ok price_json /\
    to_float float_of_str price_json = Ok price /\
    ((url = "/fuel/purchase" /\
      exists asked, payload = purchase_payload car fuel asked price) \/
     url = "/fuel/confirm").
Proof.
  unfold run, main_from_trader_event.
  assert (Nil : forall k, nth_error (@nil (string * json)) k
                          = Some (url, payload) -> False)
    by (intros [|n]; discriminate).
  destruct (json_get trader_event "event") as [event|e];
    [rewrite step_lift_ok | rewrite step_lift_raise; intros H; destruct (Nil _ H)].
  destruct (eq_str event "NO_ACTION") eqn:NA;
    [intros H; destruct (Nil _ H)|].
  destruct (json_item trader_event "car_id") as [car|e];
    [rewrite step_lift_ok | rewrite step_lift_raise; intros H; destruct (Nil _ H)].
  destruct (json_item trader_event "fuel_type") as [fuel|e];
    [rewrite step_lift_ok | rewrite step_lift_raise; intros H; destruct (Nil _ H)].
  destruct (json_item trader_event "max_price_per_liter_usd") as [pj|e];
    [rewrite step_lift_ok | rewrite step_lift_raise; intros H; destruct (Nil _ H)].
  destruct (to_float float_of_str pj) as [price|e] eqn:Tp;
    [rewrite step_lift_ok | rewrite step_lift_raise; intros H; destruct (Nil _ H)].
  destruct (json_item trader_event "liters") as [lj|e];
    [rewrite step_lift_ok | rewrite step_lift_raise; intros H; destruct (Nil _ H)].
  destruct (to_float float_of_str lj) as [liters|e] eqn:Tl;
    [rewrite step_lift_ok | rewrite step_lift_raise; intros H; destruct (Nil _ H)].
  intros N.
  exists event, car, fuel, pj, price.
  split; [reflexivity|]. split; [exact NA|].
  do 3 (split; [reflexivity|]). split; [exact Tp|].
  revert N. destruct (DEMO_MODE cfg).
  - rewrite step_io.
    pose proof (demo_mode_block_outcome cfg w3 policyOf price liters start) as O.
    cbv zeta in O.
    destruct (demo_mode_block cfg w3 policyOf price liters start)
      as [st' [[adjusted|]|e]];
      cbn [fst snd] in O;
      destruct O as ((prints & L & (_ & Q & _)) & _ & _ & _);
      cbn [log start app] in L.
    + destruct (main_settlement_from E car fuel price adjusted st')
        as (seg & Ls & T).
      rewrite Ls, L, http_posts_app, Q. cbn [app]. intros N.
      apply nth_error_In in N.
      apply (settlement_posts _ _ _ _ _ _ _ _ T _ _ N).
    + unfold ret. cbn [fst]. rewrite L, Q. intros H. destruct (Nil _ H).
    + cbn [fst]. rewrite L, Q. intros H. destruct (Nil _ H).
  - intros N. apply nth_error_In in N.
    apply (settlement_posts _ _ _ _ _ _ _ _
             (main_settlement E car fuel price liters) _ _ N).
Qed.

End Main.

Lemma requests_carry_the_trader_event_witness :
  exists event car fuel price_json price,
    json_get trader_event "event" = Ok event /\
    eq_str event "NO_ACTION" = false /\
    json_item trader_event "car_id" = Ok car /\
    json_item trader_event "fuel_type" = Ok fuel /\
    json_item trader_event "max_price_per_liter_usd" = Ok price_json /\
    to_float no_float_of_str price_json = Ok price /\
    (("/fuel/purchase" = "/fuel/purchase" /\
      exists asked,
        purchase_payload car_id fuel_type (float_lit 20) (float_lit (5 # 2))
        = purchase_payload car fuel asked price) \/
     "/fuel/purchase" = "/fuel/confirm").
Proof.
  apply (requests_carry_the_trader_event no_float_of_str demo_settings w3_ok
           (policy_of true 50000000) env_ok trader_event 0 "/fuel/purchase"
           (purchase_payload car_id fuel_type (float_lit 20)
              (float_lit (5 # 2)))).
  vm_compute. reflexivity.
Defined.

Close Scope string_scope.
End RequestFacts.
